(** * SMWS: the Smart Waste Management API of [main.cpp]

    A shallow embedding of the request handlers, the in-memory store
    ([g_bins], [g_next_bin_id]) and the persistence helpers
    ([loadBinsFromFile], [saveBinsToFile]), followed by the properties of
    the service.

    Conventions of the embedding.
    - A C++ [int] is a [Z]; arithmetic that can leave the 32-bit range is
      written with [Int.wrap].  (Signed overflow is undefined behaviour in
      C++; the embedding takes the two's-complement result.)
    - A [std::string] that holds text is a [string]; every string of the
      store comes out of [json::parse] or [getCurrentTimestamp], so it is
      valid UTF-8 and [json::dump] accepts it.
    - [std::vector<WasteBin>] is a [list WasteBin], an iterator a
      position in the list.
    - The globals and the data file form the [world] that every handler
      transforms.  The system clock and the random device are given from
      outside, as the sequences of their readings; the world counts how
      many of them have been taken.
    - The data file is represented by what [json::parse] makes of its
      text, and a request body likewise.  Whether a write reaches the
      file is the disk's: the world holds the outcomes of the writes to
      come, since [saveBinsToFile] never looks at its stream.
    - A C++ exception is the [Throw] case of [result]; the state reached
      before the [throw] is kept, as it is for the globals of the program.
    - The handlers run one after the other.  What goes to [std::cerr] and
      [std::cout] is left out, and so are the routes that only send
      constants (the welcome page, the CORS preflight) and the CORS
      headers.  The dashboard and the health check come with the
      further properties, at the end. *)

From Stdlib Require Import ZArith List String Ascii Bool Lia DecimalString.
From Stdlib Require Import Permutation Sorted.
From Stdlib Require Floats.SpecFloat.
Import ListNotations.

Set Warnings "-register-all".

Local Open Scope string_scope.
Local Open Scope list_scope.
Local Open Scope Z_scope.

(** ** The C++ [int] *)

Module Int.

Definition min_int : Z := - 2 ^ 31.
Definition max_int : Z := 2 ^ 31 - 1.

(** The value a 32-bit two's-complement register holds for [z]. *)
Definition wrap (z : Z) : Z := (z + 2 ^ 31) mod 2 ^ 32 - 2 ^ 31.

Definition in_range (z : Z) : Prop := min_int <= z <= max_int.

Definition in_rangeb (z : Z) : bool := (min_int <=? z) && (z <=? max_int).

(** [x++] and [x + 1] on an [int]. *)
Definition succ (z : Z) : Z := wrap (z + 1).

(** [std::to_string] on an integer. *)
Definition to_string (z : Z) : string := NilZero.string_of_int (Z.to_int z).

Lemma wrap_in_range z : in_range (wrap z).
Proof.
  unfold in_range, wrap, min_int, max_int.
  pose proof (Z.mod_pos_bound (z + 2 ^ 31) (2 ^ 32) ltac:(lia)). lia.
Qed.

Lemma wrap_id z : in_range z -> wrap z = z.
Proof.
  unfold in_range, wrap, min_int, max_int. intros H.
  rewrite Z.mod_small; lia.
Qed.

Lemma succ_small z : in_range z -> z < max_int -> succ z = z + 1.
Proof.
  unfold succ, in_range. intros H Hlt. apply wrap_id. unfold in_range. lia.
Qed.

Lemma in_rangeb_spec z : in_rangeb z = true <-> in_range z.
Proof.
  unfold in_rangeb, in_range.
  rewrite andb_true_iff, !Z.leb_le. tauto.
Qed.

End Int.

(** ** Exceptions *)

(** The outcome of a C++ expression that may throw a [std::exception];
    [Throw] carries the text of [what()]. *)
Inductive result (A : Type) : Type :=
| Ok (a : A)
| Throw (what : string).

Arguments Ok {A} a.
Arguments Throw {A} what.

Definition is_ok {A} (r : result A) : bool :=
  match r with Ok _ => true | Throw _ => false end.

(** ** [nlohmann::json] *)

Module Json.

(** A JSON value as [nlohmann::json] holds it.  [JInt] stands for both
    [number_integer] and [number_unsigned] (64-bit values; the parser
    makes a float of an integer beyond them); [JFloat m e] is the double
    [m * 2^e].  An object is kept as an association list; it is only
    read through [contains], [at] and [operator[]]. *)
Inductive json : Type :=
| JNull
| JBool (b : bool)
| JInt (n : Z)
| JFloat (m e : Z)
| JString (s : string)
| JArray (items : list json)
| JObject (members : list (string * json)).

Definition type_name (j : json) : string :=
  match j with
  | JNull => "null"
  | JBool _ => "boolean"
  | JInt _ | JFloat _ _ => "number"
  | JString _ => "string"
  | JArray _ => "array"
  | JObject _ => "object"
  end.

Definition is_null (j : json) : bool :=
  match j with JNull => true | _ => false end.
Definition is_array (j : json) : bool :=
  match j with JArray _ => true | _ => false end.
Definition is_string (j : json) : bool :=
  match j with JString _ => true | _ => false end.
Definition is_boolean (j : json) : bool :=
  match j with JBool _ => true | _ => false end.
Definition is_number (j : json) : bool :=
  match j with JInt _ | JFloat _ _ => true | _ => false end.

Fixpoint assoc (key : string) (members : list (string * json)) : option json :=
  match members with
  | [] => None
  | (k, v) :: rest => if String.eqb k key then Some v else assoc key rest
  end.

(** [j.contains(key)]: false on anything that is not an object. *)
Definition contains (j : json) (key : string) : bool :=
  match j with
  | JObject members =>
      match assoc key members with Some _ => true | None => false end
  | _ => false
  end.

(** [j[key]] where the key is present; the handlers only use it behind
    [contains].  (Elsewhere the const overload is undefined and the
    other one inserts a null: [JNull] stands for both.) *)
Definition index (j : json) (key : string) : json :=
  match j with
  | JObject members =>
      match assoc key members with Some v => v | None => JNull end
  | _ => JNull
  end.

(** [j.at(key)]: [type_error.304] off objects, [out_of_range.403] on a
    missing key. *)
Definition at_key (j : json) (key : string) : result json :=
  match j with
  | JObject members =>
      match assoc key members with
      | Some v => Ok v
      | None =>
          Throw ("[json.exception.out_of_range.403] key '" ++ key ++ "' not found")%string
      end
  | _ => Throw ("[json.exception.type_error.304] cannot use at() with "
                  ++ type_name j)%string
  end.

(** [static_cast<int>] of the double [m * 2^e]: truncation toward zero
    (the cast is undefined outside the range of [int]; the embedding
    wraps there too). *)
Definition trunc_float (m e : Z) : Z :=
  if 0 <=? e then m * 2 ^ e else Z.quot m (2 ^ (- e)).

(** [j.get<int>()]: every number converts, and so does a boolean;
    anything else is [type_error.302]. *)
Definition get_int (j : json) : result Z :=
  match j with
  | JInt n => Ok (Int.wrap n)
  | JFloat m e => Ok (Int.wrap (trunc_float m e))
  | JBool b => Ok (if b then 1 else 0)
  | _ => Throw ("[json.exception.type_error.302] type must be number, but is "
                  ++ type_name j)%string
  end.

Definition get_string (j : json) : result string :=
  match j with
  | JString s => Ok s
  | _ => Throw ("[json.exception.type_error.302] type must be string, but is "
                  ++ type_name j)%string
  end.

Definition get_bool (j : json) : result bool :=
  match j with
  | JBool b => Ok b
  | _ => Throw ("[json.exception.type_error.302] type must be boolean, but is "
                  ++ type_name j)%string
  end.

(** What a range-based [for] visits: the elements of an array, the
    values of an object, nothing for [null], and a scalar itself. *)
Definition elements (j : json) : list json :=
  match j with
  | JArray items => items
  | JObject members => map snd members
  | JNull => []
  | _ => [j]
  end.

(** [j.push_back(x)] on an array. *)
Definition push_back (j x : json) : json :=
  match j with
  | JArray items => JArray (items ++ [x])
  | _ => j
  end.

Fixpoint assoc_set (key : string) (v : json) (members : list (string * json))
    : list (string * json) :=
  match members with
  | [] => [(key, v)]
  | (k, x) :: rest =>
      if String.eqb k key then (k, v) :: rest
      else (k, x) :: assoc_set key v rest
  end.

(** [j[key] = v] on an object (a [null] becomes an object first). *)
Definition set_key (j : json) (key : string) (v : json) : json :=
  match j with
  | JObject members => JObject (assoc_set key v members)
  | JNull => JObject [(key, v)]
  | _ => j
  end.

End Json.

Import Json.

(** ** [class WasteBin] *)

Record WasteBin : Type := mkBin {
  id : Z;
  location : string;
  fillLevel : Z;
  needsCollection : bool;
  lastUpdated : string
}.

(** The [int] fields hold 32-bit values. *)
Definition bin_ok (b : WasteBin) : Prop :=
  Int.in_range (id b) /\ Int.in_range (fillLevel b).

(** [WasteBin::toJson]. *)
Definition toJson (b : WasteBin) : json :=
  JObject [ ("id", JInt (id b));
            ("location", JString (location b));
            ("fillLevel", JInt (fillLevel b));
            ("needsCollection", JBool (needsCollection b));
            ("lastUpdated", JString (lastUpdated b)) ].

Definition bind_result {A B} (r : result A) (k : A -> result B) : result B :=
  match r with
  | Ok a => k a
  | Throw w => Throw w
  end.

Declare Scope result_scope.
Delimit Scope result_scope with result.
Notation "x <- r ;; k" := (bind_result r (fun x => k))
  (at level 61, r at next level, right associativity) : result_scope.

(** [WasteBin::fromJson]: five [at(...).get<T>()] in the order of the
    source; the first one that throws ends the call. *)
Definition fromJson (j : json) : result WasteBin :=
  (v <- at_key j "id" ;; i <- get_int v ;;
   v <- at_key j "location" ;; l <- get_string v ;;
   v <- at_key j "fillLevel" ;; f <- get_int v ;;
   v <- at_key j "needsCollection" ;; n <- get_bool v ;;
   v <- at_key j "lastUpdated" ;; t <- get_string v ;;
   Ok (mkBin i l f n t))%result.

(** ** [WasteBin::getCurrentTimestamp] *)

(** [std::gmtime]: the civil date of a day count since 1970-01-01, by
    eras of 400 years (146097 days) that start on a first of March.
    [era_date] is the date of a day of the era, with the year counted
    from the start of the era. *)
Definition era_date (doe : Z) : Z * Z * Z :=
  let yoe := (doe - doe / 1460 + doe / 36524 - doe / 146096) / 365 in
  let doy := doe - (365 * yoe + yoe / 4 - yoe / 100) in
  let mp := (5 * doy + 2) / 153 in
  let d := doy - (153 * mp + 2) / 5 + 1 in
  let m := if mp <? 10 then mp + 3 else mp - 9 in
  (if m <=? 2 then yoe + 1 else yoe, m, d).

Definition civil_from_days (days : Z) : Z * Z * Z :=
  let z := days + 719468 in
  let era := z / 146097 in
  let '(y, m, d) := era_date (z - era * 146097) in
  (y + era * 400, m, d).

(** [std::setfill('0') << std::setw(width)] before an integer. *)
Definition zero_pad (width : nat) (z : Z) : string :=
  let digits := Int.to_string z in
  (string_of_list_ascii (repeat "0"%char (width - String.length digits))
     ++ digits)%string.

(** [std::put_time(std::gmtime(&now_c), "%Y-%m-%dT%H:%M:%S")]. *)
Definition put_time (now_c : Z) : string :=
  let '(y, m, d) := civil_from_days (now_c / 86400) in
  let secs := now_c mod 86400 in
  (Int.to_string y ++ "-" ++ zero_pad 2 m ++ "-" ++ zero_pad 2 d ++ "T"
     ++ zero_pad 2 (secs / 3600) ++ ":" ++ zero_pad 2 (secs mod 3600 / 60)
     ++ ":" ++ zero_pad 2 (secs mod 60))%string.

(** The timestamp of the clock reading [now], in milliseconds since the
    epoch (readings before 1970 are not modelled). *)
Definition getCurrentTimestamp (now : Z) : string :=
  let now_c := now / 1000 in
  let now_ms := now mod 1000 in
  (put_time now_c ++ "." ++ zero_pad 3 now_ms ++ "Z")%string.

(** ** The world of the server *)

(** [bin_data.json]: missing, or there with the text that [json::parse]
    turns into [parsed] (a document, or a [parse_error]).  The text of
    [data.dump(4)] parses back to [data]. *)
Inductive file_state : Type :=
| NoFile
| FileText (parsed : result json).

(** What becomes of a write through [std::ofstream file(DATA_FILE)],
    which [saveBinsToFile] never tests: the text arrives; or the file
    cannot be opened and stays as it is, missing if it was missing; or
    the file is opened, which empties it, and the text does not arrive
    in full, which leaves a text on which [json::parse] throws [what]
    (no proper part of the text of a document is a document). *)
Inductive write_outcome : Type :=
| Written
| Refused
| Truncated (what : string).

(** The file after a write of [data] with this outcome. *)
Definition file_after (outcome : write_outcome) (file : file_state)
    (data : json) : file_state :=
  match outcome with
  | Written => FileText (Ok data)
  | Refused => file
  | Truncated what => FileText (Throw what)
  end.

(** The outcomes of the writes that follow the next one. *)
Definition writes_after (outcomes : nat -> write_outcome)
    : nat -> write_outcome :=
  fun k => outcomes (S k).

(** A disk that takes every write. *)
Definition good_disk : nat -> write_outcome := fun _ => Written.

Record world : Type := mkWorld {
  g_bins : list WasteBin;
  g_next_bin_id : Z;
  data_file : file_state;
  clock_reads : nat;   (* readings of [system_clock::now()] taken so far *)
  rng_draws : nat;     (* values drawn from [distrib(gen)] so far *)
  disk : nat -> write_outcome
    (* the outcomes of the writes to the file to come, the next one first *)
}.

(** The globals as the program starts: no bin, next id 1. *)
Definition initial_world (file : file_state) (outcomes : nat -> write_outcome)
    : world :=
  mkWorld [] 1 file 0 0 outcomes.

(** A computation over the world that may throw.  The world that comes
    with a [Throw] is the one reached when the exception was raised. *)
Definition M (A : Type) : Type := world -> result A * world.

Definition ret {A} (a : A) : M A := fun w => (Ok a, w).

Definition bind {A B} (m : M A) (k : A -> M B) : M B :=
  fun w =>
    match m w with
    | (Ok a, w') => k a w'
    | (Throw e, w') => (Throw e, w')
    end.

(** An expression of [result] evaluated in place. *)
Definition lift {A} (r : result A) : M A := fun w => (r, w).

(** [try { m } catch (const std::exception& e) { handler e.what() }]. *)
Definition try_catch {A} (m : M A) (handler : string -> M A) : M A :=
  fun w =>
    match m w with
    | (Ok a, w') => (Ok a, w')
    | (Throw e, w') => handler e w'
    end.

Declare Scope M_scope.
Delimit Scope M_scope with M.
Notation "x <- m ;; k" := (bind m (fun x => k))
  (at level 61, m at next level, right associativity) : M_scope.
Notation "m ;; k" := (bind m (fun _ => k))
  (at level 61, right associativity) : M_scope.

Definition get_bins : M (list WasteBin) := fun w => (Ok (g_bins w), w).

Definition set_bins (bins : list WasteBin) : M unit :=
  fun w => (Ok tt, mkWorld bins (g_next_bin_id w) (data_file w)
                     (clock_reads w) (rng_draws w) (disk w)).

Definition set_next_bin_id (n : Z) : M unit :=
  fun w => (Ok tt, mkWorld (g_bins w) n (data_file w)
                     (clock_reads w) (rng_draws w) (disk w)).

(** [g_next_bin_id++]. *)
Definition post_increment_next_bin_id : M Z :=
  fun w => (Ok (g_next_bin_id w),
            mkWorld (g_bins w) (Int.succ (g_next_bin_id w)) (data_file w)
              (clock_reads w) (rng_draws w) (disk w)).

(** [g_bins.push_back(bin)]. *)
Definition push_bin (bin : WasteBin) : M unit :=
  fun w => (Ok tt, mkWorld (g_bins w ++ [bin]) (g_next_bin_id w) (data_file w)
                     (clock_reads w) (rng_draws w) (disk w)).

Definition read_file : M file_state := fun w => (Ok (data_file w), w).

(** [std::ofstream file(DATA_FILE); file << text], unchecked: the disk
    decides what the file holds afterwards. *)
Definition write_file (data : json) : M unit :=
  fun w => (Ok tt, mkWorld (g_bins w) (g_next_bin_id w)
                     (file_after (disk w 0%nat) (data_file w) data)
                     (clock_reads w) (rng_draws w) (writes_after (disk w))).

(** [std::max_element(first, last, comp)]: the first of the greatest. *)
Fixpoint max_element_from {A} (comp : A -> A -> bool) (largest : A)
    (l : list A) : A :=
  match l with
  | [] => largest
  | x :: rest => max_element_from comp (if comp largest x then x else largest) rest
  end.

Definition max_element {A} (comp : A -> A -> bool) (l : list A) : option A :=
  match l with
  | [] => None
  | x :: rest => Some (max_element_from comp x rest)
  end.

(** [std::find_if(first, last, pred)]: the position of the first match,
    [None] for [last]. *)
Fixpoint find_if {A} (pred : A -> bool) (l : list A) : option nat :=
  match l with
  | [] => None
  | x :: rest =>
      if pred x then Some 0%nat
      else match find_if pred rest with
           | Some i => Some (S i)
           | None => None
           end
  end.

(** [v.erase(it)]. *)
Fixpoint erase {A} (l : list A) (it : nat) : list A :=
  match l, it with
  | [], _ => []
  | _ :: rest, O => rest
  | x :: rest, S i => x :: erase rest i
  end.

(** A write through the iterator [it]. *)
Fixpoint assign_at {A} (l : list A) (it : nat) (f : A -> A) : list A :=
  match l, it with
  | [], _ => []
  | x :: rest, O => f x :: rest
  | x :: rest, S i => x :: assign_at rest i f
  end.

(** ** [std::sort] in GNU libstdc++

    The introsort of [bits/stl_algo.h] and the heap of [bits/stl_heap.h]
    (GCC 12), the implementation behind [std::sort] where the service is
    built with GCC. *)

Module Libstdcxx.

Local Open Scope nat_scope.

Section Sort.

Variable A : Type.
Variable comp : A -> A -> bool.

(** The vector is a list, an iterator a position in it.  [d] is what a
    read outside the vector gives; the loops without a bound check of
    the library never get there when [comp] is a strict weak ordering,
    and neither do the ones below, which stop at the ends of the vector. *)
Variable d : A.

(** [*(first + i)] and [*(first + i) = v]. *)
Definition get (l : list A) (i : nat) : A := nth i l d.

Fixpoint put (l : list A) (i : nat) (v : A) : list A :=
  match l, i with
  | [], _ => []
  | _ :: rest, O => v :: rest
  | x :: rest, S i' => x :: put rest i' v
  end.

(** [std::iter_swap(a, b)]. *)
Definition iter_swap (l : list A) (a b : nat) : list A :=
  put (put l a (get l b)) b (get l a).

(** [__move_median_to_first(result, a, b, c, comp)]. *)
Definition move_median_to_first (l : list A) (result a b c : nat) : list A :=
  if comp (get l a) (get l b) then
    if comp (get l b) (get l c) then iter_swap l result b
    else if comp (get l a) (get l c) then iter_swap l result c
    else iter_swap l result a
  else if comp (get l a) (get l c) then iter_swap l result a
  else if comp (get l b) (get l c) then iter_swap l result c
  else iter_swap l result b.

(** [__unguarded_linear_insert(last, comp)]: the loop, then the call. *)
Fixpoint unguarded_linear_insert_loop (fuel : nat) (l : list A) (val : A)
    (last : nat) : list A :=
  match fuel, last with
  | S fuel', S next =>
      if comp val (get l next)
      then unguarded_linear_insert_loop fuel' (put l last (get l next)) val next
      else put l last val
  | _, _ => put l last val
  end.

Definition unguarded_linear_insert (l : list A) (last : nat) : list A :=
  unguarded_linear_insert_loop (List.length l) l (get l last) last.

(** [std::move_backward(first, first + count, first + count + 1)]. *)
Fixpoint move_backward (l : list A) (first count : nat) : list A :=
  match count with
  | O => l
  | S c => move_backward (put l (first + count) (get l (first + c))) first c
  end.

(** [__insertion_sort(first, last, comp)]: the loop on [i], then the
    call. *)
Fixpoint insertion_sort_loop (count : nat) (l : list A) (first i : nat)
    : list A :=
  match count with
  | O => l
  | S c =>
      let l' :=
        if comp (get l i) (get l first)
        then let val := get l i in
             put (move_backward l first (i - first)) first val
        else unguarded_linear_insert l i in
      insertion_sort_loop c l' first (S i)
  end.

Definition insertion_sort (l : list A) (first last : nat) : list A :=
  if first =? last then l
  else insertion_sort_loop (last - S first) l first (S first).

(** [__unguarded_insertion_sort(first, last, comp)]. *)
Fixpoint unguarded_insertion_sort_loop (count : nat) (l : list A) (i : nat)
    : list A :=
  match count with
  | O => l
  | S c => unguarded_insertion_sort_loop c (unguarded_linear_insert l i) (S i)
  end.

Definition unguarded_insertion_sort (l : list A) (first last : nat) : list A :=
  unguarded_insertion_sort_loop (last - first) l first.

Definition S_threshold : nat := 16.

(** [__final_insertion_sort(first, last, comp)]. *)
Definition final_insertion_sort (l : list A) (first last : nat) : list A :=
  if S_threshold <? last - first
  then unguarded_insertion_sort
         (insertion_sort l first (first + S_threshold))
         (first + S_threshold) last
  else insertion_sort l first last.

(** [__unguarded_partition(first, last, pivot, comp)]: the two inner
    loops, then the outer one. *)
Fixpoint skip_forward (fuel : nat) (l : list A) (pivot first : nat) : nat :=
  match fuel with
  | O => first
  | S fuel' =>
      if comp (get l first) (get l pivot)
      then skip_forward fuel' l pivot (S first)
      else first
  end.

Fixpoint skip_backward (fuel : nat) (l : list A) (pivot last : nat) : nat :=
  match fuel with
  | O => last
  | S fuel' =>
      if comp (get l pivot) (get l last)
      then skip_backward fuel' l pivot (pred last)
      else last
  end.

Fixpoint unguarded_partition (fuel : nat) (l : list A) (first last pivot : nat)
    : list A * nat :=
  match fuel with
  | O => (l, first)
  | S fuel' =>
      let first := skip_forward (List.length l) l pivot first in
      let last := skip_backward (List.length l) l pivot (pred last) in
      if negb (first <? last) then (l, first)
      else unguarded_partition fuel' (iter_swap l first last) (S first) last pivot
  end.

(** [__unguarded_partition_pivot(first, last, comp)]. *)
Definition unguarded_partition_pivot (l : list A) (first last : nat)
    : list A * nat :=
  let mid := first + (last - first) / 2 in
  let l := move_median_to_first l first (first + 1) mid (last - 1) in
  unguarded_partition (List.length l) l (first + 1) last first.

(** [__push_heap(first, holeIndex, topIndex, value, comp)]. *)
Fixpoint push_heap (fuel : nat) (l : list A) (first holeIndex topIndex : nat)
    (value : A) : list A :=
  match fuel with
  | O => put l (first + holeIndex) value
  | S fuel' =>
      let parent := (holeIndex - 1) / 2 in
      if (topIndex <? holeIndex) && comp (get l (first + parent)) value
      then push_heap fuel' (put l (first + holeIndex) (get l (first + parent)))
             first parent topIndex value
      else put l (first + holeIndex) value
  end.

(** [__adjust_heap(first, holeIndex, len, value, comp)]: the loop on
    [secondChild], then the call.  ([len] is at least 1 in every call.) *)
Fixpoint adjust_heap_loop (fuel : nat) (l : list A)
    (first holeIndex secondChild len : nat) : list A * nat * nat :=
  match fuel with
  | O => (l, holeIndex, secondChild)
  | S fuel' =>
      if secondChild <? (len - 1) / 2 then
        let secondChild := 2 * (secondChild + 1) in
        let secondChild :=
          if comp (get l (first + secondChild)) (get l (first + (secondChild - 1)))
          then secondChild - 1 else secondChild in
        adjust_heap_loop fuel' (put l (first + holeIndex) (get l (first + secondChild)))
          first secondChild secondChild len
      else (l, holeIndex, secondChild)
  end.

Definition adjust_heap (l : list A) (first holeIndex len : nat) (value : A)
    : list A :=
  let topIndex := holeIndex in
  let '(l, holeIndex, secondChild) :=
    adjust_heap_loop len l first holeIndex holeIndex len in
  let '(l, holeIndex) :=
    if Nat.even len && (2 <=? len) && (secondChild =? (len - 2) / 2) then
      let secondChild := 2 * (secondChild + 1) in
      (put l (first + holeIndex) (get l (first + (secondChild - 1))),
       secondChild - 1)
    else (l, holeIndex) in
  push_heap len l first holeIndex topIndex value.

(** [__pop_heap(first, last, result, comp)]. *)
Definition pop_heap (l : list A) (first last result : nat) : list A :=
  let value := get l result in
  let l := put l result (get l first) in
  adjust_heap l first 0 (last - first) value.

(** [__make_heap(first, last, comp)]. *)
Fixpoint make_heap_loop (fuel : nat) (l : list A) (first len parent : nat)
    : list A :=
  match fuel with
  | O => l
  | S fuel' =>
      let value := get l (first + parent) in
      let l := adjust_heap l first parent len value in
      match parent with
      | O => l
      | S parent' => make_heap_loop fuel' l first len parent'
      end
  end.

Definition make_heap (l : list A) (first last : nat) : list A :=
  if last - first <? 2 then l
  else let len := last - first in
       make_heap_loop len l first len ((len - 2) / 2).

(** [__sort_heap(first, last, comp)]. *)
Fixpoint sort_heap_loop (fuel : nat) (l : list A) (first last : nat) : list A :=
  match fuel with
  | O => l
  | S fuel' =>
      if 1 <? last - first
      then let last := last - 1 in
           sort_heap_loop fuel' (pop_heap l first last last) first last
      else l
  end.

Definition sort_heap (l : list A) (first last : nat) : list A :=
  sort_heap_loop (last - first) l first last.

(** [__heap_select(first, middle, last, comp)]. *)
Fixpoint heap_select_loop (count : nat) (l : list A) (first middle i : nat)
    : list A :=
  match count with
  | O => l
  | S c =>
      let l := if comp (get l i) (get l first)
               then pop_heap l first middle i else l in
      heap_select_loop c l first middle (S i)
  end.

Definition heap_select (l : list A) (first middle last : nat) : list A :=
  heap_select_loop (last - middle) (make_heap l first middle) first middle middle.

(** [__partial_sort(first, middle, last, comp)]. *)
Definition partial_sort (l : list A) (first middle last : nat) : list A :=
  sort_heap (heap_select l first middle last) first middle.

(** [__introsort_loop(first, last, depth_limit, comp)]: one turn of the
    [while] is one step of the recursion. *)
Fixpoint introsort_loop (depth_limit : nat) (l : list A) (first last : nat)
    : list A :=
  if S_threshold <? last - first then
    match depth_limit with
    | O => partial_sort l first last last
    | S depth =>
        let '(l, cut) := unguarded_partition_pivot l first last in
        let l := introsort_loop depth l cut last in
        introsort_loop depth l first cut
    end
  else l.

(** [std::sort(v.begin(), v.end(), comp)]. *)
Definition sort (l : list A) : list A :=
  match l with
  | [] => l
  | _ =>
      let n := List.length l in
      final_insertion_sort (introsort_loop (Nat.log2 n * 2) l 0 n) 0 n
  end.

End Sort.
End Libstdcxx.

Section Service.

(** The environment: [system_clock k] is the [k]-th reading of
    [std::chrono::system_clock::now()] that the process takes, in
    milliseconds since the epoch, and [distrib k] the [k]-th value that
    [distrib(gen)] returns. *)
Variable system_clock : nat -> Z.
Variable distrib : nat -> Z.

Local Open Scope M_scope.

(** A call of [getCurrentTimestamp()]. *)
Definition current_timestamp : M string :=
  fun w => (Ok (getCurrentTimestamp (system_clock (clock_reads w))),
            mkWorld (g_bins w) (g_next_bin_id w) (data_file w)
              (S (clock_reads w)) (rng_draws w) (disk w)).

(** [WasteBin()]. *)
Definition WasteBin_default : M WasteBin :=
  t <- current_timestamp ;; ret (mkBin 0 "" 0 false t).

(** [WasteBin(id, location)]. *)
Definition WasteBin_new (i : Z) (l : string) : M WasteBin :=
  t <- current_timestamp ;; ret (mkBin i l 0 false t).

(** [WasteBin::fromJson] as it runs: the default constructor first,
    then the five fields. *)
Definition WasteBin_fromJson (j : json) : M WasteBin :=
  _ <- WasteBin_default ;; lift (fromJson j).

(** The [for] loop of [loadBinsFromFile]. *)
Fixpoint load_items (items : list json) : M unit :=
  match items with
  | [] => ret tt
  | item :: rest =>
      bin <- WasteBin_fromJson item ;; push_bin bin ;; load_items rest
  end.

Definition loadBinsFromFile : M unit :=
  try_catch
    (file <- read_file ;;
     match file with
     | NoFile => set_bins [] ;; set_next_bin_id 1
     | FileText parsed =>
         data <- lift parsed ;;
         set_bins [] ;;
         load_items (elements data) ;;
         bins <- get_bins ;;
         match max_element (fun a b => id a <? id b) bins with
         | Some largest => set_next_bin_id (Int.succ (id largest))
         | None => set_next_bin_id 1   (* [g_bins.empty()] *)
         end
     end)
    (fun _ => set_bins [] ;; set_next_bin_id 1).

(** An array filled with [push_back(bin.toJson())], bin after bin. *)
Definition to_json_array (bins : list WasteBin) : json :=
  fold_left (fun arr bin => push_back arr (toJson bin)) bins (JArray []).

(** [saveBinsToFile].  The stream is not tested and the [catch] only
    logs: the function returns in the same way whether the text has
    reached the file or not, and nothing tells the caller. *)
Definition saveBinsToFile : M unit :=
  try_catch
    (bins <- get_bins ;; write_file (to_json_array bins))
    (fun _ => ret tt).

(** *** The responses *)

(** What a handler leaves in [httplib::Response]: the status (200 when
    the handler does not set one) and the JSON document whose [dump()]
    is the content. *)
Record response : Type := mkResponse {
  status : Z;
  content : json
}.

(** [createApiResponse(success, message, data)]; [JNull] for the
    default argument. *)
Definition createApiResponse (success : bool) (message : string)
    (data : json) : json :=
  let response := JObject [ ("success", JBool success);
                            ("message", JString message) ] in
  if negb (is_null data) then set_key response "data" data else response.

(** [std::stoi(req.matches[1])]: the route captures [\d+], whose value
    is [digits]; [stoi] throws [std::out_of_range] above [INT_MAX]. *)
Definition stoi (digits : N) : result Z :=
  if Z.of_N digits <=? Int.max_int then Ok (Z.of_N digits) else Throw "stoi".

Definition not_found (binId : Z) : response :=
  mkResponse 404
    (createApiResponse false
       ("Bin with ID " ++ Int.to_string binId ++ " not found")%string JNull).

Definition error_response (what : string) : response :=
  mkResponse 400 (createApiResponse false ("Error: " ++ what)%string JNull).

(** *** POST /bins *)

(** Lines 215-217: a bin is created with the next id and appended. *)
Definition create_bin (l : string) : M WasteBin :=
  i <- post_increment_next_bin_id ;;
  newBin <- WasteBin_new i l ;;
  push_bin newBin ;;
  ret newBin.

(** The loop over the elements of the request: [inl] is the [return]
    of line 210, [inr] the bins created when the loop runs to its end. *)
Fixpoint post_bins_loop (items : list json) (created : list WasteBin)
    : M (response + list WasteBin) :=
  match items with
  | [] => ret (inr created)
  | binData :: rest =>
      if negb (contains binData "location")
         || negb (is_string (index binData "location"))
      then ret (inl (mkResponse 400
                       (createApiResponse false
                          "Each bin must have a location string" JNull)))
      else
        l <- lift (get_string (index binData "location")) ;;
        newBin <- create_bin l ;;
        post_bins_loop rest (created ++ [newBin])
  end.

(** [body] is [json::parse(req.body)]. *)
Definition post_bins (body : result json) : M response :=
  try_catch
    (requestData <- lift body ;;
     let requestData :=
       if negb (is_array requestData)
       then push_back (JArray []) requestData
       else requestData in
     r <- post_bins_loop (elements requestData) [] ;;
     match r with
     | inl early => ret early
     | inr created =>
         saveBinsToFile ;;
         ret (mkResponse 201
                (createApiResponse true
                   (Int.to_string (Z.of_nat (List.length created))
                      ++ " bins added successfully")%string
                   (to_json_array created)))
     end)
    (fun what => ret (error_response what)).

(** *** GET /bins and GET /bins/{id} *)

Definition get_all_bins : M response :=
  bins <- get_bins ;;
  match bins with
  | [] => ret (mkResponse 200
                 (createApiResponse true "No bins available" (JArray [])))
  | _ => ret (mkResponse 200
                (createApiResponse true
                   ("Retrieved " ++ Int.to_string (Z.of_nat (List.length bins))
                      ++ " bins")%string
                   (to_json_array bins)))
  end.

Definition get_bin (digits : N) : M response :=
  binId <- lift (stoi digits) ;;
  bins <- get_bins ;;
  match find (fun bin => id bin =? binId) bins with
  | Some bin =>
      ret (mkResponse 200
             (createApiResponse true
                ("Retrieved bin with ID " ++ Int.to_string binId)%string
                (toJson bin)))
  | None => ret (not_found binId)
  end.

(** *** DELETE /bins/{id} *)

(** Lines 292-297: the first bin with the id is erased. *)
Definition delete_bin (binId : Z) : M bool :=
  bins <- get_bins ;;
  match find_if (fun bin => id bin =? binId) bins with
  | Some it => set_bins (erase bins it) ;; ret true
  | None => ret false
  end.

Definition delete_bin_by_id (digits : N) : M response :=
  binId <- lift (stoi digits) ;;
  erased <- delete_bin binId ;;
  if erased : bool then
    saveBinsToFile ;;
    ret (mkResponse 200
           (createApiResponse true
              ("Bin with ID " ++ Int.to_string binId
                 ++ " deleted successfully")%string JNull))
  else ret (not_found binId).

(** *** PUT /bins/{id} *)

Definition set_location (v : string) (b : WasteBin) : WasteBin :=
  mkBin (id b) v (fillLevel b) (needsCollection b) (lastUpdated b).
Definition set_fillLevel (v : Z) (b : WasteBin) : WasteBin :=
  mkBin (id b) (location b) v (needsCollection b) (lastUpdated b).
Definition set_needsCollection (v : bool) (b : WasteBin) : WasteBin :=
  mkBin (id b) (location b) (fillLevel b) v (lastUpdated b).
Definition set_lastUpdated (v : string) (b : WasteBin) : WasteBin :=
  mkBin (id b) (location b) (fillLevel b) (needsCollection b) v.

(** [it->field = v] on [g_bins]. *)
Definition assign (it : nat) (f : WasteBin -> WasteBin) : M unit :=
  bins <- get_bins ;; set_bins (assign_at bins it f).

(** [*it] (the iterator comes from [find_if] and is valid). *)
Definition deref (it : nat) : M WasteBin :=
  bins <- get_bins ;; ret (nth it bins (mkBin 0 "" 0 false "")).

(** [std::max(0, std::min(100, v))]. *)
Definition clamp (v : Z) : Z := Z.max 0 (Z.min 100 v).

Definition updated_response (binId : Z) (bin : WasteBin) : response :=
  mkResponse 200
    (createApiResponse true
       ("Bin with ID " ++ Int.to_string binId ++ " updated successfully")%string
       (toJson bin)).

Definition put_bin (digits : N) (body : result json) : M response :=
  try_catch
    (binId <- lift (stoi digits) ;;
     updateData <- lift body ;;
     bins <- get_bins ;;
     match find_if (fun bin => id bin =? binId) bins with
     | Some it =>
         (if contains updateData "location"
             && is_string (index updateData "location")
          then v <- lift (get_string (index updateData "location")) ;;
               assign it (set_location v)
          else ret tt) ;;
         (if contains updateData "fillLevel"
             && is_number (index updateData "fillLevel")
          then v <- lift (get_int (index updateData "fillLevel")) ;;
               assign it (set_fillLevel (clamp v))
          else ret tt) ;;
         (if contains updateData "needsCollection"
             && is_boolean (index updateData "needsCollection")
          then v <- lift (get_bool (index updateData "needsCollection")) ;;
               assign it (set_needsCollection v)
          else ret tt) ;;
         tmp <- WasteBin_default ;;
         assign it (set_lastUpdated (lastUpdated tmp)) ;;
         saveBinsToFile ;;
         bin <- deref it ;;
         ret (updated_response binId bin)
     | None => ret (not_found binId)
     end)
    (fun what => ret (error_response what)).

(** *** POST /bins/collect-sensor-data *)

(** [distrib(gen)]. *)
Definition draw : M Z :=
  fun w => (Ok (distrib (rng_draws w)),
            mkWorld (g_bins w) (g_next_bin_id w) (data_file w)
              (clock_reads w) (S (rng_draws w)) (disk w)).

(** The body of the loop over [g_bins], on one bin. *)
Definition sense_bin (bin : WasteBin) : M WasteBin :=
  level <- draw ;;
  let bin := set_fillLevel level bin in
  let bin := set_needsCollection (fillLevel bin >=? 75) bin in
  tmp <- WasteBin_default ;;
  ret (set_lastUpdated (lastUpdated tmp) bin).

(** [for (auto& bin : g_bins)]: the bins are rewritten front to back. *)
Fixpoint sense_bins (bins : list WasteBin) : M (list WasteBin) :=
  match bins with
  | [] => ret []
  | bin :: rest =>
      bin' <- sense_bin bin ;;
      rest' <- sense_bins rest ;;
      ret (bin' :: rest')
  end.

Definition collect_sensor_data : M response :=
  bins <- get_bins ;;
  match bins with
  | [] => ret (mkResponse 404
                 (createApiResponse false "No bins available" JNull))
  | _ =>
      updated <- sense_bins bins ;;
      set_bins updated ;;
      saveBinsToFile ;;
      ret (mkResponse 200
             (createApiResponse true "Sensor data collected and updated"
                (to_json_array updated)))
  end.

(** *** GET /optimize-route *)

(** [std::sort(first, last, comp)] on a vector of bins. *)
Variable std_sort :
  (WasteBin -> WasteBin -> bool) -> list WasteBin -> list WasteBin.

(** The comparison of line 418. *)
Definition fuller (a b : WasteBin) : bool := fillLevel a >? fillLevel b.

(** Lines 400-419: the bins of the route, in the order of the route. *)
Definition computeRoute (bins : list WasteBin) : list WasteBin :=
  let toCollect := filter needsCollection bins in
  match toCollect with
  | [] => []
  | _ => std_sort fuller toCollect
  end.

Definition route_entry (bin : WasteBin) : json :=
  JObject [ ("id", JInt (id bin));
            ("location", JString (location bin));
            ("fillLevel", JInt (fillLevel bin));
            ("lastUpdated", JString (lastUpdated bin)) ].

Definition optimize_route : M response :=
  bins <- get_bins ;;
  match computeRoute bins with
  | [] => ret (mkResponse 200
                 (createApiResponse true "No bins need collection right now"
                    (JArray [])))
  | toCollect =>
      let routeJson :=
        fold_left (fun arr bin => push_back arr (route_entry bin))
          toCollect (JArray []) in
      let responseData :=
        JObject [ ("binsToCollect", JInt (Z.of_nat (List.length toCollect)));
                  ("route", routeJson) ] in
      ret (mkResponse 200
             (createApiResponse true
                ("Found " ++ Int.to_string (Z.of_nat (List.length toCollect))
                   ++ " bins needing collection")%string
                responseData))
  end.

(** *** POST /admin/load-data and POST /admin/save-data *)

Definition admin_load_data : M response :=
  loadBinsFromFile ;;
  bins <- get_bins ;;
  ret (mkResponse 200
         (createApiResponse true
            ("Successfully loaded " ++ Int.to_string (Z.of_nat (List.length bins))
               ++ " bins from file")%string JNull)).

Definition admin_save_data : M response :=
  saveBinsToFile ;;
  bins <- get_bins ;;
  ret (mkResponse 200
         (createApiResponse true
            ("Successfully saved " ++ Int.to_string (Z.of_nat (List.length bins))
               ++ " bins to file")%string JNull)).

(** *** The routes *)

Inductive request : Type :=
| GET_bins
| GET_bin (digits : N)
| POST_bins (body : result json)
| PUT_bin (digits : N) (body : result json)
| DELETE_bin (digits : N)
| POST_collect_sensor_data
| GET_optimize_route
| POST_admin_load_data
| POST_admin_save_data.

Definition handle (r : request) : M response :=
  match r with
  | GET_bins => get_all_bins
  | GET_bin digits => get_bin digits
  | POST_bins body => post_bins body
  | PUT_bin digits body => put_bin digits body
  | DELETE_bin digits => delete_bin_by_id digits
  | POST_collect_sensor_data => collect_sensor_data
  | GET_optimize_route => optimize_route
  | POST_admin_load_data => admin_load_data
  | POST_admin_save_data => admin_save_data
  end.

(** [main]: the data is loaded, then the requests are served one after
    the other.  (An exception that leaves a handler is left to
    cpp-httplib; the globals stay as they are at the [throw].) *)
Definition run (requests : list request) (w : world) : world :=
  fold_left (fun w r => snd (handle r w)) requests w.

Definition main (file : file_state) (outcomes : nat -> write_outcome)
    (requests : list request) : world :=
  run requests (snd (loadBinsFromFile (initial_world file outcomes))).

End Service.

(** * Properties *)

Local Open Scope M_scope.

(** ** POST /bins *)

Section PostBins.

Variable system_clock : nat -> Z.

(** What [create_bin] does to the world. *)
Definition new_bin (l : string) (w : world) : WasteBin :=
  mkBin (g_next_bin_id w) l 0 false
    (getCurrentTimestamp (system_clock (clock_reads w))).

Lemma create_bin_spec l w :
  create_bin system_clock l w =
    (Ok (new_bin l w),
     mkWorld (g_bins w ++ [new_bin l w]) (Int.succ (g_next_bin_id w))
       (data_file w) (S (clock_reads w)) (rng_draws w) (disk w)).
Proof. reflexivity. Qed.

(** An element that the loop of the handler accepts. *)
Definition has_location (binData : json) : bool :=
  contains binData "location" && is_string (index binData "location").

Lemma post_bins_loop_reject binData rest created w :
  has_location binData = false ->
  post_bins_loop system_clock (binData :: rest) created w =
    (Ok (inl (mkResponse 400
                (createApiResponse false
                   "Each bin must have a location string" JNull))), w).
Proof.
  unfold has_location. intros H. simpl.
  rewrite <- negb_andb, H. reflexivity.
Qed.

(** The location that the loop reads in an element it accepts. *)
Definition location_of (binData : json) : option string :=
  match binData with
  | JObject members =>
      match assoc "location" members with
      | Some (JString l) => Some l
      | _ => None
      end
  | _ => None
  end.

Lemma has_location_of binData :
  has_location binData = true ->
  exists l, location_of binData = Some l
            /\ index binData "location" = JString l.
Proof.
  unfold has_location, location_of, contains, index.
  destruct binData; try discriminate.
  destruct (assoc "location" members) as [[]|]; try discriminate.
  intros _. eauto.
Qed.

Lemma location_of_has binData l :
  location_of binData = Some l -> has_location binData = true.
Proof.
  unfold has_location, location_of, contains, index.
  destruct binData; try discriminate.
  destruct (assoc "location" members) as [[]|]; try discriminate.
  reflexivity.
Qed.

Lemma has_location_false binData :
  has_location binData = false <-> location_of binData = None.
Proof.
  split; intros H.
  - destruct (location_of binData) as [l|] eqn:E; [|reflexivity].
    apply location_of_has in E. congruence.
  - destruct (has_location binData) eqn:E; [|reflexivity].
    apply has_location_of in E as (l & E & _). congruence.
Qed.

(** The locations of the elements before the first one that the loop
    rejects, and whether the loop reaches the end of the request. *)
Fixpoint accepted (items : list json) : list string * bool :=
  match items with
  | [] => ([], true)
  | binData :: rest =>
      match location_of binData with
      | Some l => let '(ls, complete) := accepted rest in (l :: ls, complete)
      | None => ([], false)
      end
  end.

(** The bins that successive [create_bin] make of these locations. *)
Fixpoint new_bins (locations : list string) (next : Z) (reads : nat)
    : list WasteBin :=
  match locations with
  | [] => []
  | l :: rest =>
      mkBin next l 0 false (getCurrentTimestamp (system_clock reads))
        :: new_bins rest (Int.succ next) (S reads)
  end.

Definition reject : response :=
  mkResponse 400
    (createApiResponse false "Each bin must have a location string" JNull).

Lemma post_bins_loop_spec items : forall created w,
  post_bins_loop system_clock items created w =
    let '(ls, complete) := accepted items in
    let new := new_bins ls (g_next_bin_id w) (clock_reads w) in
    (Ok (if complete then inr (created ++ new) else inl reject),
     mkWorld (g_bins w ++ new)
       (Nat.iter (List.length ls) Int.succ (g_next_bin_id w))
       (data_file w) (clock_reads w + List.length ls) (rng_draws w) (disk w)).
Proof.
  induction items as [|binData rest IH]; intros created w.
  - simpl. rewrite !app_nil_r, Nat.add_0_r. destruct w; reflexivity.
  - destruct (location_of binData) as [l|] eqn:E.
    + pose proof (location_of_has _ _ E) as Hacc.
      destruct (has_location_of _ Hacc) as (l' & E' & Hidx).
      assert (l' = l) by congruence. subst l'.
      cbn [post_bins_loop accepted]. rewrite E.
      fold (has_location binData) in *.
      replace (negb (contains binData "location")
               || negb (is_string (index binData "location")))
        with (negb (has_location binData))
        by (unfold has_location; apply negb_andb).
      rewrite Hacc, Hidx. cbn [negb get_string].
      unfold lift at 1. unfold bind at 1.
      unfold bind at 1. rewrite create_bin_spec. unfold new_bin.
      rewrite IH. cbn [g_bins g_next_bin_id clock_reads data_file rng_draws].
      destruct (accepted rest) as [ls complete].
      cbn [new_bins List.length].
      rewrite <- !app_assoc. cbn [app].
      rewrite Nat.add_succ_r, <- Nat.add_succ_l.
      replace (Nat.iter (S (List.length ls)) Int.succ (g_next_bin_id w))
        with (Nat.iter (List.length ls) Int.succ (Int.succ (g_next_bin_id w)))
        by (symmetry; apply Nat.iter_succ_r).
      reflexivity.
    + cbn [accepted]. rewrite E.
      apply has_location_false in E.
      rewrite post_bins_loop_reject by exact E.
      cbn [new_bins List.length Nat.iter].
      rewrite app_nil_r, Nat.add_0_r. destruct w; reflexivity.
Qed.

(** The elements that the handler walks through: those of an array,
    and the body itself when it is not an array. *)
Definition request_items (requestData : json) : list json :=
  if is_array requestData then elements requestData else [requestData].

Definition created_response (created : list WasteBin) : response :=
  mkResponse 201
    (createApiResponse true
       (Int.to_string (Z.of_nat (List.length created))
          ++ " bins added successfully")%string
       (to_json_array created)).

(** The whole handler, as a function of the request. *)
Lemma post_bins_spec body w :
  post_bins system_clock body w =
    match body with
    | Throw what => (Ok (error_response what), w)
    | Ok requestData =>
        let '(ls, complete) := accepted (request_items requestData) in
        let new := new_bins ls (g_next_bin_id w) (clock_reads w) in
        let bins := g_bins w ++ new in
        let next := Nat.iter (List.length ls) Int.succ (g_next_bin_id w) in
        let reads := (clock_reads w + List.length ls)%nat in
        if complete
        then (Ok (created_response new),
              mkWorld bins next (file_after (disk w 0%nat) (data_file w)
                                   (to_json_array bins))
                reads (rng_draws w) (writes_after (disk w)))
        else (Ok reject,
              mkWorld bins next (data_file w) reads (rng_draws w) (disk w))
    end.
Proof.
  destruct body as [requestData|what]; [|reflexivity].
  unfold post_bins, try_catch.
  unfold lift at 1. unfold bind at 1.
  replace (elements (if negb (is_array requestData)
                     then push_back (JArray []) requestData
                     else requestData))
    with (request_items requestData)
    by (unfold request_items; destruct requestData; reflexivity).
  unfold bind at 1. rewrite post_bins_loop_spec.
  destruct (accepted (request_items requestData)) as [ls [|]];
    reflexivity.
Qed.

End PostBins.

Lemma accepted_rejects items :
  Exists (fun binData => has_location binData = false) items ->
  snd (accepted items) = false.
Proof.
  induction items as [|binData rest IH]; intros H.
  - inversion H.
  - cbn [accepted]. destruct (location_of binData) as [l|] eqn:E; [|reflexivity].
    inversion H as [? ? Hbad|? ? Hrest]; subst.
    + apply has_location_false in Hbad. congruence.
    + specialize (IH Hrest). destruct (accepted rest). exact IH.
Qed.

(** The part of the validation rule that the handler keeps: a request
    with an element that has no string [location] is answered 400 and
    the data file is not written. *)
Lemma post_bins_rejected system_clock items w :
  Exists (fun binData => has_location binData = false) items ->
  fst (post_bins system_clock (Ok (JArray items)) w) = Ok reject
  /\ status reject = 400
  /\ data_file (snd (post_bins system_clock (Ok (JArray items)) w))
     = data_file w.
Proof.
  intros H. apply accepted_rejects in H.
  rewrite post_bins_spec. unfold request_items. cbn [is_array elements].
  destruct (accepted items) as [ls complete]. cbn [snd] in H. subst complete.
  repeat split.
Qed.

(** C1.  POST /bins with the body [[{"location":"A"},{}]]: the second
    element has no [location], the answer is 400 and the file is not
    written, but the bin of the first element stays in [g_bins] and
    [g_next_bin_id] has moved on: the store is not as it was before the
    request. *)
Theorem post_bins_rejected_keeps_earlier_bins :
  forall (system_clock : nat -> Z) (w : world),
    let body := Ok (JArray [ JObject [("location", JString "A")];
                              JObject [] ]) in
    let w' := snd (post_bins system_clock body w) in
    fst (post_bins system_clock body w) = Ok reject
    /\ status reject = 400
    /\ data_file w' = data_file w
    /\ g_bins w' = g_bins w ++ [new_bin system_clock "A" w]
    /\ g_bins w' <> g_bins w
    /\ g_next_bin_id w' = Int.succ (g_next_bin_id w).
Proof.
  intros system_clock w body w'. subst body w'.
  rewrite post_bins_spec. cbn.
  repeat split.
  intros H. apply (f_equal (@List.length _)) in H.
  rewrite length_app in H. cbn in H. lia.
Qed.

(** C10.  POST /bins with the body [[]] is answered 201 with an empty
    array as [data]; no bin is created and [g_bins] and [g_next_bin_id]
    are what they were. *)
Theorem post_bins_empty_array :
  forall (system_clock : nat -> Z) (w : world),
    let r := post_bins system_clock (Ok (JArray [])) w in
    exists resp,
      fst r = Ok resp
      /\ status resp = 201
      /\ contains (content resp) "data" = true
      /\ index (content resp) "data" = JArray []
      /\ index (content resp) "success" = JBool true
      /\ g_bins (snd r) = g_bins w
      /\ g_next_bin_id (snd r) = g_next_bin_id w.
Proof.
  intros system_clock w r. subst r.
  rewrite post_bins_spec. cbn.
  exists (created_response []).
  rewrite app_nil_r. repeat split.
Qed.

(** ** Identifiers *)

Lemma find_if_some {A} (pred : A -> bool) l it :
  find_if pred l = Some it ->
  exists x, nth_error l it = Some x /\ pred x = true.
Proof.
  revert it. induction l as [|y l IH]; intros it H; [discriminate|].
  cbn [find_if] in H. destruct (pred y) eqn:E.
  - injection H as <-. exists y. split; [reflexivity|exact E].
  - destruct (find_if pred l) as [i|]; [|discriminate].
    injection H as <-. apply IH. reflexivity.
Qed.

Lemma Forall_erase {A} (P : A -> Prop) l it :
  Forall P l -> Forall P (erase l it).
Proof.
  revert it. induction l as [|x l IH]; intros it H; [constructor|].
  inversion H; subst. destruct it; cbn [erase]; auto.
Qed.

Lemma Forall_assign_at {A} (P : A -> Prop) l it f :
  (forall x, P x -> P (f x)) -> Forall P l -> Forall P (assign_at l it f).
Proof.
  intros Hf. revert it. induction l as [|x l IH]; intros it H; [constructor|].
  inversion H; subst. destruct it; cbn [assign_at]; auto.
Qed.

(** Every id of the store is below the counter. *)
Definition counter_ahead (w : world) : Prop :=
  Int.in_range (g_next_bin_id w)
  /\ Forall (fun b => id b < g_next_bin_id w) (g_bins w).

Definition counter_aheadb (w : world) : bool :=
  Int.in_rangeb (g_next_bin_id w)
  && forallb (fun b => id b <? g_next_bin_id w) (g_bins w).

Lemma counter_aheadb_spec w : counter_aheadb w = true <-> counter_ahead w.
Proof.
  unfold counter_aheadb, counter_ahead.
  rewrite andb_true_iff, Int.in_rangeb_spec, forallb_forall, Forall_forall.
  split; intros [H1 H2]; split; auto; intros b Hb; apply Z.ltb_lt; auto.
Qed.

Lemma delete_bin_spec binId w :
  delete_bin binId w =
    match find_if (fun bin => id bin =? binId) (g_bins w) with
    | Some it =>
        (Ok true, mkWorld (erase (g_bins w) it) (g_next_bin_id w)
                    (data_file w) (clock_reads w) (rng_draws w) (disk w))
    | None => (Ok false, w)
    end.
Proof.
  unfold delete_bin, bind, get_bins.
  destruct (find_if _ (g_bins w)); reflexivity.
Qed.

Section Operations.

Variable system_clock : nat -> Z.

(** The two operations of the store that touch identifiers, as the
    handlers run them, and what each one reports. *)
Inductive operation : Type :=
| Create (l : string)
| Delete (binId : Z).

Inductive event : Type :=
| Created (i : Z)
| Deleted (i : Z)
| NotFound (i : Z).

Definition perform (op : operation) : M event :=
  match op with
  | Create l => newBin <- create_bin system_clock l ;; ret (Created (id newBin))
  | Delete binId =>
      erased <- delete_bin binId ;;
      ret (if erased : bool then Deleted binId else NotFound binId)
  end.

Fixpoint perform_all (ops : list operation) : M (list event) :=
  match ops with
  | [] => ret []
  | op :: rest =>
      e <- perform op ;; es <- perform_all rest ;; ret (e :: es)
  end.

Definition created_ids (evs : list event) : list Z :=
  flat_map (fun e => match e with Created i => [i] | _ => [] end) evs.

Definition creations (ops : list operation) : nat :=
  List.length (filter (fun op => match op with Create _ => true | _ => false end)
                 ops).

Lemma perform_create l w :
  perform (Create l) w =
    (Ok (Created (g_next_bin_id w)), snd (create_bin system_clock l w)).
Proof. reflexivity. Qed.

Lemma create_bin_counter_ahead l w :
  counter_ahead w -> g_next_bin_id w < Int.max_int ->
  counter_ahead (snd (create_bin system_clock l w))
  /\ g_next_bin_id (snd (create_bin system_clock l w)) = g_next_bin_id w + 1.
Proof.
  intros [Hr Hb] Hlt. rewrite create_bin_spec.
  cbn [snd g_next_bin_id g_bins]. unfold counter_ahead.
  cbn [g_next_bin_id g_bins]. rewrite Int.succ_small by assumption.
  split; [split|reflexivity].
  - unfold Int.in_range, Int.max_int, Int.min_int in *. lia.
  - apply Forall_app. split.
    + eapply Forall_impl; [|exact Hb]. cbn. intros; lia.
    + constructor; [cbn; lia|constructor].
Qed.

Lemma delete_bin_counter_ahead binId w :
  counter_ahead w ->
  counter_ahead (snd (delete_bin binId w))
  /\ g_next_bin_id (snd (delete_bin binId w)) = g_next_bin_id w
  /\ (fst (delete_bin binId w) = Ok true -> binId < g_next_bin_id w).
Proof.
  intros [Hr Hb]. rewrite delete_bin_spec.
  destruct (find_if _ (g_bins w)) as [it|] eqn:E; cbn [fst snd].
  - split; [split|split]; cbn [g_next_bin_id g_bins];
      auto using Forall_erase.
    intros _. apply find_if_some in E as (x & Hx & Hid).
    apply Z.eqb_eq in Hid. subst binId.
    apply nth_error_In in Hx. rewrite Forall_forall in Hb. auto.
  - split; [split|split]; auto. discriminate.
Qed.

(** A run of operations from a world whose counter is ahead: the ids
    it assigns start at the counter and go up, and an id that it
    deletes is below every id assigned afterwards. *)
Lemma perform_all_spec ops : forall w,
  counter_ahead w ->
  g_next_bin_id w + Z.of_nat (creations ops) <= Int.max_int ->
  exists evs w',
    perform_all ops w = (Ok evs, w')
    /\ counter_ahead w'
    /\ g_next_bin_id w' = g_next_bin_id w + Z.of_nat (creations ops)
    /\ Forall (fun i => g_next_bin_id w <= i) (created_ids evs)
    /\ StronglySorted Z.lt (created_ids evs)
    /\ (forall before i after,
           evs = before ++ Deleted i :: after ->
           Forall (fun j => i < j) (created_ids after)).
Proof.
  induction ops as [|op rest IH]; intros w Hw Hmax.
  - exists [], w. cbn. rewrite Z.add_0_r.
    split; [reflexivity|]. split; [exact Hw|]. split; [reflexivity|].
    split; [constructor|]. split; [constructor|].
    intros before i after H. destruct before; discriminate.
  - destruct op as [l|binId].
    + (* Create *)
      unfold creations in *. cbn [filter List.length] in Hmax.
      fold (creations rest) in *.
      destruct (create_bin_counter_ahead l w Hw) as [Hw1 Hn1]; [lia|].
      destruct (IH _ Hw1) as (evs & w' & Hrun & Hw' & Hn' & Hge & Hsorted & Hdel);
        [lia|].
      rewrite Hn1 in Hn', Hge.
      exists (Created (g_next_bin_id w) :: evs), w'.
      cbn [perform_all]. unfold bind at 1. rewrite perform_create.
      unfold bind at 1. rewrite Hrun. cbn [ret].
      cbn [filter List.length]. fold (creations rest).
      split; [reflexivity|]. split; [exact Hw'|]. split; [lia|].
      assert (Hgt : Forall (fun i => g_next_bin_id w < i) (created_ids evs))
        by (eapply Forall_impl; [|exact Hge]; intros i Hi; cbv beta in *; lia).
      split; [|split].
      * cbn. constructor; [lia|].
        eapply Forall_impl; [|exact Hgt]. cbn. intros; lia.
      * cbn. constructor; assumption.
      * intros before i after H. destruct before as [|e before]; [discriminate|].
        injection H as _ H. eauto.
    + (* Delete *)
      unfold creations in *. cbn [filter] in Hmax. fold (creations rest) in *.
      destruct (delete_bin_counter_ahead binId w Hw) as (Hw1 & Hn1 & Hlt).
      destruct (IH _ Hw1) as (evs & w' & Hrun & Hw' & Hn' & Hge & Hsorted & Hdel);
        [lia|].
      destruct (delete_bin binId w) as [[erased|what] w1] eqn:Hdelete.
      2:{ rewrite delete_bin_spec in Hdelete.
          destruct (find_if _ (g_bins w)); discriminate. }
      cbn [fst snd] in *.
      rewrite Hn1 in Hn', Hge.
      exists ((if erased then Deleted binId else NotFound binId) :: evs), w'.
      cbn [perform_all perform]. unfold bind at 1. unfold bind at 1.
      rewrite Hdelete. cbn [ret]. unfold bind at 1. rewrite Hrun.
      cbn [filter]. fold (creations rest).
      split; [reflexivity|]. split; [exact Hw'|]. split; [lia|].
      assert (Hcreated : created_ids ((if erased then Deleted binId
                                       else NotFound binId) :: evs)
                         = created_ids evs) by (destruct erased; reflexivity).
      rewrite Hcreated.
      split; [|split].
      * eapply Forall_impl; [|exact Hge]. cbn. intros; lia.
      * exact Hsorted.
      * intros before i after H. destruct before as [|e before].
        -- cbn [app] in H. destruct erased; [|discriminate].
           injection H as -> ->.
           specialize (Hlt eq_refl).
           eapply Forall_impl; [|exact Hge]. cbn. intros; lia.
        -- injection H as _ H. eauto.
Qed.

End Operations.

(** The handlers run these operations: POST /bins creates a bin for
    each location that its loop accepts, DELETE /bins/{id} deletes; what
    they do besides is to write the file. *)
Lemma perform_all_creates system_clock ls : forall w,
  exists evs,
    perform_all system_clock (map Create ls) w =
      (Ok evs,
       mkWorld (g_bins w ++ new_bins system_clock ls (g_next_bin_id w)
                              (clock_reads w))
         (Nat.iter (List.length ls) Int.succ (g_next_bin_id w))
         (data_file w) (clock_reads w + List.length ls) (rng_draws w) (disk w)).
Proof.
  induction ls as [|l ls IH]; intros w.
  - exists []. cbn. rewrite app_nil_r, Nat.add_0_r. destruct w; reflexivity.
  - cbn [map perform_all]. unfold bind at 1. rewrite perform_create.
    rewrite create_bin_spec. cbn [snd].
    destruct (IH (mkWorld (g_bins w ++ [new_bin system_clock l w])
                    (Int.succ (g_next_bin_id w)) (data_file w)
                    (S (clock_reads w)) (rng_draws w) (disk w))) as [evs Hrun].
    exists (Created (g_next_bin_id w) :: evs).
    unfold bind at 1. rewrite Hrun.
    cbn [g_bins g_next_bin_id data_file clock_reads rng_draws new_bins
           List.length ret].
    rewrite <- app_assoc. cbn [app]. unfold new_bin.
    rewrite <- Nat.add_succ_comm.
    replace (Nat.iter (S (List.length ls)) Int.succ (g_next_bin_id w))
      with (Nat.iter (List.length ls) Int.succ (Int.succ (g_next_bin_id w)))
      by (symmetry; apply Nat.iter_succ_r).
    reflexivity.
Qed.

Lemma post_bins_performs system_clock requestData w :
  let ops := map Create (fst (accepted (request_items requestData))) in
  let w1 := snd (post_bins system_clock (Ok requestData) w) in
  let w2 := snd (perform_all system_clock ops w) in
  g_bins w1 = g_bins w2 /\ g_next_bin_id w1 = g_next_bin_id w2.
Proof.
  cbv zeta. rewrite post_bins_spec.
  destruct (accepted (request_items requestData)) as [ls complete].
  cbn [fst].
  destruct (perform_all_creates system_clock ls w) as [evs ->].
  destruct complete; split; reflexivity.
Qed.

Lemma StronglySorted_lt_NoDup (l : list Z) : StronglySorted Z.lt l -> NoDup l.
Proof.
  induction 1 as [|x l Hs IH Hx]; constructor; auto.
  intros Hin. rewrite Forall_forall in Hx. specialize (Hx _ Hin). lia.
Qed.

(** C3.  Along every sequence of create and delete operations run from
    a world whose counter is ahead of the ids of the store (as long as
    the counter stays within [int]), the ids that the creates assign are
    strictly increasing, hence pairwise distinct, and an id that a
    delete has removed is not assigned by any later create. *)
Theorem created_ids_increase_and_are_never_reused :
  forall (system_clock : nat -> Z) (ops : list operation) (w : world),
    counter_ahead w ->
    g_next_bin_id w + Z.of_nat (creations ops) <= Int.max_int ->
    exists evs w',
      perform_all system_clock ops w = (Ok evs, w')
      /\ StronglySorted Z.lt (created_ids evs)
      /\ NoDup (created_ids evs)
      /\ (forall before i after,
             evs = before ++ Deleted i :: after ->
             ~ In i (created_ids after)).
Proof.
  intros system_clock ops w Hw Hmax.
  destruct (perform_all_spec system_clock ops w Hw Hmax)
    as (evs & w' & Hrun & _ & _ & _ & Hsorted & Hdel).
  exists evs, w'. split; [exact Hrun|]. split; [exact Hsorted|].
  split; [apply StronglySorted_lt_NoDup; exact Hsorted|].
  intros before i after Hsplit Hin.
  specialize (Hdel _ _ _ Hsplit). rewrite Forall_forall in Hdel.
  specialize (Hdel _ Hin). lia.
Qed.

(** A run on the empty store: two creates, a delete of the first bin,
    one more create. *)
Lemma created_ids_increase_and_are_never_reused_witness :
  exists evs w',
    perform_all (fun _ => 0)
      [Create "A"; Create "B"; Delete 1; Create "C"]
      (initial_world NoFile good_disk)
    = (Ok evs, w')
    /\ StronglySorted Z.lt (created_ids evs)
    /\ NoDup (created_ids evs)
    /\ (forall before i after,
           evs = before ++ Deleted i :: after ->
           ~ In i (created_ids after)).
Proof.
  apply created_ids_increase_and_are_never_reused.
  - apply counter_aheadb_spec. reflexivity.
  - vm_compute. discriminate.
Defined.

(** ** Loading and saving *)

Section Persistence.

Variable system_clock : nat -> Z.

(** The bins that the loop of [loadBinsFromFile] pushes before it
    stops, and the exception that stops it, if any. *)
Fixpoint loaded (items : list json) : list WasteBin * option string :=
  match items with
  | [] => ([], None)
  | item :: rest =>
      match fromJson item with
      | Ok bin => let '(bins, e) := loaded rest in (bin :: bins, e)
      | Throw what => ([], Some what)
      end
  end.

(** The clock readings of that loop: one per call of [fromJson]. *)
Definition load_reads (items : list json) : nat :=
  match loaded items with
  | (bins, None) => List.length bins
  | (bins, Some _) => S (List.length bins)
  end.

Lemma WasteBin_fromJson_spec j w :
  WasteBin_fromJson system_clock j w =
    (fromJson j, mkWorld (g_bins w) (g_next_bin_id w) (data_file w)
                   (S (clock_reads w)) (rng_draws w) (disk w)).
Proof. reflexivity. Qed.

Lemma load_items_spec items : forall w,
  load_items system_clock items w =
    (match snd (loaded items) with
     | None => Ok tt
     | Some what => Throw what
     end,
     mkWorld (g_bins w ++ fst (loaded items)) (g_next_bin_id w)
       (data_file w) (clock_reads w + load_reads items) (rng_draws w) (disk w)).
Proof.
  unfold load_reads.
  induction items as [|item rest IH]; intros w.
  - cbn. rewrite app_nil_r, Nat.add_0_r. destruct w; reflexivity.
  - cbn [load_items loaded].
    unfold bind at 1. rewrite WasteBin_fromJson_spec.
    destruct (fromJson item) as [bin|what].
    + unfold bind at 1. cbn [push_bin]. rewrite IH.
      cbn [g_bins g_next_bin_id data_file clock_reads rng_draws].
      destruct (loaded rest) as [bins [what|]]; cbn [fst snd List.length];
        rewrite <- app_assoc; cbn [app];
        rewrite <- ?Nat.add_succ_comm; reflexivity.
    + cbn [fst snd List.length]. rewrite app_nil_r.
      rewrite Nat.add_1_r. reflexivity.
Qed.

(** The counter that a load computes from the bins it has read. *)
Definition next_id_of (bins : list WasteBin) : Z :=
  match max_element (fun a b => id a <? id b) bins with
  | Some largest => Int.succ (id largest)
  | None => 1
  end.

(** [loadBinsFromFile], as a function of the file. *)
Definition load_result (w : world) : list WasteBin * Z * nat :=
  match data_file w with
  | NoFile => ([], 1, clock_reads w)
  | FileText (Throw _) => ([], 1, clock_reads w)
  | FileText (Ok data) =>
      let reads := (clock_reads w + load_reads (elements data))%nat in
      match loaded (elements data) with
      | (bins, None) => (bins, next_id_of bins, reads)
      | (_, Some _) => ([], 1, reads)
      end
  end.

Lemma loadBinsFromFile_spec w :
  loadBinsFromFile system_clock w =
    let '(bins, next, reads) := load_result w in
    (Ok tt, mkWorld bins next (data_file w) reads (rng_draws w) (disk w)).
Proof.
  unfold loadBinsFromFile, load_result, try_catch.
  unfold bind at 1. cbn [read_file].
  destruct (data_file w) as [|[data|what]] eqn:Hfile.
  - cbn. rewrite Hfile. reflexivity.
  - unfold lift at 1. unfold bind at 1. unfold bind at 1.
    cbn [set_bins]. unfold bind at 1. rewrite load_items_spec.
    cbn [g_bins g_next_bin_id data_file clock_reads rng_draws app].
    destruct (loaded (elements data)) as [bins [what|]]; cbn [fst snd].
    + cbn. rewrite Hfile. reflexivity.
    + unfold bind at 1. cbn [get_bins g_bins]. unfold next_id_of.
      destruct (max_element _ bins); cbn; rewrite Hfile; reflexivity.
  - cbn. rewrite Hfile. reflexivity.
Qed.

Lemma to_json_array_spec bins : to_json_array bins = JArray (map toJson bins).
Proof.
  unfold to_json_array.
  assert (H : forall acc,
             fold_left (fun arr bin => push_back arr (toJson bin)) bins
               (JArray acc) = JArray (acc ++ map toJson bins)).
  { induction bins as [|b bins IH]; intros acc; cbn.
    - rewrite app_nil_r. reflexivity.
    - rewrite IH, <- app_assoc. reflexivity. }
  apply (H []).
Qed.

Lemma saveBinsToFile_spec w :
  saveBinsToFile w =
    (Ok tt, mkWorld (g_bins w) (g_next_bin_id w)
              (file_after (disk w 0%nat) (data_file w)
                 (JArray (map toJson (g_bins w))))
              (clock_reads w) (rng_draws w) (writes_after (disk w))).
Proof.
  unfold saveBinsToFile, try_catch, bind, get_bins, write_file.
  rewrite to_json_array_spec. reflexivity.
Qed.

(** DELETE /bins/{id} runs [Delete] and saves. *)
Lemma delete_bin_by_id_performs digits binId w :
  stoi digits = Ok binId ->
  let w1 := snd (delete_bin_by_id digits w) in
  let w2 := snd (perform system_clock (Delete binId) w) in
  g_bins w1 = g_bins w2 /\ g_next_bin_id w1 = g_next_bin_id w2.
Proof.
  intros Hid. cbv zeta. unfold delete_bin_by_id, perform, bind, lift.
  rewrite Hid, delete_bin_spec.
  destruct (find_if _ (g_bins w)) as [it|]; [|split; reflexivity].
  rewrite saveBinsToFile_spec. split; reflexivity.
Qed.

(** Reading back what [toJson] wrote. *)
Lemma fromJson_toJson b : bin_ok b -> fromJson (toJson b) = Ok b.
Proof.
  intros [Hid Hfill]. destruct b as [i l f n t]. cbn in *.
  rewrite !Int.wrap_id by assumption. reflexivity.
Qed.

Lemma loaded_toJson bins :
  Forall bin_ok bins -> loaded (map toJson bins) = (bins, None).
Proof.
  induction 1 as [|b bins Hb _ IH]; [reflexivity|].
  cbn [map loaded]. rewrite fromJson_toJson by exact Hb. rewrite IH.
  reflexivity.
Qed.

End Persistence.

(** The greatest id of a store that is not empty. *)
Definition greatest_id (bins : list WasteBin) : Z :=
  match bins with
  | [] => 0
  | b :: rest => fold_left Z.max (map id rest) (id b)
  end.

(** The id that the specification announces for the next bin: the
    greatest id of the store plus 1, or 1 when the store is empty. *)
Definition max_id_plus_one (bins : list WasteBin) : Z :=
  match bins with
  | [] => 1
  | _ => greatest_id bins + 1
  end.

Lemma fold_left_max_ge l : forall a,
  a <= fold_left Z.max l a /\ Forall (fun x => x <= fold_left Z.max l a) l.
Proof.
  induction l as [|x l IH]; intros a; cbn.
  - split; [lia|constructor].
  - destruct (IH (Z.max a x)) as [H1 H2]. split; [lia|].
    constructor; [lia|exact H2].
Qed.

Lemma fold_left_max_in l : forall a,
  fold_left Z.max l a = a \/ In (fold_left Z.max l a) l.
Proof.
  induction l as [|x l IH]; intros a; cbn; [auto|].
  destruct (IH (Z.max a x)) as [H|H]; [|auto].
  rewrite H. destruct (Z.max_spec a x) as [[_ ->]|[_ ->]]; auto.
Qed.

(** [greatest_id] is an id of the store and no id of the store is above it. *)
Lemma greatest_id_spec bins :
  bins <> [] ->
  In (greatest_id bins) (map id bins)
  /\ Forall (fun b => id b <= greatest_id bins) bins.
Proof.
  destruct bins as [|b rest]; [congruence|]. intros _.
  unfold greatest_id. cbn [map].
  destruct (fold_left_max_ge (map id rest) (id b)) as [H1 H2].
  split.
  - destruct (fold_left_max_in (map id rest) (id b)) as [->|H];
      [left; reflexivity|right; exact H].
  - constructor; [exact H1|].
    rewrite Forall_map in H2. exact H2.
Qed.

Lemma max_element_from_id largest l :
  id (max_element_from (fun a b => id a <? id b) largest l)
  = fold_left Z.max (map id l) (id largest).
Proof.
  revert largest. induction l as [|x l IH]; intros largest; [reflexivity|].
  cbn [max_element_from map fold_left]. rewrite IH. f_equal.
  destruct (id largest <? id x) eqn:E.
  - apply Z.ltb_lt in E. lia.
  - apply Z.ltb_ge in E. lia.
Qed.

Lemma next_id_of_spec bins :
  next_id_of bins = match bins with
                    | [] => 1
                    | _ => Int.succ (greatest_id bins)
                    end.
Proof.
  destruct bins as [|b rest]; [reflexivity|].
  unfold next_id_of, max_element, greatest_id.
  rewrite max_element_from_id. reflexivity.
Qed.

(** After a load that succeeds the counter is ahead of the ids, unless
    the file holds the greatest [int]. *)
Lemma next_id_of_ahead bins :
  Forall bin_ok bins ->
  Forall (fun b => id b < Int.max_int) bins ->
  next_id_of bins = max_id_plus_one bins
  /\ Int.in_range (next_id_of bins)
  /\ Forall (fun b => id b < next_id_of bins) bins.
Proof.
  intros Hok Hlt. rewrite next_id_of_spec. unfold max_id_plus_one.
  destruct bins as [|b rest].
  - split; [reflexivity|]. split; [|constructor].
    unfold Int.in_range, Int.min_int, Int.max_int. lia.
  - destruct (@greatest_id_spec (b :: rest)) as [Hin Hmax]; [discriminate|].
    set (g := greatest_id (b :: rest)) in *.
    apply in_map_iff in Hin as (x & Hx & Hxin).
    rewrite Forall_forall in Hok, Hlt.
    assert (Hg : Int.in_range g /\ g < Int.max_int).
    { rewrite <- Hx. split; [apply (Hok x Hxin)|apply (Hlt x Hxin)]. }
    destruct Hg as [Hg1 Hg2].
    rewrite Int.succ_small by assumption.
    split; [reflexivity|]. split.
    + unfold Int.in_range in *. lia.
    + eapply Forall_impl; [|exact Hmax]. cbn. intros; lia.
Qed.

(** C5, amended.  When the write of the save reaches the file, saving
    the store and loading it again gives back the same sequence of bins,
    field for field, and sets the counter to the greatest id plus 1 (the
    [int] sum), or to 1 when there is no bin. *)
Theorem save_then_load_round_trip :
  forall (system_clock : nat -> Z) (w : world),
    Forall bin_ok (g_bins w) ->
    disk w 0%nat = Written ->
    let w' := snd (loadBinsFromFile system_clock (snd (saveBinsToFile w))) in
    g_bins w' = g_bins w
    /\ g_next_bin_id w' = match g_bins w with
                          | [] => 1
                          | _ => Int.succ (greatest_id (g_bins w))
                          end
    /\ (Forall (fun b => id b < Int.max_int) (g_bins w) ->
        g_next_bin_id w' = max_id_plus_one (g_bins w)).
Proof.
  intros system_clock w Hok Hdisk w'. subst w'.
  rewrite saveBinsToFile_spec. cbn [snd].
  rewrite loadBinsFromFile_spec. unfold load_result.
  cbn [data_file]. rewrite Hdisk. cbn [file_after elements].
  rewrite loaded_toJson by exact Hok.
  cbn [snd g_bins g_next_bin_id].
  split; [reflexivity|]. split; [apply next_id_of_spec|].
  intros Hlt. apply next_id_of_ahead; assumption.
Qed.

Definition two_bins : list WasteBin :=
  [ mkBin 1 "Main St" 40 false "2026-10-30T12:00:00.000Z";
    mkBin 4 "Depot" 90 true "2026-10-30T12:00:01.250Z" ].

Lemma two_bins_ok : Forall bin_ok two_bins.
Proof.
  repeat constructor; apply Int.in_rangeb_spec; reflexivity.
Qed.

Lemma save_then_load_round_trip_witness :
  Forall bin_ok two_bins
  /\ g_bins (snd (loadBinsFromFile (fun _ => 0)
                    (snd (saveBinsToFile
                            (mkWorld two_bins 7 NoFile 0 0 good_disk)))))
     = two_bins
  /\ g_next_bin_id (snd (loadBinsFromFile (fun _ => 0)
                           (snd (saveBinsToFile
                                   (mkWorld two_bins 7 NoFile 0 0 good_disk)))))
     = 5.
Proof.
  split; [exact two_bins_ok|].
  destruct (save_then_load_round_trip (fun _ => 0)
              (mkWorld two_bins 7 NoFile 0 0 good_disk) two_bins_ok eq_refl)
    as (Hbins & _ & Hnext).
  split; [exact Hbins|].
  apply Hnext. repeat constructor.
Defined.

(** A disk on which the file cannot be opened for writing. *)
Definition refusing_disk : nat -> write_outcome := fun _ => Refused.

(** The service has started without a file, on such a disk, and has
    served one POST /bins. *)
Definition world_on_refusing_disk : world :=
  run (fun _ => 0) (fun _ => 0) (fun _ l => l)
    [ POST_bins (Ok (JObject [("location", JString "A")])) ]
    (initial_world NoFile refusing_disk).

(** C5, as stated, fails.  [saveBinsToFile] returns in the same way
    when the file cannot be written; the load that follows finds no
    file and leaves an empty store and the counter 1, where the store
    held a bin and the counter was 2. *)
Lemma save_refused_then_load_loses_the_store :
  g_bins world_on_refusing_disk
  = [mkBin 1 "A" 0 false "1970-01-01T00:00:00.000Z"]
  /\ g_next_bin_id world_on_refusing_disk = 2
  /\ Forall bin_ok (g_bins world_on_refusing_disk)
  /\ fst (saveBinsToFile world_on_refusing_disk) = Ok tt
  /\ data_file (snd (saveBinsToFile world_on_refusing_disk)) = NoFile
  /\ g_bins (snd (loadBinsFromFile (fun _ => 0)
                    (snd (saveBinsToFile world_on_refusing_disk))))
     = []
  /\ g_next_bin_id (snd (loadBinsFromFile (fun _ => 0)
                           (snd (saveBinsToFile world_on_refusing_disk))))
     = 1.
Proof.
  assert (E : world_on_refusing_disk
              = mkWorld [mkBin 1 "A" 0 false "1970-01-01T00:00:00.000Z"] 2
                  NoFile 1 0 refusing_disk)
    by (vm_compute; reflexivity).
  rewrite E. split; [reflexivity|]. split; [reflexivity|].
  split; [repeat constructor; apply Int.in_rangeb_spec; reflexivity|].
  repeat split.
Qed.

(** *** What [fromJson] rejects *)

Definition five_fields : list string :=
  ["id"; "location"; "fillLevel"; "needsCollection"; "lastUpdated"].

(** The conversion that [fromJson] applies to the value of a field,
    reduced to whether it goes through. *)
Definition field_converts (key : string) (v : json) : bool :=
  if (key =? "id")%string || (key =? "fillLevel")%string then is_ok (get_int v)
  else if (key =? "needsCollection")%string then is_ok (get_bool v)
  else is_ok (get_string v).

(** An element of the file that lacks one of the five fields, or holds
    in one of them a value of a type that the conversion refuses. *)
Inductive bad_element (item : json) : Prop :=
| missing_field key :
    In key five_fields -> contains item key = false -> bad_element item
| wrong_type key :
    In key five_fields -> contains item key = true ->
    field_converts key (index item key) = false -> bad_element item.

(** [get<int>()] refuses strings, null, arrays and objects;
    [get<std::string>()] everything but strings; [get<bool>()]
    everything but booleans. *)
Lemma conversions_refuse v :
  is_ok (get_int v) = (is_number v || is_boolean v)
  /\ is_ok (get_string v) = is_string v
  /\ is_ok (get_bool v) = is_boolean v.
Proof. destruct v; repeat split. Qed.

Lemma at_key_contains item key :
  contains item key = true -> at_key item key = Ok (index item key).
Proof.
  unfold contains, at_key, index. destruct item; try discriminate.
  destruct (assoc key members); [reflexivity|discriminate].
Qed.

Lemma at_key_missing item key :
  contains item key = false -> is_ok (at_key item key) = false.
Proof.
  unfold contains, at_key. destruct item; try reflexivity.
  destruct (assoc key members); [discriminate|reflexivity].
Qed.

Lemma fromJson_bad item : bad_element item -> is_ok (fromJson item) = false.
Proof.
  assert (Hget : forall key (k : json -> result WasteBin),
             contains item key = false ->
             is_ok (bind_result (at_key item key) k) = false).
  { intros key k H. apply at_key_missing in H.
    destruct (at_key item key); [discriminate|reflexivity]. }
  intros [key Hin Hc|key Hin Hc Hty]; unfold fromJson.
  - (* a field is missing: the first missing one stops the call *)
    destruct (contains item "id") eqn:C1; [|apply Hget; exact C1].
    rewrite (at_key_contains _ _ C1). cbn [bind_result].
    destruct (get_int (index item "id")); [|reflexivity]. cbn [bind_result].
    destruct (contains item "location") eqn:C2; [|apply Hget; exact C2].
    rewrite (at_key_contains _ _ C2). cbn [bind_result].
    destruct (get_string (index item "location")); [|reflexivity].
    cbn [bind_result].
    destruct (contains item "fillLevel") eqn:C3; [|apply Hget; exact C3].
    rewrite (at_key_contains _ _ C3). cbn [bind_result].
    destruct (get_int (index item "fillLevel")); [|reflexivity].
    cbn [bind_result].
    destruct (contains item "needsCollection") eqn:C4; [|apply Hget; exact C4].
    rewrite (at_key_contains _ _ C4). cbn [bind_result].
    destruct (get_bool (index item "needsCollection")); [|reflexivity].
    cbn [bind_result].
    destruct (contains item "lastUpdated") eqn:C5; [|apply Hget; exact C5].
    exfalso. cbn in Hin.
    destruct Hin as [<-|[<-|[<-|[<-|[<-|[]]]]]]; congruence.
  - (* a field has a type that its conversion refuses *)
    destruct (contains item "id") eqn:C1; [|apply Hget; exact C1].
    rewrite (at_key_contains _ _ C1). cbn [bind_result].
    destruct (get_int (index item "id")) eqn:G1; [|reflexivity].
    cbn [bind_result].
    destruct (contains item "location") eqn:C2; [|apply Hget; exact C2].
    rewrite (at_key_contains _ _ C2). cbn [bind_result].
    destruct (get_string (index item "location")) eqn:G2; [|reflexivity].
    cbn [bind_result].
    destruct (contains item "fillLevel") eqn:C3; [|apply Hget; exact C3].
    rewrite (at_key_contains _ _ C3). cbn [bind_result].
    destruct (get_int (index item "fillLevel")) eqn:G3; [|reflexivity].
    cbn [bind_result].
    destruct (contains item "needsCollection") eqn:C4; [|apply Hget; exact C4].
    rewrite (at_key_contains _ _ C4). cbn [bind_result].
    destruct (get_bool (index item "needsCollection")) eqn:G4; [|reflexivity].
    cbn [bind_result].
    destruct (contains item "lastUpdated") eqn:C5; [|apply Hget; exact C5].
    rewrite (at_key_contains _ _ C5). cbn [bind_result].
    destruct (get_string (index item "lastUpdated")) eqn:G5; [|reflexivity].
    exfalso. cbn in Hin.
    destruct Hin as [<-|[<-|[<-|[<-|[<-|[]]]]]];
      cbn in Hty; rewrite ?G1, ?G2, ?G3, ?G4, ?G5 in Hty; discriminate.
Qed.

(** And [fromJson] throws on no other element. *)
Lemma fromJson_throws item :
  is_ok (fromJson item) = false -> bad_element item.
Proof.
  assert (Hin : forall key, In key five_fields ->
                  contains item key = false \/
                  (contains item key = true
                   /\ field_converts key (index item key) = false) ->
                  bad_element item).
  { intros key Hk [H|[H1 H2]];
      [eapply missing_field|eapply wrong_type]; eauto. }
  unfold fromJson. intros H.
  destruct (contains item "id") eqn:C1;
    [|apply (Hin "id"); cbn; auto].
  rewrite (at_key_contains _ _ C1) in H. cbn [bind_result] in H.
  destruct (get_int (index item "id")) eqn:G1;
    [|apply (Hin "id"); cbn; [auto|right; rewrite G1; auto]].
  cbn [bind_result] in H.
  destruct (contains item "location") eqn:C2;
    [|apply (Hin "location"); cbn; auto].
  rewrite (at_key_contains _ _ C2) in H. cbn [bind_result] in H.
  destruct (get_string (index item "location")) eqn:G2;
    [|apply (Hin "location"); cbn; [auto|right; rewrite G2; auto]].
  cbn [bind_result] in H.
  destruct (contains item "fillLevel") eqn:C3;
    [|apply (Hin "fillLevel"); cbn; auto].
  rewrite (at_key_contains _ _ C3) in H. cbn [bind_result] in H.
  destruct (get_int (index item "fillLevel")) eqn:G3;
    [|apply (Hin "fillLevel"); cbn; [auto|right; rewrite G3; auto]].
  cbn [bind_result] in H.
  destruct (contains item "needsCollection") eqn:C4;
    [|apply (Hin "needsCollection"); cbn; auto 6].
  rewrite (at_key_contains _ _ C4) in H. cbn [bind_result] in H.
  destruct (get_bool (index item "needsCollection")) eqn:G4;
    [|apply (Hin "needsCollection"); cbn; [auto 6|right; rewrite G4; auto]].
  cbn [bind_result] in H.
  destruct (contains item "lastUpdated") eqn:C5;
    [|apply (Hin "lastUpdated"); cbn; auto 7].
  rewrite (at_key_contains _ _ C5) in H. cbn [bind_result] in H.
  destruct (get_string (index item "lastUpdated")) eqn:G5;
    [|apply (Hin "lastUpdated"); cbn; [auto 7|right; rewrite G5; auto]].
  discriminate H.
Qed.

(** The loop of the load stops at the first element on which
    [fromJson] throws. *)
Definition fails (item : json) : Prop :=
  is_ok (fromJson item) = false \/ bad_element item.

Lemma loaded_fails items :
  Exists fails items -> exists bins what, loaded items = (bins, Some what).
Proof.
  induction 1 as [item rest Hbad|item rest _ IH]; cbn [loaded].
  - assert (H : is_ok (fromJson item) = false)
      by (destruct Hbad as [H|H]; [exact H|apply fromJson_bad; exact H]).
    destruct (fromJson item); [discriminate|]. eauto.
  - destruct (fromJson item); [|eauto].
    destruct IH as (bins & what & ->). eauto.
Qed.

(** C7.  [loadBinsFromFile] leaves an empty store and the counter 1
    when the file is absent, when its text is not JSON, and when
    [fromJson] throws on one of its elements, as it does on an element
    that lacks a field or holds a value of the wrong type, even if the
    elements before it were read without error. *)
Theorem load_failure_empties_the_store :
  forall (system_clock : nat -> Z) (w : world),
    (data_file w = NoFile
     \/ (exists what, data_file w = FileText (Throw what))
     \/ (exists data, data_file w = FileText (Ok data)
                      /\ Exists fails (elements data))) ->
    let w' := snd (loadBinsFromFile system_clock w) in
    fst (loadBinsFromFile system_clock w) = Ok tt
    /\ g_bins w' = []
    /\ g_next_bin_id w' = 1.
Proof.
  intros system_clock w H w'. subst w'.
  rewrite loadBinsFromFile_spec. unfold load_result.
  destruct H as [->|[[what ->]|(data & -> & Hbad)]]; [repeat split..|].
  destruct (loaded_fails _ Hbad) as (bins & what & ->). repeat split.
Qed.

(** A file whose first element is a bin and whose second one has a
    string where [fillLevel] is expected. *)
Definition broken_document : json :=
  JArray [ toJson (mkBin 1 "Main St" 40 false "2026-10-30T12:00:00.000Z");
           JObject [ ("id", JInt 2); ("location", JString "Depot");
                     ("fillLevel", JString "full");
                     ("needsCollection", JBool true);
                     ("lastUpdated", JString "2026-10-30T12:00:01.250Z") ] ].

Definition broken_world : world :=
  mkWorld two_bins 7 (FileText (Ok broken_document)) 0 0 good_disk.

Lemma load_failure_empties_the_store_witness :
  fst (loadBinsFromFile (fun _ => 0) broken_world) = Ok tt
  /\ g_bins (snd (loadBinsFromFile (fun _ => 0) broken_world)) = []
  /\ g_next_bin_id (snd (loadBinsFromFile (fun _ => 0) broken_world)) = 1.
Proof.
  apply (load_failure_empties_the_store (fun _ => 0) broken_world).
  right. right. exists broken_document. split; [reflexivity|].
  apply Exists_cons_tl, Exists_cons_hd. right.
  apply wrong_type with (key := "fillLevel").
  - cbn. tauto.
  - reflexivity.
  - reflexivity.
Defined.

(** ** Timestamps

    [getCurrentTimestamp] is monotone: a later clock reading gives a
    timestamp that is not below the earlier one in the order of strings,
    from 1970 to the end of the year 9999 (where the year takes a fifth
    digit). *)

(** The order of dates, and the dates that an era may hold. *)
Definition date_ltb (a b : Z * Z * Z) : bool :=
  let '(y1, m1, d1) := a in
  let '(y2, m2, d2) := b in
  (y1 <? y2) || ((y1 =? y2) && ((m1 <? m2) || ((m1 =? m2) && (d1 <? d2)))).

Definition date_okb (a : Z * Z * Z) : bool :=
  let '(y, m, d) := a in
  (0 <=? y) && (y <=? 400) && (1 <=? m) && (m <=? 12) && (1 <=? d) && (d <=? 31)
  && (negb (y =? 400) || (m <=? 2)) && (negb (y =? 0) || (3 <=? m)).

(** One step of a scan of the days of an era: the day reached, its
    date, and whether every day before it has a valid date that is below
    the date of the day after. *)
Definition era_step (s : Z * (Z * Z * Z) * bool) : Z * (Z * Z * Z) * bool :=
  let '(doe, today, ok) := s in
  let tomorrow := era_date (doe + 1) in
  (doe + 1, tomorrow, ok && date_okb today && date_ltb today tomorrow).

Definition date_lt (a b : Z * Z * Z) : Prop :=
  let '(y1, m1, d1) := a in
  let '(y2, m2, d2) := b in
  y1 < y2 \/ (y1 = y2 /\ (m1 < m2 \/ (m1 = m2 /\ d1 < d2))).

Lemma date_ltb_spec a b : date_ltb a b = true <-> date_lt a b.
Proof.
  destruct a as [[y1 m1] d1], b as [[y2 m2] d2]. unfold date_ltb, date_lt.
  rewrite !orb_true_iff, !andb_true_iff, !orb_true_iff, !andb_true_iff,
    !Z.ltb_lt, !Z.eqb_eq. tauto.
Qed.

Lemma date_lt_trans a b c : date_lt a b -> date_lt b c -> date_lt a c.
Proof.
  destruct a as [[y1 m1] d1], b as [[y2 m2] d2], c as [[y3 m3] d3].
  unfold date_lt. lia.
Qed.

Definition era_scan (n : N) : Z * (Z * Z * Z) * bool :=
  N.iter n era_step (0, era_date 0, true).

Lemma era_scan_spec n :
  let '(doe, today, ok) := era_scan n in
  doe = Z.of_N n
  /\ today = era_date doe
  /\ (ok = true ->
      forall k, 0 <= k < Z.of_N n ->
                date_okb (era_date k) = true
                /\ date_ltb (era_date k) (era_date (k + 1)) = true).
Proof.
  unfold era_scan. apply N.iter_ind.
  - split; [reflexivity|]. split; [reflexivity|]. intros _ k Hk. lia.
  - intros m [[doe today] ok] (Hdoe & Htoday & Hok). cbn [era_step].
    split; [lia|]. split; [reflexivity|].
    rewrite !andb_true_iff. intros [[Hprev Hokb] Hltb] k Hk.
    destruct (Z.eq_dec k doe) as [->|Hne].
    + subst today. auto.
    + apply Hok; [exact Hprev|lia].
Qed.

(** All the days of an era, by evaluation. *)
Lemma era_checked :
  forall k, 0 <= k < 146096 ->
            date_okb (era_date k) = true
            /\ date_ltb (era_date k) (era_date (k + 1)) = true.
Proof.
  pose proof (era_scan_spec 146096) as H.
  assert (E : era_scan 146096 = (146096, (400, 2, 29), true))
    by (vm_cast_no_check (eq_refl (146096, (400, 2, 29), true))).
  rewrite E in H. destruct H as (_ & _ & H). exact (H eq_refl).
Qed.

(** Within an era a later day has a later date. *)
Lemma era_date_increases a b :
  0 <= a -> a < b -> b <= 146096 -> date_lt (era_date a) (era_date b).
Proof.
  intros Ha Hab Hb.
  replace b with (a + 1 + Z.of_nat (Z.to_nat (b - a - 1))) by lia.
  assert (Hn : a + 1 + Z.of_nat (Z.to_nat (b - a - 1)) <= 146096) by lia.
  induction (Z.to_nat (b - a - 1)) as [|n IH].
  - rewrite Z.add_0_r. apply date_ltb_spec, era_checked. lia.
  - eapply date_lt_trans; [apply IH; lia|].
    replace (a + 1 + Z.of_nat (S n)) with (a + 1 + Z.of_nat n + 1) by lia.
    apply date_ltb_spec, era_checked. lia.
Qed.

Lemma era_date_ok k :
  0 <= k <= 146096 -> date_okb (era_date k) = true.
Proof.
  intros Hk. destruct (Z.eq_dec k 146096) as [->|Hne];
    [vm_compute; reflexivity|apply era_checked; lia].
Qed.

(** A later day has a later date: in the same era by the scan, and
    across eras by the year, or by the month where the last year of an
    era meets the first year of the next. *)
Lemma civil_from_days_increases a b :
  a < b -> date_lt (civil_from_days a) (civil_from_days b).
Proof.
  intros Hab. unfold civil_from_days.
  set (za := a + 719468). set (zb := b + 719468).
  assert (Hz : za < zb) by (subst za zb; lia).
  pose proof (Z.div_mod za 146097 ltac:(lia)) as Ea.
  pose proof (Z.div_mod zb 146097 ltac:(lia)) as Eb.
  pose proof (Z.mod_pos_bound za 146097 ltac:(lia)) as Ba.
  pose proof (Z.mod_pos_bound zb 146097 ltac:(lia)) as Bb.
  set (ea := za / 146097) in *. set (eb := zb / 146097) in *.
  replace (za - ea * 146097) with (za mod 146097) by lia.
  replace (zb - eb * 146097) with (zb mod 146097) by lia.
  set (da := za mod 146097) in *. set (db := zb mod 146097) in *.
  pose proof (era_date_ok da ltac:(lia)) as Oa.
  pose proof (era_date_ok db ltac:(lia)) as Ob.
  assert (Hcase : (ea = eb /\ da < db) \/ ea < eb) by lia.
  destruct Hcase as [[He Hd]|He].
  - pose proof (era_date_increases da db ltac:(lia) Hd ltac:(lia)) as Hlt.
    destruct (era_date da) as [[y1 m1] d1], (era_date db) as [[y2 m2] d2].
    unfold date_lt in *. rewrite He. lia.
  - destruct (era_date da) as [[y1 m1] d1], (era_date db) as [[y2 m2] d2].
    unfold date_okb in Oa, Ob. unfold date_lt.
    rewrite !andb_true_iff, !orb_true_iff, !negb_true_iff, !Z.leb_le,
      !Z.eqb_neq in Oa, Ob.
    lia.
Qed.

(** The integers from 0 to [n - 1], over which the facts on the
    digits of a field are checked by evaluation. *)
Definition range (n : Z) : list Z := map Z.of_nat (seq 0 (Z.to_nat n)).

Lemma forallb_range (P : Z -> bool) n :
  forallb P (range n) = true -> forall z, 0 <= z < n -> P z = true.
Proof.
  intros H z Hz. rewrite forallb_forall in H. apply H.
  unfold range. apply in_map_iff. exists (Z.to_nat z).
  split; [lia|]. apply in_seq. lia.
Qed.

(** Two strings that start with fields of one width compare as the
    fields do, and as what follows them when the fields are equal. *)
Lemma compare_app a : forall b s t,
  String.length a = String.length b ->
  ((a ++ s) ?= (b ++ t))%string
  = match (a ?= b)%string with
    | Eq => (s ?= t)%string
    | c => c
    end.
Proof.
  induction a as [|c a IH]; intros [|c' b] s t Hlen; try discriminate.
  - reflexivity.
  - cbn. destruct (Ascii.compare c c'); try reflexivity.
    apply IH. cbn in Hlen. congruence.
Qed.

Definition comparison_eqb (c1 c2 : comparison) : bool :=
  match c1, c2 with
  | Eq, Eq | Lt, Lt | Gt, Gt => true
  | _, _ => false
  end.

Lemma comparison_eqb_eq c1 c2 : comparison_eqb c1 c2 = true -> c1 = c2.
Proof. destruct c1, c2; try discriminate; reflexivity. Qed.

Definition pad_pair_ok (width : nat) (a b : Z) : bool :=
  (String.length (zero_pad width a) =? width)%nat
  && comparison_eqb (zero_pad width a ?= zero_pad width b)%string (a ?= b).

(** A field of two digits has two characters and compares as its
    number; so does a field of one digit. *)
Lemma zero_pad_2 a b :
  0 <= a < 100 -> 0 <= b < 100 ->
  String.length (zero_pad 2 a) = 2%nat
  /\ (zero_pad 2 a ?= zero_pad 2 b)%string = (a ?= b).
Proof.
  intros Ha Hb.
  assert (H : forallb (fun a => forallb (pad_pair_ok 2 a) (range 100))
                (range 100) = true)
    by (vm_cast_no_check (eq_refl true)).
  pose proof (forallb_range _ _ (forallb_range _ _ H a Ha) b Hb) as Hab.
  unfold pad_pair_ok in Hab. apply andb_true_iff in Hab as [Hl Hc].
  split; [apply Nat.eqb_eq; exact Hl|apply comparison_eqb_eq; exact Hc].
Qed.

Lemma zero_pad_1 a b :
  0 <= a < 10 -> 0 <= b < 10 ->
  String.length (zero_pad 1 a) = 1%nat
  /\ (zero_pad 1 a ?= zero_pad 1 b)%string = (a ?= b).
Proof.
  intros Ha Hb.
  assert (H : forallb (fun a => forallb (pad_pair_ok 1 a) (range 10))
                (range 10) = true)
    by (vm_cast_no_check (eq_refl true)).
  pose proof (forallb_range _ _ (forallb_range _ _ H a Ha) b Hb) as Hab.
  unfold pad_pair_ok in Hab. apply andb_true_iff in Hab as [Hl Hc].
  split; [apply Nat.eqb_eq; exact Hl|apply comparison_eqb_eq; exact Hc].
Qed.

(** A year of four digits is two fields of two digits, and the three
    digits of the milliseconds a field of one and a field of two. *)
Lemma year_digits y :
  1000 <= y < 10000 ->
  Int.to_string y = (zero_pad 2 (y / 100) ++ zero_pad 2 (y mod 100))%string.
Proof.
  intros Hy.
  assert (H : forallb (fun y => (y <? 1000)
                                || String.eqb (Int.to_string y)
                                     (zero_pad 2 (y / 100)
                                        ++ zero_pad 2 (y mod 100)))
                (range 10000) = true)
    by (vm_cast_no_check (eq_refl true)).
  pose proof (forallb_range _ _ H y ltac:(lia)) as Hy'.
  apply orb_true_iff in Hy' as [Hlt|Heq]; [apply Z.ltb_lt in Hlt; lia|].
  apply String.eqb_eq. exact Heq.
Qed.

Lemma millis_digits ms :
  0 <= ms < 1000 ->
  zero_pad 3 ms = (zero_pad 1 (ms / 100) ++ zero_pad 2 (ms mod 100))%string.
Proof.
  intros Hms.
  assert (H : forallb (fun ms => String.eqb (zero_pad 3 ms)
                                  (zero_pad 1 (ms / 100)
                                     ++ zero_pad 2 (ms mod 100)))
                (range 1000) = true)
    by (vm_cast_no_check (eq_refl true)).
  apply String.eqb_eq. exact (forallb_range _ _ H ms Hms).
Qed.

Lemma ascii_compare_refl c : Ascii.compare c c = Eq.
Proof.
  pose proof (Ascii.compare_antisym c c) as H.
  destruct (Ascii.compare c c); try reflexivity; discriminate.
Qed.

Lemma compare_sep c s t :
  (String c s ?= String c t)%string = (s ?= t)%string.
Proof. cbn. rewrite ascii_compare_refl. reflexivity. Qed.

Lemma compare_field2 a b s t :
  0 <= a < 100 -> 0 <= b < 100 ->
  ((zero_pad 2 a ++ s) ?= (zero_pad 2 b ++ t))%string
  = match a ?= b with
    | Eq => (s ?= t)%string
    | c => c
    end.
Proof.
  intros Ha Hb.
  destruct (zero_pad_2 a b Ha Hb) as [La Hc].
  destruct (zero_pad_2 b a Hb Ha) as [Lb _].
  rewrite compare_app by congruence. rewrite Hc. reflexivity.
Qed.

Lemma compare_field1 a b s t :
  0 <= a < 10 -> 0 <= b < 10 ->
  ((zero_pad 1 a ++ s) ?= (zero_pad 1 b ++ t))%string
  = match a ?= b with
    | Eq => (s ?= t)%string
    | c => c
    end.
Proof.
  intros Ha Hb.
  destruct (zero_pad_1 a b Ha Hb) as [La Hc].
  destruct (zero_pad_1 b a Hb Ha) as [Lb _].
  rewrite compare_app by congruence. rewrite Hc. reflexivity.
Qed.

Lemma civil_from_days_month_day days :
  let '(y, m, d) := civil_from_days days in 1 <= m <= 12 /\ 1 <= d <= 31.
Proof.
  unfold civil_from_days.
  pose proof (Z.div_mod (days + 719468) 146097 ltac:(lia)) as E.
  pose proof (Z.mod_pos_bound (days + 719468) 146097 ltac:(lia)) as B.
  replace (days + 719468 - (days + 719468) / 146097 * 146097)
    with ((days + 719468) mod 146097) by lia.
  pose proof (era_date_ok ((days + 719468) mod 146097) ltac:(lia)) as O.
  destruct (era_date _) as [[y m] d]. unfold date_okb in O.
  rewrite !andb_true_iff, !Z.leb_le in O. lia.
Qed.

(** The last day before the year 10000, counted from 1970-01-01. *)
Definition last_day : Z := 2932896.

Lemma civil_from_days_year days :
  0 <= days <= last_day ->
  let '(y, m, d) := civil_from_days days in 1970 <= y <= 9999.
Proof.
  unfold last_day. intros Hd.
  assert (H0 : civil_from_days 0 = (1970, 1, 1)) by reflexivity.
  assert (H1 : civil_from_days 2932896 = (9999, 12, 31)) by reflexivity.
  assert (Hlo : days = 0 \/ date_lt (civil_from_days 0) (civil_from_days days)).
  { destruct (Z.eq_dec days 0); [auto|right].
    apply civil_from_days_increases. lia. }
  assert (Hhi : days = 2932896
                \/ date_lt (civil_from_days days) (civil_from_days 2932896)).
  { destruct (Z.eq_dec days 2932896); [auto|right].
    apply civil_from_days_increases. lia. }
  rewrite H0 in Hlo. rewrite H1 in Hhi.
  destruct Hlo as [->|Hlo]; [rewrite H0; lia|].
  destruct Hhi as [->|Hhi]; [rewrite H1; lia|].
  destruct (civil_from_days days) as [[y m] d]. unfold date_lt in *. lia.
Qed.

Lemma append_assoc (a b c : string) :
  ((a ++ b) ++ c)%string = (a ++ (b ++ c))%string.
Proof. induction a as [|x a IH]; cbn; [reflexivity|rewrite IH; reflexivity]. Qed.

(** The first clock reading of the year 10000. *)
Definition year_10000 : Z := 253402300800000.

(** A later clock reading has a timestamp above the one of an earlier
    reading. *)
Lemma getCurrentTimestamp_increasing t0 t1 :
  0 <= t0 -> t0 < t1 -> t1 < year_10000 ->
  (getCurrentTimestamp t0 ?= getCurrentTimestamp t1)%string = Lt.
Proof.
  unfold year_10000. intros H0 H01 H1.
  unfold getCurrentTimestamp, put_time.
  (* the fields of the two readings *)
  pose proof (Z.div_mod t0 1000 ltac:(lia)) as E0.
  pose proof (Z.div_mod t1 1000 ltac:(lia)) as E1.
  pose proof (Z.mod_pos_bound t0 1000 ltac:(lia)) as B0.
  pose proof (Z.mod_pos_bound t1 1000 ltac:(lia)) as B1.
  set (ms0 := t0 mod 1000) in *. set (ms1 := t1 mod 1000) in *.
  set (c0 := t0 / 1000) in *. set (c1 := t1 / 1000) in *.
  pose proof (Z.div_mod c0 86400 ltac:(lia)) as Ec0.
  pose proof (Z.div_mod c1 86400 ltac:(lia)) as Ec1.
  pose proof (Z.mod_pos_bound c0 86400 ltac:(lia)) as Bc0.
  pose proof (Z.mod_pos_bound c1 86400 ltac:(lia)) as Bc1.
  set (s0 := c0 mod 86400) in *. set (s1 := c1 mod 86400) in *.
  set (d0 := c0 / 86400) in *. set (d1 := c1 / 86400) in *.
  assert (Hd0 : 0 <= d0 <= last_day) by (unfold last_day; lia).
  assert (Hd1 : 0 <= d1 <= last_day) by (unfold last_day; lia).
  pose proof (civil_from_days_year d0 Hd0) as Y0.
  pose proof (civil_from_days_year d1 Hd1) as Y1.
  pose proof (civil_from_days_month_day d0) as M0.
  pose proof (civil_from_days_month_day d1) as M1.
  assert (Hdate : (d0 = d1 /\ s0 <= s1 /\ (s0 = s1 -> ms0 < ms1))
                  \/ date_lt (civil_from_days d0) (civil_from_days d1)).
  { destruct (Z.eq_dec d0 d1) as [Heq|Hne]; [left; lia|right].
    apply civil_from_days_increases. lia. }
  assert (Hsame : d0 = d1 -> civil_from_days d0 = civil_from_days d1)
    by (intros ->; reflexivity).
  destruct (civil_from_days d0) as [[y0 m0] dd0].
  destruct (civil_from_days d1) as [[y1 m1] dd1].
  unfold date_lt in Hdate.
  assert (Hsame' : d0 = d1 -> y0 = y1 /\ m0 = m1 /\ dd0 = dd1)
    by (intros H; specialize (Hsame H); injection Hsame; auto).
  clear Hsame.
  (* the time of day *)
  pose proof (Z.div_mod s0 3600 ltac:(lia)) as Eh0.
  pose proof (Z.div_mod s1 3600 ltac:(lia)) as Eh1.
  pose proof (Z.mod_pos_bound s0 3600 ltac:(lia)) as Bh0.
  pose proof (Z.mod_pos_bound s1 3600 ltac:(lia)) as Bh1.
  set (r0 := s0 mod 3600) in *. set (r1 := s1 mod 3600) in *.
  set (h0 := s0 / 3600) in *. set (h1 := s1 / 3600) in *.
  pose proof (Z.div_mod r0 60 ltac:(lia)) as Em0.
  pose proof (Z.div_mod r1 60 ltac:(lia)) as Em1.
  pose proof (Z.mod_pos_bound r0 60 ltac:(lia)) as Bm0.
  pose proof (Z.mod_pos_bound r1 60 ltac:(lia)) as Bm1.
  assert (Es0 : s0 mod 60 = r0 mod 60).
  { symmetry. apply (Z.mod_unique s0 60 (60 * h0 + r0 / 60)); lia. }
  assert (Es1 : s1 mod 60 = r1 mod 60).
  { symmetry. apply (Z.mod_unique s1 60 (60 * h1 + r1 / 60)); lia. }
  rewrite Es0, Es1.
  set (sec0 := r0 mod 60) in *. set (sec1 := r1 mod 60) in *.
  set (min0 := r0 / 60) in *. set (min1 := r1 / 60) in *.
  (* the digits of the year and of the milliseconds *)
  rewrite (year_digits y0), (year_digits y1) by lia.
  rewrite (millis_digits ms0), (millis_digits ms1) by lia.
  pose proof (Z.div_mod y0 100 ltac:(lia)) as Ey0.
  pose proof (Z.div_mod y1 100 ltac:(lia)) as Ey1.
  pose proof (Z.mod_pos_bound y0 100 ltac:(lia)) as By0.
  pose proof (Z.mod_pos_bound y1 100 ltac:(lia)) as By1.
  set (yl0 := y0 mod 100) in *. set (yl1 := y1 mod 100) in *.
  set (yh0 := y0 / 100) in *. set (yh1 := y1 / 100) in *.
  pose proof (Z.div_mod ms0 100 ltac:(lia)) as El0.
  pose proof (Z.div_mod ms1 100 ltac:(lia)) as El1.
  pose proof (Z.mod_pos_bound ms0 100 ltac:(lia)) as Bl0.
  pose proof (Z.mod_pos_bound ms1 100 ltac:(lia)) as Bl1.
  set (ml0 := ms0 mod 100) in *. set (ml1 := ms1 mod 100) in *.
  set (mh0 := ms0 / 100) in *. set (mh1 := ms1 / 100) in *.
  (* the comparison, field after field *)
  rewrite !append_assoc.
  rewrite compare_field2 by lia.
  destruct (Z.compare_spec yh0 yh1); [|reflexivity|exfalso; lia].
  rewrite compare_field2 by lia.
  destruct (Z.compare_spec yl0 yl1); [|reflexivity|exfalso; lia].
  cbn [append]. rewrite compare_sep, compare_field2 by lia.
  destruct (Z.compare_spec m0 m1); [|reflexivity|exfalso; lia].
  cbn [append]. rewrite compare_sep, compare_field2 by lia.
  destruct (Z.compare_spec dd0 dd1); [|reflexivity|exfalso; lia].
  assert (Hday : d0 = d1) by lia.
  cbn [append]. rewrite compare_sep, compare_field2 by lia.
  destruct (Z.compare_spec h0 h1); [|reflexivity|exfalso; lia].
  cbn [append]. rewrite compare_sep, compare_field2 by lia.
  destruct (Z.compare_spec min0 min1); [|reflexivity|exfalso; lia].
  cbn [append]. rewrite compare_sep, compare_field2 by lia.
  destruct (Z.compare_spec sec0 sec1); [|reflexivity|exfalso; lia].
  cbn [append]. rewrite compare_sep, compare_field1 by lia.
  destruct (Z.compare_spec mh0 mh1); [|reflexivity|exfalso; lia].
  rewrite compare_field2 by lia.
  destruct (Z.compare_spec ml0 ml1); [exfalso; lia|reflexivity|exfalso; lia].
Qed.

Lemma string_compare_refl (s : string) : (s ?= s)%string = Eq.
Proof.
  pose proof (String.compare_antisym s s) as H.
  destruct (s ?= s)%string; try reflexivity; discriminate.
Qed.


(** ** PUT /bins/{id} *)

Lemma assign_at_assign_at {A} (l : list A) it f g :
  assign_at (assign_at l it f) it g = assign_at l it (fun x => g (f x)).
Proof.
  revert it. induction l as [|x l IH]; intros [|it]; cbn; try reflexivity.
  rewrite IH. reflexivity.
Qed.

Lemma assign_at_id {A} (l : list A) it : assign_at l it (fun x => x) = l.
Proof.
  revert it. induction l as [|x l IH]; intros [|it]; cbn; try reflexivity.
  rewrite IH. reflexivity.
Qed.

Lemma nth_error_assign_at {A} (l : list A) it f x :
  nth_error l it = Some x ->
  nth_error (assign_at l it f) it = Some (f x).
Proof.
  revert it. induction l as [|y l IH]; intros [|it]; cbn; try discriminate.
  - intros [= ->]. reflexivity.
  - apply IH.
Qed.

Lemma nth_error_assign_at_other {A} (l : list A) it f j :
  j <> it -> nth_error (assign_at l it f) j = nth_error l j.
Proof.
  revert it j. induction l as [|y l IH]; intros [|it] [|j] H; cbn;
    try reflexivity; try congruence.
  apply IH. congruence.
Qed.

Section PutBin.

Variable system_clock : nat -> Z.

(** The three guarded assignments of the handler and the timestamp,
    on the bin that the iterator designates. *)
Definition update_location (updateData : json) (b : WasteBin) : WasteBin :=
  if contains updateData "location" && is_string (index updateData "location")
  then match get_string (index updateData "location") with
       | Ok v => set_location v b
       | Throw _ => b
       end
  else b.

Definition update_fillLevel (updateData : json) (b : WasteBin) : WasteBin :=
  if contains updateData "fillLevel" && is_number (index updateData "fillLevel")
  then match get_int (index updateData "fillLevel") with
       | Ok v => set_fillLevel (clamp v) b
       | Throw _ => b
       end
  else b.

Definition update_needsCollection (updateData : json) (b : WasteBin)
    : WasteBin :=
  if contains updateData "needsCollection"
     && is_boolean (index updateData "needsCollection")
  then match get_bool (index updateData "needsCollection") with
       | Ok v => set_needsCollection v b
       | Throw _ => b
       end
  else b.

Definition updated (updateData : json) (now : string) (b : WasteBin)
    : WasteBin :=
  set_lastUpdated now
    (update_needsCollection updateData
       (update_fillLevel updateData (update_location updateData b))).

Lemma assign_spec it f w :
  assign it f w =
    (Ok tt, mkWorld (assign_at (g_bins w) it f) (g_next_bin_id w)
              (data_file w) (clock_reads w) (rng_draws w) (disk w)).
Proof. reflexivity. Qed.

(** One guarded assignment, run. *)
Lemma guarded_assign {A} (c : bool) (g : result A)
    (f : A -> WasteBin -> WasteBin) it (k : M response) w :
  (c = true -> is_ok g = true) ->
  bind (if c then bind (lift g) (fun v => assign it (f v)) else ret tt)
    (fun _ => k) w
  = k (mkWorld
         (assign_at (g_bins w) it
            (fun b => if c then match g with
                                | Ok v => f v b
                                | Throw _ => b
                                end
                      else b))
         (g_next_bin_id w) (data_file w) (clock_reads w) (rng_draws w)
         (disk w)).
Proof.
  intros Hg. destruct c.
  - destruct g as [v|]; [|specialize (Hg eq_refl); discriminate].
    reflexivity.
  - cbn. rewrite assign_at_id. destruct w; reflexivity.
Qed.

Lemma WasteBin_default_spec w :
  WasteBin_default system_clock w =
    (Ok (mkBin 0 "" 0 false
           (getCurrentTimestamp (system_clock (clock_reads w)))),
     mkWorld (g_bins w) (g_next_bin_id w) (data_file w)
       (S (clock_reads w)) (rng_draws w) (disk w)).
Proof. reflexivity. Qed.

(** The end of the handler: the timestamp, the save and the answer. *)
Lemma put_bin_tail it binId w :
  let now := getCurrentTimestamp (system_clock (clock_reads w)) in
  let bins := assign_at (g_bins w) it (set_lastUpdated now) in
  (tmp <- WasteBin_default system_clock ;;
   assign it (set_lastUpdated (lastUpdated tmp)) ;;
   saveBinsToFile ;;
   bin <- deref it ;;
   ret (updated_response binId bin)) w
  = (Ok (updated_response binId (nth it bins (mkBin 0 "" 0 false ""))),
     mkWorld bins (g_next_bin_id w)
       (file_after (disk w 0%nat) (data_file w)
          (JArray (map toJson bins)))
       (S (clock_reads w)) (rng_draws w) (writes_after (disk w))).
Proof.
  cbv zeta.
  unfold bind at 1. rewrite WasteBin_default_spec.
  unfold bind at 1. rewrite assign_spec.
  unfold bind at 1. rewrite saveBinsToFile_spec.
  reflexivity.
Qed.

(** The handler when the id is found. *)
Lemma put_bin_found digits binId updateData it w :
  stoi digits = Ok binId ->
  find_if (fun bin => id bin =? binId) (g_bins w) = Some it ->
  let now := getCurrentTimestamp (system_clock (clock_reads w)) in
  let bins := assign_at (g_bins w) it (updated updateData now) in
  put_bin system_clock digits (Ok updateData) w =
    (Ok (updated_response binId (nth it bins (mkBin 0 "" 0 false ""))),
     mkWorld bins (g_next_bin_id w)
       (file_after (disk w 0%nat) (data_file w)
          (JArray (map toJson bins)))
       (S (clock_reads w)) (rng_draws w) (writes_after (disk w))).
Proof.
  intros Hid Hfind now bins. subst now bins.
  unfold put_bin, try_catch. rewrite Hid.
  unfold lift at 1. unfold bind at 1.
  unfold lift at 1. unfold bind at 1.
  unfold bind at 1. cbn [get_bins]. rewrite Hfind.
  rewrite (guarded_assign _ _ set_location).
  2:{ rewrite andb_true_iff. intros [_ H].
      destruct (index updateData "location"); try discriminate; reflexivity. }
  rewrite (guarded_assign _ _ (fun v => set_fillLevel (clamp v))).
  2:{ rewrite andb_true_iff. intros [_ H].
      destruct (index updateData "fillLevel"); try discriminate; reflexivity. }
  rewrite (guarded_assign _ _ set_needsCollection).
  2:{ rewrite andb_true_iff. intros [_ H].
      destruct (index updateData "needsCollection"); try discriminate;
        reflexivity. }
  rewrite put_bin_tail.
  cbn [g_bins g_next_bin_id data_file clock_reads rng_draws].
  rewrite !assign_at_assign_at.
  reflexivity.
Qed.

Lemma put_bin_not_found digits binId updateData w :
  stoi digits = Ok binId ->
  find_if (fun bin => id bin =? binId) (g_bins w) = None ->
  put_bin system_clock digits (Ok updateData) w = (Ok (not_found binId), w).
Proof.
  intros Hid Hfind. unfold put_bin, try_catch. rewrite Hid.
  unfold lift at 1. unfold bind at 1.
  unfold lift at 1. unfold bind at 1.
  unfold bind at 1. cbn [get_bins]. rewrite Hfind. reflexivity.
Qed.

Lemma put_bin_error digits body w :
  (is_ok (stoi digits) = false \/ is_ok body = false) ->
  exists what, put_bin system_clock digits body w
               = (Ok (error_response what), w).
Proof.
  intros H. unfold put_bin, try_catch.
  destruct (stoi digits) as [binId|what]; [|exists what; reflexivity].
  destruct body as [updateData|what]; [|exists what; reflexivity].
  destruct H; discriminate.
Qed.

End PutBin.

(** The record that a PUT on [digits] designates: the first bin of the
    store with that id, at position [it]. *)
Definition designates (w : world) (digits : N) (binId : Z) (it : nat)
    (b : WasteBin) : Prop :=
  stoi digits = Ok binId
  /\ find_if (fun bin => id bin =? binId) (g_bins w) = Some it
  /\ nth_error (g_bins w) it = Some b.

(** What the handler answers and leaves in the store for a record that
    exists. *)
Lemma put_bin_designated system_clock w digits binId it b updateData :
  designates w digits binId it b ->
  let now := getCurrentTimestamp (system_clock (clock_reads w)) in
  let b' := updated updateData now b in
  let r := put_bin system_clock digits (Ok updateData) w in
  fst r = Ok (updated_response binId b')
  /\ nth_error (g_bins (snd r)) it = Some b'
  /\ (forall j, j <> it -> nth_error (g_bins (snd r)) j = nth_error (g_bins w) j)
  /\ g_next_bin_id (snd r) = g_next_bin_id w.
Proof.
  intros (Hid & Hfind & Hb) now b' r. subst now b' r.
  rewrite (put_bin_found system_clock digits binId updateData it w Hid Hfind).
  cbn [fst snd g_bins g_next_bin_id].
  pose proof (nth_error_assign_at (g_bins w) it
                (updated updateData
                   (getCurrentTimestamp (system_clock (clock_reads w)))) b Hb)
    as Hnth.
  split; [|split; [exact Hnth|split; [|reflexivity]]].
  - f_equal. f_equal. apply nth_error_nth. exact Hnth.
  - intros j Hj. apply nth_error_assign_at_other. exact Hj.
Qed.



(** A store of two bins, five seconds after the first one was stamped. *)
Definition sample_world : world := mkWorld two_bins 5 NoFile 0 0 good_disk.
Definition sample_clock (k : nat) : Z := 1793361605000 + Z.of_nat k.

Lemma sample_designates :
  designates sample_world 1 1 0
    (mkBin 1 "Main St" 40 false "2026-10-30T12:00:00.000Z").
Proof. repeat split. Qed.







(** Each guarded assignment touches one field only. *)
Lemma update_location_frame u b :
  id (update_location u b) = id b
  /\ fillLevel (update_location u b) = fillLevel b
  /\ needsCollection (update_location u b) = needsCollection b
  /\ lastUpdated (update_location u b) = lastUpdated b.
Proof.
  unfold update_location.
  destruct (_ && _); [destruct (get_string _)|]; repeat split.
Qed.

Lemma update_fillLevel_frame u b :
  id (update_fillLevel u b) = id b
  /\ location (update_fillLevel u b) = location b
  /\ needsCollection (update_fillLevel u b) = needsCollection b
  /\ lastUpdated (update_fillLevel u b) = lastUpdated b.
Proof.
  unfold update_fillLevel.
  destruct (_ && _); [destruct (get_int _)|]; repeat split.
Qed.

Lemma update_needsCollection_frame u b :
  id (update_needsCollection u b) = id b
  /\ location (update_needsCollection u b) = location b
  /\ fillLevel (update_needsCollection u b) = fillLevel b
  /\ lastUpdated (update_needsCollection u b) = lastUpdated b.
Proof.
  unfold update_needsCollection.
  destruct (_ && _); [destruct (get_bool _)|]; repeat split.
Qed.

(** A field that the body holds with a type that its guard refuses. *)
Definition mistyped (updateData : json) (key : string)
    (right_type : json -> bool) : bool :=
  contains updateData key && negb (right_type (index updateData key)).

(** C9.  A PUT on a record that exists, with a body in which a
    recognised field has the wrong JSON type: the answer is still 200,
    [lastUpdated] is refreshed, and each mistyped field keeps the value
    it had. *)
Theorem update_ignores_mistyped_fields :
  forall (system_clock : nat -> Z) (w : world) (digits : N) (binId : Z)
         (it : nat) (b : WasteBin) (updateData : json),
    designates w digits binId it b ->
    let r := put_bin system_clock digits (Ok updateData) w in
    exists b',
      fst r = Ok (updated_response binId b')
      /\ status (updated_response binId b') = 200
      /\ nth_error (g_bins (snd r)) it = Some b'
      /\ lastUpdated b' = getCurrentTimestamp (system_clock (clock_reads w))
      /\ (mistyped updateData "location" is_string = true ->
          location b' = location b)
      /\ (mistyped updateData "fillLevel" is_number = true ->
          fillLevel b' = fillLevel b)
      /\ (mistyped updateData "needsCollection" is_boolean = true ->
          needsCollection b' = needsCollection b).
Proof.
  intros system_clock w digits binId it b updateData Hd r.
  destruct (put_bin_designated system_clock w digits binId it b updateData Hd)
    as (Hr & Hnth & _ & _).
  fold r in Hr, Hnth.
  eexists. split; [exact Hr|]. split; [reflexivity|]. split; [exact Hnth|].
  split; [reflexivity|].
  unfold mistyped, updated. cbn [set_lastUpdated location fillLevel needsCollection].
  destruct (update_needsCollection_frame updateData
              (update_fillLevel updateData (update_location updateData b)))
    as (_ & -> & -> & _).
  destruct (update_fillLevel_frame updateData (update_location updateData b))
    as (_ & -> & _ & _).
  repeat split; rewrite andb_true_iff, negb_true_iff; intros [_ H].
  - unfold update_location. rewrite H, andb_false_r. reflexivity.
  - unfold update_fillLevel. rewrite H, andb_false_r.
    apply update_location_frame.
  - unfold update_needsCollection. rewrite H, andb_false_r.
    destruct (update_fillLevel_frame updateData (update_location updateData b))
      as (_ & _ & -> & _).
    apply update_location_frame.
Qed.

(** A body with each of the three fields mistyped. *)
Definition mistyped_body : json :=
  JObject [ ("location", JInt 7); ("fillLevel", JString "full");
            ("needsCollection", JInt 1) ].

Lemma update_ignores_mistyped_fields_witness :
  exists b',
    fst (put_bin sample_clock 1 (Ok mistyped_body) sample_world)
    = Ok (updated_response 1 b')
    /\ status (updated_response 1 b') = 200
    /\ nth_error
         (g_bins (snd (put_bin sample_clock 1 (Ok mistyped_body) sample_world)))
         0 = Some b'
    /\ lastUpdated b' = "2026-10-30T12:00:05.000Z"
    /\ location b' = "Main St"
    /\ fillLevel b' = 40
    /\ needsCollection b' = false.
Proof.
  destruct (update_ignores_mistyped_fields sample_clock sample_world 1 1 0
              (mkBin 1 "Main St" 40 false "2026-10-30T12:00:00.000Z")
              mistyped_body sample_designates)
    as (b' & Hr & Hs & Hnth & Ht & Hl & Hf & Hn).
  exists b'. split; [exact Hr|]. split; [exact Hs|]. split; [exact Hnth|].
  split; [exact Ht|]. split; [exact (Hl eq_refl)|].
  split; [exact (Hf eq_refl)|exact (Hn eq_refl)].
Defined.

(** ** Fill levels *)

Definition fill_ok (b : WasteBin) : Prop := 0 <= fillLevel b <= 100.

Lemma clamp_range v : 0 <= clamp v <= 100.
Proof. unfold clamp. lia. Qed.

Lemma clamp_spec v :
  clamp v = if v <? 0 then 0 else if 100 <? v then 100 else v.
Proof.
  unfold clamp. destruct (v <? 0) eqn:E1; [apply Z.ltb_lt in E1; lia|].
  apply Z.ltb_ge in E1.
  destruct (100 <? v) eqn:E2; [apply Z.ltb_lt in E2|apply Z.ltb_ge in E2]; lia.
Qed.

Lemma updated_fill_ok u now b : fill_ok b -> fill_ok (updated u now b).
Proof.
  unfold fill_ok, updated. cbn [set_lastUpdated fillLevel].
  destruct (update_needsCollection_frame u
              (update_fillLevel u (update_location u b))) as (_ & _ & -> & _).
  intros Hb.
  assert (Hloc : 0 <= fillLevel (update_location u b) <= 100)
    by (destruct (update_location_frame u b) as (_ & -> & _ & _); exact Hb).
  unfold update_fillLevel.
  destruct (_ && _); [destruct (get_int _)|]; cbn [set_fillLevel fillLevel];
    auto using clamp_range.
Qed.

(** A fill level in the body, of any JSON number, is stored clamped. *)
Lemma updated_fillLevel u now b v :
  contains u "fillLevel" = true ->
  is_number (index u "fillLevel") = true ->
  get_int (index u "fillLevel") = Ok v ->
  fillLevel (updated u now b) = clamp v.
Proof.
  intros Hc Hn Hv. unfold updated. cbn [set_lastUpdated fillLevel].
  destruct (update_needsCollection_frame u
              (update_fillLevel u (update_location u b))) as (_ & _ & -> & _).
  unfold update_fillLevel. rewrite Hc, Hn, Hv. reflexivity.
Qed.

Section Sensor.

Variable system_clock : nat -> Z.
Variable distrib : nat -> Z.

(** The bins after the loop of the handler, which takes a value of
    [distrib] and a clock reading for each of them. *)
Fixpoint sensed (bins : list WasteBin) (reads draws : nat) : list WasteBin :=
  match bins with
  | [] => []
  | b :: rest =>
      mkBin (id b) (location b) (distrib draws) (distrib draws >=? 75)
        (getCurrentTimestamp (system_clock reads))
        :: sensed rest (S reads) (S draws)
  end.

Lemma sense_bin_spec b w :
  sense_bin system_clock distrib b w =
    (Ok (mkBin (id b) (location b) (distrib (rng_draws w))
           (distrib (rng_draws w) >=? 75)
           (getCurrentTimestamp (system_clock (clock_reads w)))),
     mkWorld (g_bins w) (g_next_bin_id w) (data_file w)
       (S (clock_reads w)) (S (rng_draws w)) (disk w)).
Proof. reflexivity. Qed.

Lemma sense_bins_spec bins : forall w,
  sense_bins system_clock distrib bins w =
    (Ok (sensed bins (clock_reads w) (rng_draws w)),
     mkWorld (g_bins w) (g_next_bin_id w) (data_file w)
       (clock_reads w + List.length bins) (rng_draws w + List.length bins)
       (disk w)).
Proof.
  induction bins as [|b rest IH]; intros w.
  - cbn. rewrite !Nat.add_0_r. destruct w; reflexivity.
  - cbn [sense_bins sensed List.length].
    unfold bind at 1. rewrite sense_bin_spec.
    unfold bind at 1. rewrite IH.
    cbn [g_bins g_next_bin_id data_file clock_reads rng_draws ret].
    rewrite <- !Nat.add_succ_comm. reflexivity.
Qed.

Lemma collect_sensor_data_spec w :
  collect_sensor_data system_clock distrib w =
    match g_bins w with
    | [] =>
        (Ok (mkResponse 404
               (createApiResponse false "No bins available" JNull)), w)
    | _ =>
        let bins := sensed (g_bins w) (clock_reads w) (rng_draws w) in
        (Ok (mkResponse 200
               (createApiResponse true "Sensor data collected and updated"
                  (to_json_array bins))),
         mkWorld bins (g_next_bin_id w)
           (file_after (disk w 0%nat) (data_file w)
              (JArray (map toJson bins)))
           (clock_reads w + List.length (g_bins w))
           (rng_draws w + List.length (g_bins w)) (writes_after (disk w)))
    end.
Proof.
  unfold collect_sensor_data. unfold bind at 1. cbn [get_bins].
  destruct (g_bins w) as [|b rest] eqn:Hbins; [reflexivity|].
  unfold bind at 1. rewrite sense_bins_spec.
  unfold bind at 1. cbn [set_bins].
  unfold bind at 1. rewrite saveBinsToFile_spec.
  cbn [g_bins g_next_bin_id data_file clock_reads rng_draws ret].
  reflexivity.
Qed.

Lemma sensed_fill_ok bins :
  (forall k, 0 <= distrib k <= 100) ->
  forall reads draws, Forall fill_ok (sensed bins reads draws).
Proof.
  intros Hd. induction bins as [|b rest IH]; intros reads draws; cbn.
  - constructor.
  - constructor; [apply Hd|apply IH].
Qed.

End Sensor.

(** C6.  After a PUT, whatever its body, every fill level of the store
    that was in [0, 100] still is, and the record that a numeric
    [fillLevel] was written to holds that number clamped to [0, 100];
    after a sensor simulation every fill level of the store is in
    [0, 100]. *)
Theorem fillLevel_stays_within_0_100 :
  forall (system_clock distrib : nat -> Z) (w : world),
    (forall digits body,
        Forall fill_ok (g_bins w) ->
        Forall fill_ok (g_bins (snd (put_bin system_clock digits body w))))
    /\ (forall digits binId it b updateData v,
           designates w digits binId it b ->
           contains updateData "fillLevel" = true ->
           index updateData "fillLevel" = JInt v ->
           exists b',
             nth_error
               (g_bins (snd (put_bin system_clock digits (Ok updateData) w))) it
             = Some b'
             /\ fillLevel b' = clamp (Int.wrap v)
             /\ 0 <= fillLevel b' <= 100
             /\ (Int.in_range v ->
                 fillLevel b' = if v <? 0 then 0
                                else if 100 <? v then 100 else v))
    /\ ((forall k, 0 <= distrib k <= 100) ->
        Forall fill_ok
          (g_bins (snd (collect_sensor_data system_clock distrib w)))).
Proof.
  intros system_clock distrib w. split; [|split].
  - intros digits body Hw.
    destruct (stoi digits) as [binId|what] eqn:Hid.
    2:{ destruct (put_bin_error system_clock digits body w) as [e ->];
          [left; rewrite Hid; reflexivity|exact Hw]. }
    destruct body as [updateData|what].
    2:{ destruct (put_bin_error system_clock digits (Throw what) w) as [e ->];
          [right; reflexivity|exact Hw]. }
    destruct (find_if (fun bin => id bin =? binId) (g_bins w)) as [it|] eqn:Hf.
    + rewrite (put_bin_found system_clock digits binId updateData it w Hid Hf).
      cbn [snd g_bins]. apply Forall_assign_at; [|exact Hw].
      intros x. apply updated_fill_ok.
    + rewrite (put_bin_not_found system_clock digits binId updateData w Hid Hf).
      exact Hw.
  - intros digits binId it b updateData v Hd Hc Hv.
    destruct (put_bin_designated system_clock w digits binId it b updateData Hd)
      as (_ & Hnth & _ & _).
    eexists. split; [exact Hnth|].
    assert (Hfill : fillLevel
                      (updated updateData
                         (getCurrentTimestamp (system_clock (clock_reads w))) b)
                    = clamp (Int.wrap v)).
    { apply updated_fillLevel; rewrite ?Hv; auto. }
    rewrite Hfill. split; [reflexivity|]. split; [apply clamp_range|].
    intros Hr. rewrite Int.wrap_id by exact Hr. apply clamp_spec.
  - intros Hd. rewrite collect_sensor_data_spec.
    destruct (g_bins w) as [|b rest] eqn:Hbins; cbn [snd g_bins].
    + rewrite Hbins. constructor.
    + apply sensed_fill_ok. exact Hd.
Qed.

Definition sample_distrib (k : nat) : Z :=
  match k with
  | O => 80
  | S O => 10
  | _ => 75
  end.

Lemma sample_distrib_range k : 0 <= sample_distrib k <= 100.
Proof. destruct k as [|[|k]]; cbn; lia. Qed.

Lemma two_bins_fill_ok : Forall fill_ok two_bins.
Proof. repeat constructor; cbn; lia. Qed.

Lemma fillLevel_stays_within_0_100_witness :
  Forall fill_ok
    (g_bins (snd (put_bin sample_clock 1
                    (Ok (JObject [("fillLevel", JInt 150)])) sample_world)))
  /\ (exists b',
         nth_error
           (g_bins (snd (put_bin sample_clock 1
                           (Ok (JObject [("fillLevel", JInt 150)]))
                           sample_world))) 0
         = Some b'
         /\ fillLevel b' = 100)
  /\ Forall fill_ok
       (g_bins (snd (collect_sensor_data sample_clock sample_distrib
                       sample_world))).
Proof.
  destruct (fillLevel_stays_within_0_100 sample_clock sample_distrib
              sample_world) as (Hput & Hfill & Hsensor).
  split; [|split].
  - apply Hput. exact two_bins_fill_ok.
  - destruct (Hfill 1%N 1 0%nat
                (mkBin 1 "Main St" 40 false "2026-10-30T12:00:00.000Z")
                (JObject [("fillLevel", JInt 150)]) 150
                sample_designates eq_refl eq_refl)
      as (b' & Hnth & Hclamp & _ & _).
    exists b'. split; [exact Hnth|]. rewrite Hclamp. reflexivity.
  - apply Hsensor. exact sample_distrib_range.
Defined.

(** ** The id of a new bin *)

(** The world after POST [{"location":"A"}], POST [{"location":"B"}]
    and DELETE /bins/2 on an empty store. *)
Definition world_after_delete : world :=
  run (fun _ => 0) sample_distrib (fun _ l => l)
    [ POST_bins (Ok (JObject [("location", JString "A")]));
      POST_bins (Ok (JObject [("location", JString "B")]));
      DELETE_bin 2 ]
    (initial_world NoFile good_disk).

(** C2, as stated, fails: after a delete of the bin with the greatest
    id, the store holds bin 1 only, and the next bin gets the id 3, not
    the greatest id plus 1. *)
Lemma create_after_delete_is_not_max_plus_one :
  map id (g_bins world_after_delete) = [1]
  /\ max_id_plus_one (g_bins world_after_delete) = 2
  /\ exists newBin w',
       create_bin (fun _ => 0) "C" world_after_delete = (Ok newBin, w')
       /\ id newBin = 3
       /\ id newBin <> max_id_plus_one (g_bins world_after_delete).
Proof.
  split; [reflexivity|]. split; [reflexivity|].
  eexists. eexists. split; [reflexivity|]. split; [reflexivity|].
  cbn. discriminate.
Qed.

(** C2, amended.  In a world whose counter is ahead of the ids of the
    store and below the greatest [int], [create_bin] gives the new bin
    the value of [g_next_bin_id] and moves the counter one up; that id is
    above every id of the store. *)
Theorem create_bin_takes_the_counter :
  forall (system_clock : nat -> Z) (l : string) (w : world),
    counter_ahead w ->
    g_next_bin_id w < Int.max_int ->
    exists newBin w',
      create_bin system_clock l w = (Ok newBin, w')
      /\ id newBin = g_next_bin_id w
      /\ g_next_bin_id w' = id newBin + 1
      /\ g_bins w' = g_bins w ++ [newBin]
      /\ Forall (fun b => id b < id newBin) (g_bins w)
      /\ counter_ahead w'.
Proof.
  intros system_clock l w Hw Hlt.
  destruct (create_bin_counter_ahead system_clock l w Hw Hlt) as [Hw' Hn].
  rewrite create_bin_spec in *. cbn [snd] in *.
  eexists. eexists. split; [reflexivity|].
  cbn [id g_next_bin_id g_bins new_bin] in *.
  split; [reflexivity|]. split; [exact Hn|]. split; [reflexivity|].
  split; [apply Hw|exact Hw'].
Qed.

Lemma create_bin_takes_the_counter_witness :
  exists newBin w',
    create_bin (fun _ => 0) "C" world_after_delete = (Ok newBin, w')
    /\ id newBin = g_next_bin_id world_after_delete
    /\ g_next_bin_id w' = id newBin + 1
    /\ g_bins w' = g_bins world_after_delete ++ [newBin]
    /\ Forall (fun b => id b < id newBin) (g_bins world_after_delete)
    /\ counter_ahead w'.
Proof.
  apply create_bin_takes_the_counter.
  - apply counter_aheadb_spec. reflexivity.
  - reflexivity.
Defined.

(** What [fromJson] returns has its [int] fields within [int]. *)
Lemma get_int_in_range j v : get_int j = Ok v -> Int.in_range v.
Proof.
  destruct j; cbn; try discriminate; intros [= <-];
    try apply Int.wrap_in_range.
  destruct b; apply Int.in_rangeb_spec; reflexivity.
Qed.

Lemma fromJson_ok item bin : fromJson item = Ok bin -> bin_ok bin.
Proof.
  unfold fromJson. intros H.
  destruct (at_key item "id") as [v1|]; [|discriminate]. cbn [bind_result] in H.
  destruct (get_int v1) as [i|] eqn:Hi; [|discriminate]. cbn [bind_result] in H.
  destruct (at_key item "location") as [v2|]; [|discriminate].
  cbn [bind_result] in H.
  destruct (get_string v2) as [l|]; [|discriminate]. cbn [bind_result] in H.
  destruct (at_key item "fillLevel") as [v3|]; [|discriminate].
  cbn [bind_result] in H.
  destruct (get_int v3) as [f|] eqn:Hf; [|discriminate]. cbn [bind_result] in H.
  destruct (at_key item "needsCollection") as [v4|]; [|discriminate].
  cbn [bind_result] in H.
  destruct (get_bool v4) as [n|]; [|discriminate]. cbn [bind_result] in H.
  destruct (at_key item "lastUpdated") as [v5|]; [|discriminate].
  cbn [bind_result] in H.
  destruct (get_string v5) as [t|]; [|discriminate]. cbn [bind_result] in H.
  injection H as <-. split; cbn [id fillLevel]; eauto using get_int_in_range.
Qed.

Lemma loaded_ok items : Forall bin_ok (fst (loaded items)).
Proof.
  induction items as [|item rest IH]; cbn [loaded]; [constructor|].
  destruct (fromJson item) as [bin|] eqn:Hitem; [|constructor].
  destruct (loaded rest) as [bins e]. cbn [fst] in *.
  constructor; [eapply fromJson_ok; exact Hitem|exact IH].
Qed.

(** The counter at the start of the process and after a load. *)
Lemma initial_world_counter_ahead file outcomes :
  counter_ahead (initial_world file outcomes).
Proof. apply counter_aheadb_spec. reflexivity. Qed.

Lemma load_counter_ahead system_clock w :
  (forall data, data_file w = FileText (Ok data) ->
                Forall (fun b => id b < Int.max_int)
                  (fst (loaded (elements data)))) ->
  let w' := snd (loadBinsFromFile system_clock w) in
  counter_ahead w'
  /\ g_next_bin_id w' = max_id_plus_one (g_bins w').
Proof.
  intros Hfile w'. subst w'.
  rewrite loadBinsFromFile_spec. unfold load_result.
  destruct (data_file w) as [|[data|what]];
    try (split; [apply counter_aheadb_spec|]; reflexivity).
  specialize (Hfile data eq_refl).
  pose proof (loaded_ok (elements data)) as Hok.
  destruct (loaded (elements data)) as [bins [what|]];
    try (split; [apply counter_aheadb_spec|]; reflexivity).
  cbn [fst snd g_bins g_next_bin_id] in *. unfold counter_ahead.
  cbn [g_bins g_next_bin_id].
  destruct (next_id_of_ahead bins Hok Hfile) as (H1 & H2 & H3).
  split; [split|]; assumption.
Qed.

(** ** The route *)

(** What the C++ standard asks of the comparison given to [std::sort]. *)
Record strict_weak_order {A} (comp : A -> A -> bool) : Prop := {
  swo_irreflexive : forall a, comp a a = false;
  swo_transitive :
    forall a b c, comp a b = true -> comp b c = true -> comp a c = true;
  swo_equivalence :
    forall a b c,
      comp a b = false -> comp b a = false ->
      comp b c = false -> comp c b = false ->
      comp a c = false /\ comp c a = false
}.

Arguments swo_irreflexive {A comp}.
Arguments swo_transitive {A comp}.
Arguments swo_equivalence {A comp}.

(** What it promises of [std::sort] in return: the same elements, none
    of them before one that compares less than it.  It promises nothing
    on the order of elements that compare equal. *)
Definition sorts (std_sort : (WasteBin -> WasteBin -> bool) ->
                             list WasteBin -> list WasteBin) : Prop :=
  forall comp l,
    strict_weak_order comp ->
    Permutation l (std_sort comp l)
    /\ StronglySorted (fun a b => comp b a = false) (std_sort comp l).

(** The bins of one fill level come in the route as they come in the
    store. *)
Definition ties_in_store_order (bins route : list WasteBin) : Prop :=
  forall level,
    filter (fun b => fillLevel b =? level) route
    = filter (fun b => fillLevel b =? level) (filter needsCollection bins).

Lemma fuller_strict_weak_order : strict_weak_order fuller.
Proof.
  unfold fuller. constructor.
  - intros a. rewrite Z.gtb_ltb. apply Z.ltb_irrefl.
  - intros a b c. rewrite !Z.gtb_ltb, !Z.ltb_lt. lia.
  - intros a b c. rewrite !Z.gtb_ltb, !Z.ltb_ge. lia.
Qed.

Lemma swo_asymmetric {A} (comp : A -> A -> bool) a b :
  strict_weak_order comp -> comp a b = true -> comp b a = false.
Proof.
  intros H Hab. destruct (comp b a) eqn:Hba; [|reflexivity].
  rewrite <- (swo_irreflexive H a). symmetry.
  exact (swo_transitive H a b a Hab Hba).
Qed.

Lemma swo_negatively_transitive {A} (comp : A -> A -> bool) a b c :
  strict_weak_order comp ->
  comp a b = false -> comp b c = false -> comp a c = false.
Proof.
  intros H Hab Hbc. destruct (comp a c) eqn:Hac; [|reflexivity].
  destruct (comp b a) eqn:Hba.
  - rewrite <- Hbc. symmetry. exact (swo_transitive H b a c Hba Hac).
  - destruct (comp c b) eqn:Hcb.
    + rewrite <- Hab. symmetry. exact (swo_transitive H a c b Hac Hcb).
    + destruct (swo_equivalence H a b c Hab Hba Hbc Hcb) as [Hac' _].
      congruence.
Qed.

(** *** An insertion sort *)

(** An implementation that [std::sort] may have: each element, from the
    last to the first, goes in front of the first element that it must
    precede. *)
Fixpoint insert (comp : WasteBin -> WasteBin -> bool) (x : WasteBin)
    (l : list WasteBin) : list WasteBin :=
  match l with
  | [] => [x]
  | y :: rest => if comp x y then x :: l else y :: insert comp x rest
  end.

Fixpoint insertion_sort (comp : WasteBin -> WasteBin -> bool)
    (l : list WasteBin) : list WasteBin :=
  match l with
  | [] => []
  | x :: rest => insert comp x (insertion_sort comp rest)
  end.

Lemma insert_permutation comp x l : Permutation (x :: l) (insert comp x l).
Proof.
  induction l as [|y rest IH]; cbn [insert]; [reflexivity|].
  destruct (comp x y); [reflexivity|].
  rewrite perm_swap. apply perm_skip. exact IH.
Qed.

Lemma insert_sorted comp x l :
  strict_weak_order comp ->
  StronglySorted (fun a b => comp b a = false) l ->
  StronglySorted (fun a b => comp b a = false) (insert comp x l).
Proof.
  intros Hswo. induction 1 as [|y rest Hs IH Hy]; cbn [insert].
  - constructor; constructor.
  - destruct (comp x y) eqn:Hxy.
    + constructor; [constructor; assumption|].
      constructor; [exact (swo_asymmetric comp x y Hswo Hxy)|].
      eapply Forall_impl; [|exact Hy]. cbn. intros z Hzy.
      destruct (comp z x) eqn:Hzx; [|reflexivity].
      rewrite <- Hzy. symmetry. exact (swo_transitive Hswo z x y Hzx Hxy).
    + constructor; [exact IH|].
      apply (Permutation_Forall (insert_permutation comp x rest)).
      constructor; assumption.
Qed.

Lemma insertion_sort_sorts : sorts insertion_sort.
Proof.
  intros comp l Hswo. induction l as [|x rest [IHp IHs]]; cbn [insertion_sort].
  - split; constructor.
  - split.
    + rewrite <- insert_permutation. apply perm_skip. exact IHp.
    + apply insert_sorted; assumption.
Qed.

(** *** The order of the route *)

Lemma StronglySorted_weaken {A} (R S : A -> A -> Prop) l :
  (forall a b, R a b -> S a b) -> StronglySorted R l -> StronglySorted S l.
Proof.
  intros HRS. induction 1 as [|x l Hs IH Hx]; constructor; auto.
  eapply Forall_impl; [|exact Hx]. auto.
Qed.

Lemma computeRoute_spec std_sort bins :
  sorts std_sort ->
  Permutation (filter needsCollection bins) (computeRoute std_sort bins)
  /\ StronglySorted (fun a b => fuller b a = false)
       (computeRoute std_sort bins).
Proof.
  intros Hsort. unfold computeRoute.
  destruct (filter needsCollection bins) as [|b rest] eqn:E.
  - split; constructor.
  - apply Hsort. exact fuller_strict_weak_order.
Qed.

(** C4, amended.  With any [std::sort] that the C++ standard allows,
    the route holds exactly the bins with [needsCollection] set, each of
    them as often as the store does, and no bin comes before a fuller
    one.  (Nothing is said of the order of bins that are equally full.) *)
Theorem computeRoute_sorted_by_fillLevel :
  forall std_sort bins,
    sorts std_sort ->
    Permutation (filter needsCollection bins) (computeRoute std_sort bins)
    /\ (forall b, In b (computeRoute std_sort bins) <->
                  In b bins /\ needsCollection b = true)
    /\ StronglySorted (fun a b => fillLevel a >= fillLevel b)
         (computeRoute std_sort bins).
Proof.
  intros std_sort bins Hsort.
  destruct (computeRoute_spec std_sort bins Hsort) as [Hperm Hsorted].
  split; [exact Hperm|]. split.
  - intros b. rewrite <- filter_In. split; apply Permutation_in;
      [symmetry|]; exact Hperm.
  - eapply StronglySorted_weaken; [|exact Hsorted].
    unfold fuller. intros a b. rewrite Z.gtb_ltb, Z.ltb_ge. lia.
Qed.

Definition three_bins : list WasteBin :=
  [ mkBin 1 "Main St" 80 true "2026-10-30T12:00:00.000Z";
    mkBin 2 "Depot" 40 false "2026-10-30T12:00:01.250Z";
    mkBin 3 "Harbour" 95 true "2026-10-30T12:00:02.500Z" ].

Lemma computeRoute_sorted_by_fillLevel_witness :
  Permutation (filter needsCollection three_bins)
    (computeRoute insertion_sort three_bins)
  /\ (forall b, In b (computeRoute insertion_sort three_bins) <->
                In b three_bins /\ needsCollection b = true)
  /\ StronglySorted (fun a b => fillLevel a >= fillLevel b)
       (computeRoute insertion_sort three_bins).
Proof.
  exact (computeRoute_sorted_by_fillLevel insertion_sort three_bins
           insertion_sort_sorts).
Defined.

(** Two bins to collect that are equally full. *)
Definition tied_bins : list WasteBin :=
  [ mkBin 1 "Main St" 80 true "2026-10-30T12:00:00.000Z";
    mkBin 2 "Depot" 80 true "2026-10-30T12:00:01.250Z" ].

(** [std::sort] on the bins, where the service is built with GCC. *)
Definition gnu_sort (comp : WasteBin -> WasteBin -> bool) (l : list WasteBin)
    : list WasteBin :=
  Libstdcxx.sort WasteBin comp (mkBin 0 "" 0 false "") l.

(** Seventeen bins to collect, with the ids 1 to 17, all equally full. *)
Definition seventeen_bins : list WasteBin :=
  map (fun i => mkBin (Z.of_nat i) "Main St" 80 true "2026-10-30T12:00:00.000Z")
    (seq 1 17).

(** C4, as stated, fails.  With the [std::sort] of GNU libstdc++ the
    seventeen bins, which are equally full, leave the route in another
    order than the one of the store; and an implementation of
    [std::sort] within the standard may swap two such bins already. *)
Lemma computeRoute_reorders_ties :
  map id (computeRoute gnu_sort seventeen_bins)
  = [9; 17; 16; 15; 14; 13; 12; 11; 10; 1; 8; 7; 6; 5; 4; 3; 2]
  /\ ~ ties_in_store_order seventeen_bins (computeRoute gnu_sort seventeen_bins)
  /\ exists std_sort,
       sorts std_sort
       /\ map id (computeRoute std_sort tied_bins) = [2; 1]
       /\ ~ ties_in_store_order tied_bins (computeRoute std_sort tied_bins).
Proof.
  split; [vm_compute; reflexivity|]. split.
  - intros H. specialize (H 80).
    apply (f_equal (map id)) in H. vm_compute in H. discriminate H.
  - exists insertion_sort. split; [exact insertion_sort_sorts|].
    split; [reflexivity|].
    intros H. specialize (H 80). cbn in H. discriminate H.
Qed.

(** ** The counter stays ahead

    Every world that the service reaches has its counter ahead of the
    ids of the store, as long as no create takes the counter to the
    greatest [int] and no load reads that id from the file. *)

Section Reachable.

Variable system_clock : nat -> Z.
Variable distrib : nat -> Z.
Variable std_sort :
  (WasteBin -> WasteBin -> bool) -> list WasteBin -> list WasteBin.

(** The request keeps the counter within [int]. *)
Definition within_int (r : request) (w : world) : Prop :=
  match r with
  | POST_bins (Ok requestData) =>
      g_next_bin_id w
      + Z.of_nat (List.length (fst (accepted (request_items requestData))))
      <= Int.max_int
  | POST_admin_load_data =>
      forall data,
        data_file w = FileText (Ok data) ->
        Forall (fun b => id b < Int.max_int) (fst (loaded (elements data)))
  | _ => True
  end.

Fixpoint run_within_int (requests : list request) (w : world) : Prop :=
  match requests with
  | [] => True
  | r :: rest =>
      within_int r w
      /\ run_within_int rest (snd (handle system_clock distrib std_sort r w))
  end.

Lemma updated_id u now b : id (updated u now b) = id b.
Proof.
  unfold updated. cbn [set_lastUpdated id].
  destruct (update_needsCollection_frame u
              (update_fillLevel u (update_location u b))) as (-> & _).
  destruct (update_fillLevel_frame u (update_location u b)) as (-> & _).
  apply update_location_frame.
Qed.

Lemma sensed_ids bins : forall reads draws,
  map id (sensed system_clock distrib bins reads draws) = map id bins.
Proof.
  induction bins as [|b rest IH]; intros reads draws; cbn; [reflexivity|].
  rewrite IH. reflexivity.
Qed.

Lemma counter_ahead_ids w w' :
  g_next_bin_id w' = g_next_bin_id w ->
  map id (g_bins w') = map id (g_bins w) ->
  counter_ahead w -> counter_ahead w'.
Proof.
  unfold counter_ahead. intros -> Hids [Hr Hb]. split; [exact Hr|].
  apply Forall_map with (f := id) (P := fun i => i < g_next_bin_id w).
  rewrite Hids. apply Forall_map. exact Hb.
Qed.

Lemma map_id_assign_at bins it f :
  (forall b, id (f b) = id b) -> map id (assign_at bins it f) = map id bins.
Proof.
  intros Hf. revert it.
  induction bins as [|b rest IH]; intros [|it]; cbn; rewrite ?Hf, ?IH;
    reflexivity.
Qed.

Lemma new_bins_counter_ahead ls : forall next reads bins,
  Int.in_range next ->
  next + Z.of_nat (List.length ls) <= Int.max_int ->
  Forall (fun b => id b < next) bins ->
  Int.in_range (Nat.iter (List.length ls) Int.succ next)
  /\ Forall (fun b => id b < Nat.iter (List.length ls) Int.succ next)
       (bins ++ new_bins system_clock ls next reads).
Proof.
  induction ls as [|l ls IH]; intros next reads bins Hr Hmax Hb.
  - cbn. rewrite app_nil_r. auto.
  - cbn [List.length new_bins] in *.
    replace (Nat.iter (S (List.length ls)) Int.succ next)
      with (Nat.iter (List.length ls) Int.succ (Int.succ next))
      by (symmetry; apply Nat.iter_succ_r).
    assert (Hs : Int.succ next = next + 1)
      by (apply Int.succ_small; [exact Hr|lia]).
    replace (bins ++ mkBin next l 0 false
                       (getCurrentTimestamp (system_clock reads))
                  :: new_bins system_clock ls (Int.succ next) (S reads))
      with ((bins ++ [mkBin next l 0 false
                        (getCurrentTimestamp (system_clock reads))])
              ++ new_bins system_clock ls (Int.succ next) (S reads))
      by (rewrite <- app_assoc; reflexivity).
    apply IH.
    + rewrite Hs. unfold Int.in_range, Int.max_int, Int.min_int in *. lia.
    + lia.
    + rewrite Hs. apply Forall_app. split.
      * eapply Forall_impl; [|exact Hb]. cbn. intros; lia.
      * constructor; [cbn; lia|constructor].
Qed.

Lemma handle_counter_ahead r w :
  counter_ahead w -> within_int r w ->
  counter_ahead (snd (handle system_clock distrib std_sort r w)).
Proof.
  intros Hw Hr. destruct r as [|digits|body|digits body|digits| | | |];
    cbn [handle within_int] in *.
  - (* GET /bins *)
    unfold get_all_bins, bind, get_bins. destruct (g_bins w); exact Hw.
  - (* GET /bins/{id} *)
    unfold get_bin, bind, lift, get_bins.
    destruct (stoi digits); [|exact Hw]. destruct (find _ _); exact Hw.
  - (* POST /bins *)
    rewrite post_bins_spec. destruct body as [requestData|what]; [|exact Hw].
    destruct (accepted (request_items requestData)) as [ls complete].
    cbn [fst] in Hr. destruct Hw as [Hrange Hb].
    destruct (new_bins_counter_ahead ls (g_next_bin_id w) (clock_reads w)
                (g_bins w) Hrange Hr Hb) as [H1 H2].
    destruct complete; split; assumption.
  - (* PUT /bins/{id} *)
    destruct (stoi digits) as [binId|what] eqn:Hid.
    2:{ destruct (put_bin_error system_clock digits body w) as [e ->];
          [left; rewrite Hid; reflexivity|exact Hw]. }
    destruct body as [updateData|what].
    2:{ destruct (put_bin_error system_clock digits (Throw what) w) as [e ->];
          [right; reflexivity|exact Hw]. }
    destruct (find_if (fun bin => id bin =? binId) (g_bins w)) as [it|] eqn:Hf.
    + rewrite (put_bin_found system_clock digits binId updateData it w Hid Hf).
      apply (counter_ahead_ids w); [reflexivity| |exact Hw].
      apply map_id_assign_at. intros b. apply updated_id.
    + rewrite (put_bin_not_found system_clock digits binId updateData w Hid Hf).
      exact Hw.
  - (* DELETE /bins/{id} *)
    unfold delete_bin_by_id, bind, lift.
    destruct (stoi digits) as [binId|what]; [|exact Hw].
    rewrite delete_bin_spec.
    destruct (find_if _ (g_bins w)) as [it|]; [|exact Hw].
    rewrite saveBinsToFile_spec. destruct Hw as [Hrange Hb].
    split; [exact Hrange|apply Forall_erase; exact Hb].
  - (* POST /bins/collect-sensor-data *)
    rewrite collect_sensor_data_spec.
    destruct (g_bins w) as [|b rest] eqn:Hbins; [exact Hw|].
    apply (counter_ahead_ids w); [reflexivity| |exact Hw].
    cbn [snd g_bins]. rewrite sensed_ids, Hbins. reflexivity.
  - (* GET /optimize-route *)
    unfold optimize_route, bind, get_bins.
    destruct (computeRoute std_sort (g_bins w)); exact Hw.
  - (* POST /admin/load-data *)
    unfold admin_load_data. unfold bind at 1.
    pose proof (load_counter_ahead system_clock w Hr) as [Hload _].
    destruct (loadBinsFromFile system_clock w) as [[[]|what] w'] eqn:Hl;
      cbn [snd] in Hload; [exact Hload|].
    rewrite loadBinsFromFile_spec in Hl.
    destruct (load_result w) as [[bins next] reads].
    discriminate.
  - (* POST /admin/save-data *)
    unfold admin_save_data. unfold bind at 1. rewrite saveBinsToFile_spec.
    exact Hw.
Qed.

Lemma run_counter_ahead requests : forall w,
  counter_ahead w -> run_within_int requests w ->
  counter_ahead (run system_clock distrib std_sort requests w).
Proof.
  induction requests as [|r rest IH]; intros w Hw Hr; [exact Hw|].
  destruct Hr as [Hr Hrest]. cbn [run fold_left].
  apply IH; [apply handle_counter_ahead; assumption|exact Hrest].
Qed.

(** From the start of the process on. *)
Lemma main_counter_ahead file outcomes requests :
  within_int POST_admin_load_data (initial_world file outcomes) ->
  run_within_int requests
    (snd (loadBinsFromFile system_clock (initial_world file outcomes))) ->
  counter_ahead (main system_clock distrib std_sort file outcomes requests).
Proof.
  intros Hfile Hrun. unfold main. apply run_counter_ahead; [|exact Hrun].
  apply (load_counter_ahead system_clock (initial_world file outcomes) Hfile).
Qed.

End Reachable.

(** * Further properties

    What the parts of the service do that the properties above leave
    aside. *)

(** ** The JSON of a bin *)

Lemma at_key_index item key v : at_key item key = Ok v -> index item key = v.
Proof.
  unfold at_key, index. destruct item; try discriminate.
  destruct (assoc key members); [|discriminate].
  intros H. injection H as ->. reflexivity.
Qed.

(** X1.  [WasteBin::fromJson] throws on exactly the elements that lack
    one of the five fields or hold, in one of them, a value that the
    conversion of the field refuses. *)
Theorem fromJson_throws_iff_bad_element (item : json) :
  is_ok (fromJson item) = false <-> bad_element item.
Proof. split; [apply fromJson_throws|apply fromJson_bad]. Qed.

Ltac fromJson_step H :=
  match type of H with
  | bind_result ?r _ = Ok _ =>
      let E := fresh "E" in
      destruct r eqn:E; cbn [bind_result] in H; [|discriminate H]
  end.

(** X2.  The bin that [WasteBin::fromJson] returns holds, in each
    field, the conversion of the member of that name, whatever else the
    element holds; it has 32-bit numbers, and [toJson] followed by
    [fromJson] gives it back. *)
Theorem fromJson_reads_each_field (item : json) (b : WasteBin) :
  fromJson item = Ok b ->
  get_int (index item "id") = Ok (id b)
  /\ get_string (index item "location") = Ok (location b)
  /\ get_int (index item "fillLevel") = Ok (fillLevel b)
  /\ get_bool (index item "needsCollection") = Ok (needsCollection b)
  /\ get_string (index item "lastUpdated") = Ok (lastUpdated b)
  /\ bin_ok b
  /\ fromJson (toJson b) = Ok b.
Proof.
  intros H. pose proof (fromJson_ok item b H) as Hok.
  pose proof (fromJson_toJson b Hok) as Hback.
  unfold fromJson in H. repeat fromJson_step H.
  injection H as <-. cbn [id location fillLevel needsCollection lastUpdated].
  repeat match goal with
         | E : at_key item _ = Ok _ |- _ => apply at_key_index in E; rewrite E
         end.
  do 5 (split; [assumption|]). split; assumption.
Qed.

Definition element_with_more : json :=
  JObject [ ("lastUpdated", JString "2026-10-30T12:00:00.000Z");
            ("needsCollection", JBool true);
            ("fillLevel", JFloat 181 (-1));
            ("colour", JString "green");
            ("location", JString "Main St");
            ("id", JBool true) ].

Lemma fromJson_reads_each_field_witness :
  fromJson element_with_more
  = Ok (mkBin 1 "Main St" 90 true "2026-10-30T12:00:00.000Z")
  /\ fromJson (toJson (mkBin 1 "Main St" 90 true "2026-10-30T12:00:00.000Z"))
     = Ok (mkBin 1 "Main St" 90 true "2026-10-30T12:00:00.000Z").
Proof.
  split; [reflexivity|].
  apply (fromJson_reads_each_field element_with_more
           (mkBin 1 "Main St" 90 true "2026-10-30T12:00:00.000Z")).
  reflexivity.
Defined.

(** ** The text of a timestamp *)

(** X3.  Between 1970 and the year 10000 the timestamps of two clock
    readings compare, as strings, exactly as the readings do: a later
    millisecond gives a greater timestamp, and two readings have the
    same timestamp only when they are the same millisecond. *)
Theorem getCurrentTimestamp_compares_as_the_clock (t0 t1 : Z) :
  0 <= t0 < year_10000 -> 0 <= t1 < year_10000 ->
  (getCurrentTimestamp t0 ?= getCurrentTimestamp t1)%string = (t0 ?= t1).
Proof.
  intros H0 H1. destruct (Z.compare_spec t0 t1) as [->|Hlt|Hgt].
  - apply string_compare_refl.
  - apply getCurrentTimestamp_increasing; lia.
  - rewrite String.compare_antisym.
    rewrite getCurrentTimestamp_increasing by lia. reflexivity.
Qed.

Lemma getCurrentTimestamp_compares_as_the_clock_witness :
  (getCurrentTimestamp 1793361600000 ?= getCurrentTimestamp 1793361601250)%string
  = Lt.
Proof.
  apply (getCurrentTimestamp_compares_as_the_clock 1793361600000 1793361601250);
    unfold year_10000; lia.
Defined.

(** A decimal digit. *)
Definition is_digit (c : ascii) : bool :=
  ((48 <=? nat_of_ascii c) && (nat_of_ascii c <=? 57))%nat.

(** [matches pattern s]: [s] has the characters of [pattern], with a
    digit wherever the pattern has a [d]. *)
Fixpoint matches (pattern s : string) : bool :=
  match pattern, s with
  | EmptyString, EmptyString => true
  | String p pattern', String c s' =>
      (if Ascii.eqb p "d" then is_digit c else Ascii.eqb p c)
      && matches pattern' s'
  | _, _ => false
  end.

Lemma matches_app p1 s1 : forall p2 s2,
  matches p1 s1 = true -> matches p2 s2 = true ->
  matches (p1 ++ p2) (s1 ++ s2) = true.
Proof.
  revert s1. induction p1 as [|p p1 IH]; intros [|c s1] p2 s2 H1 H2;
    cbn in *; try discriminate; [exact H2|].
  apply andb_true_iff in H1 as [Hc H1]. rewrite Hc. cbn. apply IH; assumption.
Qed.

Lemma matches_length p : forall s,
  matches p s = true -> String.length s = String.length p.
Proof.
  induction p as [|c p IH]; intros [|c' s] H; cbn in *; try discriminate;
    [reflexivity|].
  apply andb_true_iff in H as [_ H]. rewrite (IH s H). reflexivity.
Qed.

Lemma zero_pad_2_digits a :
  0 <= a < 100 -> matches "dd" (zero_pad 2 a) = true.
Proof.
  assert (H : forallb (fun a => matches "dd" (zero_pad 2 a)) (range 100) = true)
    by (vm_compute; reflexivity).
  exact (forallb_range _ _ H a).
Qed.

Lemma zero_pad_1_digit a :
  0 <= a < 10 -> matches "d" (zero_pad 1 a) = true.
Proof.
  assert (H : forallb (fun a => matches "d" (zero_pad 1 a)) (range 10) = true)
    by (vm_compute; reflexivity).
  exact (forallb_range _ _ H a).
Qed.

(** X4.  Between 1970 and the year 10000 a timestamp has the 24
    characters of [YYYY-MM-DDTHH:MM:SS.mmmZ], every field a run of
    decimal digits of a fixed width. *)
Theorem getCurrentTimestamp_format (t : Z) :
  0 <= t < year_10000 ->
  matches "dddd-dd-ddTdd:dd:dd.dddZ" (getCurrentTimestamp t) = true
  /\ String.length (getCurrentTimestamp t) = 24%nat.
Proof.
  unfold year_10000. intros Ht.
  assert (Hm : matches "dddd-dd-ddTdd:dd:dd.dddZ" (getCurrentTimestamp t) = true).
  { unfold getCurrentTimestamp, put_time.
    pose proof (Z.mod_pos_bound t 1000 ltac:(lia)) as Bms.
    pose proof (Z.div_mod t 1000 ltac:(lia)) as Ems.
    set (ms := t mod 1000) in *. set (c := t / 1000) in *.
    pose proof (Z.mod_pos_bound c 86400 ltac:(lia)) as Bs.
    pose proof (Z.div_mod c 86400 ltac:(lia)) as Es.
    set (s := c mod 86400) in *. set (d := c / 86400) in *.
    assert (Hd : 0 <= d <= last_day) by (unfold last_day; lia).
    pose proof (civil_from_days_year d Hd) as Y.
    pose proof (civil_from_days_month_day d) as MD.
    destruct (civil_from_days d) as [[y m] dd].
    rewrite (year_digits y), (millis_digits ms) by lia.
    rewrite !append_assoc.
    change "dddd-dd-ddTdd:dd:dd.dddZ"
      with ("dd" ++ "dd" ++ "-" ++ "dd" ++ "-" ++ "dd" ++ "T" ++ "dd" ++ ":"
            ++ "dd" ++ ":" ++ "dd" ++ "." ++ "d" ++ "dd" ++ "Z")%string.
    pose proof (Z.mod_pos_bound y 100 ltac:(lia)).
    pose proof (Z.div_mod y 100 ltac:(lia)).
    pose proof (Z.mod_pos_bound ms 100 ltac:(lia)).
    pose proof (Z.div_mod ms 100 ltac:(lia)).
    pose proof (Z.mod_pos_bound s 3600 ltac:(lia)).
    pose proof (Z.div_mod s 3600 ltac:(lia)).
    pose proof (Z.mod_pos_bound (s mod 3600) 60 ltac:(lia)).
    pose proof (Z.div_mod (s mod 3600) 60 ltac:(lia)).
    pose proof (Z.mod_pos_bound s 60 ltac:(lia)).
    repeat (apply matches_app;
            [first [apply zero_pad_2_digits; lia
                   |apply zero_pad_1_digit; lia
                   |reflexivity]|]).
    reflexivity. }
  split; [exact Hm|]. apply matches_length in Hm. exact Hm.
Qed.

Lemma getCurrentTimestamp_format_witness :
  matches "dddd-dd-ddTdd:dd:dd.dddZ" (getCurrentTimestamp 1793361601250) = true
  /\ String.length (getCurrentTimestamp 1793361601250) = 24%nat.
Proof.
  apply (getCurrentTimestamp_format 1793361601250). unfold year_10000. lia.
Defined.

(** ** The position that [find_if] returns *)

Lemma find_if_split {A} (pred : A -> bool) l : forall it,
  find_if pred l = Some it ->
  exists pre x post,
    l = pre ++ x :: post /\ List.length pre = it /\ pred x = true
    /\ Forall (fun y => pred y = false) pre.
Proof.
  induction l as [|y l IH]; intros it H; [discriminate|].
  cbn [find_if] in H. destruct (pred y) eqn:E.
  - injection H as <-. exists [], y, l. repeat split; [exact E|constructor].
  - destruct (find_if pred l) as [i|]; [|discriminate].
    injection H as <-.
    destruct (IH i eq_refl) as (pre & x & post & -> & <- & Hx & Hpre).
    exists (y :: pre), x, post. repeat split; [exact Hx|].
    constructor; assumption.
Qed.

Lemma find_if_none {A} (pred : A -> bool) l :
  find_if pred l = None <-> Forall (fun y => pred y = false) l.
Proof.
  induction l as [|y l IH]; cbn [find_if].
  - split; [constructor|reflexivity].
  - destruct (pred y) eqn:E.
    + split; [discriminate|]. intros H. inversion H; congruence.
    + destruct (find_if pred l) as [i|].
      * split; [discriminate|]. intros H. inversion H; subst.
        apply IH in H3. discriminate.
      * split; [|reflexivity]. intros _. constructor; [exact E|].
        apply IH. reflexivity.
Qed.

Lemma find_if_first {A} (pred : A -> bool) pre x post :
  Forall (fun y => pred y = false) pre -> pred x = true ->
  find_if pred (pre ++ x :: post) = Some (List.length pre).
Proof.
  intros Hpre Hx. induction Hpre as [|y pre Hy _ IH]; cbn.
  - rewrite Hx. reflexivity.
  - rewrite Hy, IH. reflexivity.
Qed.

Lemma erase_middle {A} (pre : list A) x post :
  erase (pre ++ x :: post) (List.length pre) = pre ++ post.
Proof. induction pre as [|y pre IH]; cbn; [|rewrite IH]; reflexivity. Qed.

Lemma nth_error_middle {A} (pre : list A) x post :
  nth_error (pre ++ x :: post) (List.length pre) = Some x.
Proof. induction pre as [|y pre IH]; cbn; [reflexivity|exact IH]. Qed.

(** The [for] loop with a [return] of GET /bins/{id} stops where
    [find_if] does. *)
Lemma find_find_if {A} (pred : A -> bool) l :
  find pred l = match find_if pred l with
                | Some it => nth_error l it
                | None => None
                end.
Proof.
  induction l as [|y l IH]; cbn; [reflexivity|].
  destruct (pred y); [reflexivity|]. rewrite IH.
  destruct (find_if pred l); reflexivity.
Qed.

Lemma find_if_assign_at {A} (pred : A -> bool) f l : forall it,
  (forall x, pred (f x) = pred x) ->
  find_if pred (assign_at l it f) = find_if pred l.
Proof.
  intros it Hf. revert it.
  induction l as [|y l IH]; intros [|it]; cbn; rewrite ?Hf, ?IH; reflexivity.
Qed.


Lemma without_id bins binId :
  Forall (fun b => (id b =? binId) = false) bins <-> ~ In binId (map id bins).
Proof.
  rewrite Forall_forall, in_map_iff. split.
  - intros H (b & Hb & Hin). specialize (H b Hin). rewrite Hb in H.
    rewrite Z.eqb_refl in H. discriminate.
  - intros H b Hin. apply Z.eqb_neq. intros Hb. apply H. exists b. auto.
Qed.

(** ** GET /bins *)

Lemma get_all_bins_spec w :
  get_all_bins w
  = (Ok (mkResponse 200
           (createApiResponse true
              (match g_bins w with
               | [] => "No bins available"
               | _ => "Retrieved "
                        ++ Int.to_string (Z.of_nat (List.length (g_bins w)))
                        ++ " bins"
               end)%string
              (JArray (map toJson (g_bins w))))), w).
Proof.
  unfold get_all_bins, bind, get_bins.
  destruct (g_bins w) as [|b rest] eqn:E; [reflexivity|].
  rewrite to_json_array_spec. reflexivity.
Qed.

(** X5.  GET /bins changes nothing and is answered 200 with every bin
    of the store, in the order of the store; with an empty store the
    data is an empty array. *)
Theorem get_all_bins_lists_the_store (w : world) :
  exists resp,
    get_all_bins w = (Ok resp, w)
    /\ status resp = 200
    /\ index (content resp) "success" = JBool true
    /\ index (content resp) "data" = JArray (map toJson (g_bins w)).
Proof.
  rewrite get_all_bins_spec. eexists. repeat split.
Qed.

(** ** GET /bins/{id} and DELETE /bins/{id} *)

Definition retrieved_response (binId : Z) (bin : WasteBin) : response :=
  mkResponse 200
    (createApiResponse true
       ("Retrieved bin with ID " ++ Int.to_string binId)%string (toJson bin)).

Definition deleted_response (binId : Z) : response :=
  mkResponse 200
    (createApiResponse true
       ("Bin with ID " ++ Int.to_string binId ++ " deleted successfully")%string
       JNull).

Lemma get_bin_spec digits w :
  get_bin digits w =
    match stoi digits with
    | Throw what => (Throw what, w)
    | Ok binId =>
        match find_if (fun bin => id bin =? binId) (g_bins w) with
        | Some it =>
            match nth_error (g_bins w) it with
            | Some bin => (Ok (retrieved_response binId bin), w)
            | None => (Ok (not_found binId), w)
            end
        | None => (Ok (not_found binId), w)
        end
    end.
Proof.
  unfold get_bin, bind, lift, get_bins.
  destruct (stoi digits) as [binId|what]; [|reflexivity].
  rewrite find_find_if.
  destruct (find_if _ (g_bins w)) as [it|]; [|reflexivity].
  destruct (nth_error (g_bins w) it); reflexivity.
Qed.

Lemma delete_bin_by_id_spec digits w :
  delete_bin_by_id digits w =
    match stoi digits with
    | Throw what => (Throw what, w)
    | Ok binId =>
        match find_if (fun bin => id bin =? binId) (g_bins w) with
        | Some it =>
            let bins := erase (g_bins w) it in
            (Ok (deleted_response binId),
             mkWorld bins (g_next_bin_id w)
               (file_after (disk w 0%nat) (data_file w)
                  (JArray (map toJson bins)))
               (clock_reads w) (rng_draws w) (writes_after (disk w)))
        | None => (Ok (not_found binId), w)
        end
    end.
Proof.
  unfold delete_bin_by_id, bind, lift.
  destruct (stoi digits) as [binId|what]; [|reflexivity].
  rewrite delete_bin_spec.
  destruct (find_if _ (g_bins w)) as [it|]; [|reflexivity].
  rewrite saveBinsToFile_spec. reflexivity.
Qed.

(** X6.  GET /bins/{id} answers with the first bin of the store that
    has the id, and with 404 when no bin has it; it leaves the store,
    the counter and the file as they are. *)
Theorem get_bin_returns_the_first_match (digits : N) (binId : Z) (w : world) :
  stoi digits = Ok binId ->
  snd (get_bin digits w) = w
  /\ (~ In binId (map id (g_bins w)) ->
      fst (get_bin digits w) = Ok (not_found binId)
      /\ status (not_found binId) = 404)
  /\ (forall pre b post,
         g_bins w = pre ++ b :: post ->
         id b = binId -> ~ In binId (map id pre) ->
         fst (get_bin digits w) = Ok (retrieved_response binId b)
         /\ status (retrieved_response binId b) = 200
         /\ index (content (retrieved_response binId b)) "data" = toJson b).
Proof.
  intros Hid. rewrite get_bin_spec, Hid. split; [|split].
  - destruct (find_if _ (g_bins w)) as [it|]; [|reflexivity].
    destruct (nth_error (g_bins w) it); reflexivity.
  - intros Hno. apply without_id, find_if_none in Hno. rewrite Hno.
    split; reflexivity.
  - intros pre b post Hbins Hb Hpre. rewrite Hbins.
    rewrite (find_if_first _ pre b post);
      [|apply without_id; exact Hpre|apply Z.eqb_eq; exact Hb].
    rewrite nth_error_middle. repeat split.
Qed.

Lemma get_bin_returns_the_first_match_witness :
  snd (get_bin 4 sample_world) = sample_world
  /\ (~ In 4 (map id (g_bins sample_world)) ->
      fst (get_bin 4 sample_world) = Ok (not_found 4)
      /\ status (not_found 4) = 404)
  /\ (forall pre b post,
         g_bins sample_world = pre ++ b :: post ->
         id b = 4 -> ~ In 4 (map id pre) ->
         fst (get_bin 4 sample_world) = Ok (retrieved_response 4 b)
         /\ status (retrieved_response 4 b) = 200
         /\ index (content (retrieved_response 4 b)) "data" = toJson b).
Proof. exact (get_bin_returns_the_first_match 4 4 sample_world eq_refl). Defined.

(** X7.  DELETE /bins/{id} removes the first bin of the store that has
    the id and nothing else: the bins before and after it stay, in
    their order, the counter stays, and one write of the new store is
    made to the file, which holds that store if the write arrives and
    stays as it was if the write is refused; the answer is 200 either
    way.  When no bin has the id the answer is 404 and nothing changes,
    no write being made. *)
Theorem delete_bin_removes_the_first_match (digits : N) (binId : Z) (w : world) :
  stoi digits = Ok binId ->
  (~ In binId (map id (g_bins w)) ->
   delete_bin_by_id digits w = (Ok (not_found binId), w)
   /\ status (not_found binId) = 404)
  /\ (forall pre b post,
         g_bins w = pre ++ b :: post ->
         id b = binId -> ~ In binId (map id pre) ->
         delete_bin_by_id digits w
         = (Ok (deleted_response binId),
            mkWorld (pre ++ post) (g_next_bin_id w)
              (file_after (disk w 0%nat) (data_file w)
                 (JArray (map toJson (pre ++ post))))
              (clock_reads w) (rng_draws w) (writes_after (disk w)))
         /\ status (deleted_response binId) = 200).
Proof.
  intros Hid. rewrite delete_bin_by_id_spec, Hid. split.
  - intros Hno. apply without_id, find_if_none in Hno. rewrite Hno.
    split; reflexivity.
  - intros pre b post Hbins Hb Hpre. rewrite Hbins.
    rewrite (find_if_first _ pre b post);
      [|apply without_id; exact Hpre|apply Z.eqb_eq; exact Hb].
    cbv zeta. rewrite erase_middle. split; reflexivity.
Qed.

Lemma delete_bin_removes_the_first_match_witness :
  (~ In 1 (map id (g_bins sample_world)) ->
   delete_bin_by_id 1 sample_world = (Ok (not_found 1), sample_world)
   /\ status (not_found 1) = 404)
  /\ (forall pre b post,
         g_bins sample_world = pre ++ b :: post ->
         id b = 1 -> ~ In 1 (map id pre) ->
         delete_bin_by_id 1 sample_world
         = (Ok (deleted_response 1),
            mkWorld (pre ++ post) (g_next_bin_id sample_world)
              (file_after (disk sample_world 0%nat) (data_file sample_world)
                 (JArray (map toJson (pre ++ post))))
              (clock_reads sample_world) (rng_draws sample_world)
              (writes_after (disk sample_world)))
         /\ status (deleted_response 1) = 200).
Proof. exact (delete_bin_removes_the_first_match 1 1 sample_world eq_refl). Defined.

(** X8.  With distinct ids in the store, a bin that DELETE /bins/{id}
    has removed is gone: GET /bins/{id} answers 404 afterwards. *)
Theorem get_after_delete_is_not_found (digits : N) (binId : Z) (w : world) :
  stoi digits = Ok binId ->
  NoDup (map id (g_bins w)) ->
  In binId (map id (g_bins w)) ->
  fst (delete_bin_by_id digits w) = Ok (deleted_response binId)
  /\ fst (get_bin digits (snd (delete_bin_by_id digits w)))
     = Ok (not_found binId)
  /\ status (not_found binId) = 404.
Proof.
  intros Hid Hnodup Hin.
  rewrite delete_bin_by_id_spec, Hid.
  destruct (find_if (fun bin => id bin =? binId) (g_bins w)) as [it|] eqn:Hf.
  2:{ apply find_if_none, without_id in Hf. contradiction. }
  destruct (find_if_split _ _ _ Hf) as (pre & b & post & Hbins & Hlen & Hb & Hpre).
  subst it. rewrite Hbins, erase_middle. cbn [fst snd].
  split; [reflexivity|]. rewrite get_bin_spec, Hid. cbn [g_bins].
  assert (Hno : ~ In binId (map id (pre ++ post))).
  { rewrite Hbins, map_app in Hnodup. cbn [map] in Hnodup.
    apply Z.eqb_eq in Hb. rewrite Hb in Hnodup.
    pose proof (NoDup_remove_2 _ _ _ Hnodup) as H. rewrite map_app. exact H. }
  apply without_id, find_if_none in Hno. rewrite Hno. split; reflexivity.
Qed.

Lemma get_after_delete_is_not_found_witness :
  fst (delete_bin_by_id 1 sample_world) = Ok (deleted_response 1)
  /\ fst (get_bin 1 (snd (delete_bin_by_id 1 sample_world))) = Ok (not_found 1)
  /\ status (not_found 1) = 404.
Proof.
  apply (get_after_delete_is_not_found 1 1 sample_world eq_refl).
  - cbn. repeat constructor; cbn; intuition discriminate.
  - cbn. auto.
Defined.

(** ** PUT /bins/{id} *)


Lemma updated_location u now b :
  location (updated u now b) = location (update_location u b).
Proof.
  unfold updated. cbn [set_lastUpdated location].
  destruct (update_needsCollection_frame u
              (update_fillLevel u (update_location u b))) as (_ & -> & _).
  apply update_fillLevel_frame.
Qed.

Lemma updated_needsCollection u now b :
  needsCollection (updated u now b)
  = needsCollection (update_needsCollection u b).
Proof.
  unfold updated. cbn [set_lastUpdated needsCollection].
  unfold update_needsCollection.
  destruct (contains u "needsCollection"
            && is_boolean (index u "needsCollection")).
  - destruct (get_bool (index u "needsCollection")); cbn;
      [reflexivity|].
    destruct (update_fillLevel_frame u (update_location u b)) as (_ & _ & -> & _).
    apply update_location_frame.
  - destruct (update_fillLevel_frame u (update_location u b)) as (_ & _ & -> & _).
    apply update_location_frame.
Qed.

Lemma updated_fillLevel_kept u now b :
  contains u "fillLevel" = false -> fillLevel (updated u now b) = fillLevel b.
Proof.
  intros H. unfold updated. cbn [set_lastUpdated fillLevel].
  destruct (update_needsCollection_frame u
              (update_fillLevel u (update_location u b))) as (_ & _ & -> & _).
  unfold update_fillLevel. rewrite H. cbn [andb].
  apply update_location_frame.
Qed.

(** X10.  A PUT that finds its bin stores the [location] that the body
    gives as a string and the [needsCollection] that it gives as a
    boolean, and keeps every field that the body does not name (a new
    [fillLevel] does not touch [needsCollection]).  The id and the other
    bins are untouched, the answer carries the bin as it is stored, and
    one write of the store as it is then is made to the file, which
    holds that store if the write arrives. *)
Theorem put_bin_stores_the_fields (system_clock : nat -> Z) (w : world)
    (digits : N) (binId : Z) (it : nat) (b : WasteBin) (updateData : json) :
  designates w digits binId it b ->
  let r := put_bin system_clock digits (Ok updateData) w in
  exists b',
    fst r = Ok (updated_response binId b')
    /\ index (content (updated_response binId b')) "data" = toJson b'
    /\ nth_error (g_bins (snd r)) it = Some b'
    /\ id b' = id b
    /\ (forall s, contains updateData "location" = true ->
                  index updateData "location" = JString s -> location b' = s)
    /\ (forall v, contains updateData "needsCollection" = true ->
                  index updateData "needsCollection" = JBool v ->
                  needsCollection b' = v)
    /\ (contains updateData "location" = false -> location b' = location b)
    /\ (contains updateData "fillLevel" = false -> fillLevel b' = fillLevel b)
    /\ (contains updateData "needsCollection" = false ->
        needsCollection b' = needsCollection b)
    /\ (forall j, j <> it ->
                  nth_error (g_bins (snd r)) j = nth_error (g_bins w) j)
    /\ map id (g_bins (snd r)) = map id (g_bins w)
    /\ g_next_bin_id (snd r) = g_next_bin_id w
    /\ data_file (snd r)
       = file_after (disk w 0%nat) (data_file w)
           (JArray (map toJson (g_bins (snd r))))
    /\ disk (snd r) = writes_after (disk w).
Proof.
  intros Hd r.
  destruct (put_bin_designated system_clock w digits binId it b updateData Hd)
    as (Hresp & Hnth & Hothers & Hnext).
  fold r in Hresp, Hnth, Hothers, Hnext.
  destruct Hd as (Hid & Hf & Hb).
  set (now := getCurrentTimestamp (system_clock (clock_reads w))) in *.
  exists (updated updateData now b).
  split; [exact Hresp|]. split; [reflexivity|]. split; [exact Hnth|].
  split; [apply updated_id|].
  split.
  { intros s Hc Hi. rewrite updated_location. unfold update_location.
    rewrite Hc, Hi. reflexivity. }
  split.
  { intros v Hc Hi. rewrite updated_needsCollection.
    unfold update_needsCollection. rewrite Hc, Hi. reflexivity. }
  split.
  { intros Hc. rewrite updated_location. unfold update_location.
    rewrite Hc. reflexivity. }
  split; [apply updated_fillLevel_kept|].
  split.
  { intros Hc. rewrite updated_needsCollection.
    unfold update_needsCollection. rewrite Hc. reflexivity. }
  split; [exact Hothers|].
  subst r.
  rewrite (put_bin_found system_clock digits binId updateData it w Hid Hf).
  cbn [snd g_bins g_next_bin_id data_file disk].
  split; [|repeat split].
  apply map_id_assign_at. intros x. apply updated_id.
Qed.

Definition new_place : json :=
  JObject [ ("location", JString "Harbour"); ("fillLevel", JInt 80) ].

Lemma put_bin_stores_the_fields_witness :
  exists b',
    fst (put_bin sample_clock 1 (Ok new_place) sample_world)
    = Ok (updated_response 1 b')
    /\ nth_error
         (g_bins (snd (put_bin sample_clock 1 (Ok new_place) sample_world))) 0
       = Some b'
    /\ id b' = 1
    /\ location b' = "Harbour"
    /\ needsCollection b' = false.
Proof.
  destruct (put_bin_stores_the_fields sample_clock sample_world 1 1 0 _
              new_place sample_designates)
    as (b' & H1 & _ & H3 & H4 & H5 & _ & _ & _ & H9 & _).
  exists b'. split; [exact H1|]. split; [exact H3|]. split; [exact H4|].
  split; [apply H5; reflexivity|exact (H9 eq_refl)].
Defined.

(** X11.  What a PUT has stored, GET /bins/{id} returns: after a PUT
    that found its bin, the GET of the same id answers 200 with the bin
    of the PUT's answer. *)
Theorem get_after_put_returns_the_update (system_clock : nat -> Z) (w : world)
    (digits : N) (binId : Z) (it : nat) (b : WasteBin) (updateData : json) :
  designates w digits binId it b ->
  let r := put_bin system_clock digits (Ok updateData) w in
  exists b',
    fst r = Ok (updated_response binId b')
    /\ fst (get_bin digits (snd r)) = Ok (retrieved_response binId b')
    /\ index (content (retrieved_response binId b')) "data"
       = index (content (updated_response binId b')) "data".
Proof.
  intros Hd r.
  destruct (put_bin_designated system_clock w digits binId it b updateData Hd)
    as (Hresp & Hnth & _).
  fold r in Hresp, Hnth. destruct Hd as (Hid & Hf & Hb).
  eexists. split; [exact Hresp|]. split; [|reflexivity].
  rewrite get_bin_spec, Hid.
  assert (Hf' : find_if (fun bin => id bin =? binId) (g_bins (snd r)) = Some it).
  { subst r.
    rewrite (put_bin_found system_clock digits binId updateData it w Hid Hf).
    cbn [snd g_bins]. rewrite find_if_assign_at; [exact Hf|].
    intros x. rewrite updated_id. reflexivity. }
  rewrite Hf', Hnth. reflexivity.
Qed.

Lemma get_after_put_returns_the_update_witness :
  exists b',
    fst (put_bin sample_clock 1 (Ok new_place) sample_world)
    = Ok (updated_response 1 b')
    /\ fst (get_bin 1 (snd (put_bin sample_clock 1 (Ok new_place) sample_world)))
       = Ok (retrieved_response 1 b')
    /\ index (content (retrieved_response 1 b')) "data"
       = index (content (updated_response 1 b')) "data".
Proof.
  exact (get_after_put_returns_the_update sample_clock sample_world 1 1 0 _
           new_place sample_designates).
Defined.

(** ** POST /bins *)

Lemma accepted_all items :
  Forall (fun binData => has_location binData = true) items ->
  exists ls,
    accepted items = (ls, true)
    /\ List.length ls = List.length items
    /\ forall k binData,
         nth_error items k = Some binData ->
         exists l, index binData "location" = JString l
                   /\ nth_error ls k = Some l.
Proof.
  induction 1 as [|binData items Hx _ (ls & Hacc & Hlen & Hnth)].
  - exists []. repeat split. intros [|k] binData H; discriminate.
  - destruct (has_location_of binData Hx) as (l & Hl & Hidx).
    exists (l :: ls). cbn [accepted]. rewrite Hl, Hacc.
    split; [reflexivity|]. split; [cbn; congruence|].
    intros [|k] x Hk; cbn in Hk.
    + injection Hk as <-. exists l. split; [exact Hidx|reflexivity].
    + exact (Hnth k x Hk).
Qed.


Lemma new_bins_length system_clock ls : forall next reads,
  List.length (new_bins system_clock ls next reads) = List.length ls.
Proof.
  induction ls as [|l ls IH]; intros next reads; cbn; [|rewrite IH];
    reflexivity.
Qed.

Lemma new_bins_nth system_clock ls : forall next reads k l,
  Int.in_range next ->
  next + Z.of_nat (List.length ls) <= Int.max_int ->
  nth_error ls k = Some l ->
  nth_error (new_bins system_clock ls next reads) k
  = Some (mkBin (next + Z.of_nat k) l 0 false
            (getCurrentTimestamp (system_clock (reads + k)%nat))).
Proof.
  induction ls as [|l0 ls IH]; intros next reads k l Hr Hmax Hk;
    [destruct k; discriminate|].
  cbn [List.length] in Hmax. rewrite Nat2Z.inj_succ in Hmax.
  destruct k as [|k]; cbn [nth_error new_bins] in Hk |- *.
  - injection Hk as <-. rewrite Z.add_0_r, Nat.add_0_r. reflexivity.
  - assert (Hs : Int.succ next = next + 1)
      by (apply Int.succ_small; [exact Hr|lia]).
    rewrite (IH (Int.succ next) (S reads) k l).
    + rewrite Hs.
      replace (S reads + k)%nat with (reads + S k)%nat by lia.
      replace (next + 1 + Z.of_nat k) with (next + Z.of_nat (S k)) by lia.
      reflexivity.
    + rewrite Hs. unfold Int.in_range, Int.min_int, Int.max_int in *. lia.
    + rewrite Hs. lia.
    + exact Hk.
Qed.

Lemma iter_succ n : forall next,
  Int.in_range next -> next + Z.of_nat n <= Int.max_int ->
  Nat.iter n Int.succ next = next + Z.of_nat n.
Proof.
  induction n as [|n IH]; intros next Hr Hmax; [cbn; lia|].
  rewrite Nat.iter_succ_r. rewrite Nat2Z.inj_succ in *.
  assert (Hs : Int.succ next = next + 1)
    by (apply Int.succ_small; [exact Hr|lia]).
  rewrite IH; rewrite Hs; [lia| |lia].
  unfold Int.in_range, Int.min_int, Int.max_int in *. lia.
Qed.

(** X12.  POST /bins with a body whose elements (those of the array,
    or the body itself when it is not an array) all have a string
    [location] is answered 201 and creates one bin for each element, in
    the order of the request: the [k]-th gets the id [g_next_bin_id + k],
    the location of its element, the fill level 0, no collection flag
    and the timestamp of its own clock reading.  The new bins go to the
    end of the store and into the answer, the counter moves on by their
    number, and one write of the whole store is made to the file, which
    holds that store if the write arrives and stays as it was if the
    write is refused; the answer is 201 either way. *)
Theorem post_bins_creates_every_element (system_clock : nat -> Z)
    (requestData : json) (w : world) :
  Forall (fun binData => has_location binData = true)
    (request_items requestData) ->
  Int.in_range (g_next_bin_id w) ->
  g_next_bin_id w + Z.of_nat (List.length (request_items requestData))
  <= Int.max_int ->
  exists created,
    post_bins system_clock (Ok requestData) w
    = (Ok (created_response created),
       mkWorld (g_bins w ++ created)
         (g_next_bin_id w + Z.of_nat (List.length created))
         (file_after (disk w 0%nat) (data_file w)
            (JArray (map toJson (g_bins w ++ created))))
         (clock_reads w + List.length created) (rng_draws w)
         (writes_after (disk w)))
    /\ status (created_response created) = 201
    /\ index (content (created_response created)) "data"
       = JArray (map toJson created)
    /\ List.length created = List.length (request_items requestData)
    /\ forall k binData,
         nth_error (request_items requestData) k = Some binData ->
         exists l,
           index binData "location" = JString l
           /\ nth_error created k
              = Some (mkBin (g_next_bin_id w + Z.of_nat k) l 0 false
                        (getCurrentTimestamp
                           (system_clock (clock_reads w + k)%nat))).
Proof.
  intros Hall Hr Hmax.
  destruct (accepted_all _ Hall) as (ls & Hacc & Hlen & Hnth).
  exists (new_bins system_clock ls (g_next_bin_id w) (clock_reads w)).
  rewrite post_bins_spec, Hacc. cbv zeta.
  rewrite new_bins_length, to_json_array_spec.
  rewrite iter_succ by (rewrite ?Hlen; assumption).
  split; [reflexivity|]. split; [reflexivity|].
  split.
  { unfold created_response, createApiResponse. cbn.
    rewrite to_json_array_spec. reflexivity. }
  split; [exact Hlen|].
  intros k binData Hk. destruct (Hnth k binData Hk) as (l & Hidx & Hl).
  exists l. split; [exact Hidx|].
  apply new_bins_nth; [exact Hr|rewrite Hlen; exact Hmax|exact Hl].
Qed.

Definition two_places : json :=
  JArray [ JObject [("location", JString "Harbour")];
           JObject [("location", JString "Mill"); ("fillLevel", JInt 60)] ].

Lemma post_bins_creates_every_element_witness :
  exists created,
    post_bins sample_clock (Ok two_places) sample_world
    = (Ok (created_response created),
       mkWorld (two_bins ++ created) (5 + Z.of_nat (List.length created))
         (FileText (Ok (JArray (map toJson (two_bins ++ created)))))
         (0 + List.length created) 0 good_disk)
    /\ List.length created = 2%nat
    /\ map id created = [5; 6]
    /\ map fillLevel created = [0; 0].
Proof.
  destruct (post_bins_creates_every_element sample_clock two_places sample_world)
    as (created & Hpost & _ & _ & Hlen & Hnth).
  - repeat constructor.
  - unfold Int.in_range, Int.min_int, Int.max_int. cbn. lia.
  - unfold Int.max_int. cbn. lia.
  - exists created. split; [exact Hpost|]. split; [exact Hlen|].
    destruct (Hnth 0%nat _ eq_refl) as (l0 & _ & H0).
    destruct (Hnth 1%nat _ eq_refl) as (l1 & _ & H1).
    destruct created as [|c0 [|c1 [|c2 rest]]]; try discriminate Hlen.
    cbn [nth_error] in H0, H1. injection H0 as ->. injection H1 as ->.
    split; reflexivity.
Defined.


(** X14.  A bin that POST /bins has created is the one that GET
    /bins/{id} returns for its id, in every world whose counter is ahead
    of the stored ids. *)
Theorem get_after_post_returns_the_new_bin (system_clock : nat -> Z)
    (l : string) (w : world) :
  counter_ahead w ->
  0 <= g_next_bin_id w < Int.max_int ->
  let body := Ok (JObject [("location", JString l)]) in
  let w' := snd (post_bins system_clock body w) in
  fst (post_bins system_clock body w)
  = Ok (created_response [new_bin system_clock l w])
  /\ fst (get_bin (Z.to_N (g_next_bin_id w)) w')
     = Ok (retrieved_response (g_next_bin_id w) (new_bin system_clock l w)).
Proof.
  intros [Hr Hb] Hnext body w'. subst body w'.
  rewrite post_bins_spec.
  change (accepted (request_items (JObject [("location", JString l)])))
    with ([l], true).
  cbv beta iota zeta. cbn [new_bins List.length Nat.iter fst snd].
  fold (new_bin system_clock l w).
  split; [reflexivity|].
  rewrite get_bin_spec. unfold stoi. rewrite Z2N.id by lia.
  destruct (Z.leb_spec (g_next_bin_id w) Int.max_int) as [_|H]; [|lia].
  cbn [g_bins].
  rewrite (find_if_first _ (g_bins w) (new_bin system_clock l w) []).
  - rewrite nth_error_middle. reflexivity.
  - eapply Forall_impl; [|exact Hb]. cbn. intros b Hlt. apply Z.eqb_neq. lia.
  - cbn. apply Z.eqb_refl.
Qed.

Lemma get_after_post_returns_the_new_bin_witness :
  fst (post_bins sample_clock (Ok (JObject [("location", JString "Mill")]))
         sample_world)
  = Ok (created_response [new_bin sample_clock "Mill" sample_world])
  /\ fst (get_bin 5
            (snd (post_bins sample_clock
                    (Ok (JObject [("location", JString "Mill")]))
                    sample_world)))
     = Ok (retrieved_response 5 (new_bin sample_clock "Mill" sample_world)).
Proof.
  apply (get_after_post_returns_the_new_bin sample_clock "Mill" sample_world).
  - apply counter_aheadb_spec. reflexivity.
  - unfold Int.max_int. cbn. lia.
Defined.

(** ** POST /bins with an element that is refused *)

Lemma accepted_until_refused good bad rest :
  Forall (fun binData => has_location binData = true) good ->
  has_location bad = false ->
  exists ls,
    accepted (good ++ bad :: rest) = (ls, false)
    /\ accepted good = (ls, true).
Proof.
  intros Hgood Hbad. induction Hgood as [|binData good Hx _ (ls & H1 & H2)].
  - exists []. cbn [app accepted].
    apply has_location_false in Hbad. rewrite Hbad. split; reflexivity.
  - destruct (has_location_of binData Hx) as (l & Hl & _).
    exists (l :: ls). cbn [app accepted]. rewrite Hl, H1, H2.
    split; reflexivity.
Qed.

(** X15.  POST /bins stops at the first element that has no string
    [location] and answers 400, but what it did before stays: every
    element in front of that one has its bin in the store, the counter
    has moved on by their number, and the file is not written. *)
Theorem post_bins_keeps_the_bins_before_the_refusal (system_clock : nat -> Z)
    (good : list json) (bad : json) (rest : list json) (w : world) :
  Forall (fun binData => has_location binData = true) good ->
  has_location bad = false ->
  Int.in_range (g_next_bin_id w) ->
  g_next_bin_id w + Z.of_nat (List.length good) <= Int.max_int ->
  exists created,
    post_bins system_clock (Ok (JArray (good ++ bad :: rest))) w
    = (Ok reject,
       mkWorld (g_bins w ++ created)
         (g_next_bin_id w + Z.of_nat (List.length good))
         (data_file w) (clock_reads w + List.length good) (rng_draws w)
         (disk w))
    /\ status reject = 400
    /\ List.length created = List.length good
    /\ forall k binData,
         nth_error good k = Some binData ->
         exists l,
           index binData "location" = JString l
           /\ nth_error created k
              = Some (mkBin (g_next_bin_id w + Z.of_nat k) l 0 false
                        (getCurrentTimestamp
                           (system_clock (clock_reads w + k)%nat))).
Proof.
  intros Hgood Hbad Hr Hmax.
  destruct (accepted_until_refused good bad rest Hgood Hbad) as (ls & Hacc & Hg).
  destruct (accepted_all good Hgood) as (ls' & Hg' & Hlen & Hnth).
  assert (ls' = ls) by congruence. subst ls'.
  exists (new_bins system_clock ls (g_next_bin_id w) (clock_reads w)).
  rewrite post_bins_spec. unfold request_items. cbn [is_array elements].
  rewrite Hacc. cbv zeta.
  rewrite iter_succ by (rewrite ?Hlen; assumption). rewrite Hlen.
  split; [reflexivity|]. split; [reflexivity|].
  split; [rewrite new_bins_length; exact Hlen|].
  intros k binData Hk. destruct (Hnth k binData Hk) as (l & Hidx & Hl).
  exists l. split; [exact Hidx|].
  apply new_bins_nth; [exact Hr|rewrite Hlen; exact Hmax|exact Hl].
Qed.

Lemma post_bins_keeps_the_bins_before_the_refusal_witness :
  exists created,
    post_bins sample_clock
      (Ok (JArray ([JObject [("location", JString "Quay")]]
                     ++ JObject [] :: [JObject [("location", JString "Mill")]])))
      sample_world
    = (Ok reject,
       mkWorld (two_bins ++ created) (5 + 1) NoFile (0 + 1) 0 good_disk)
    /\ List.length created = 1%nat.
Proof.
  destruct (post_bins_keeps_the_bins_before_the_refusal sample_clock
              [JObject [("location", JString "Quay")]] (JObject [])
              [JObject [("location", JString "Mill")]] sample_world)
    as (created & Hpost & _ & Hlen & _).
  - repeat constructor.
  - reflexivity.
  - unfold Int.in_range, Int.min_int, Int.max_int. cbn. lia.
  - unfold Int.max_int. cbn. lia.
  - exists created. split; [exact Hpost|exact Hlen].
Defined.

(** ** POST /bins/collect-sensor-data *)

Lemma sensed_nth system_clock distrib bins : forall reads draws k b,
  nth_error bins k = Some b ->
  nth_error (sensed system_clock distrib bins reads draws) k
  = Some (mkBin (id b) (location b) (distrib (draws + k)%nat)
            (distrib (draws + k)%nat >=? 75)
            (getCurrentTimestamp (system_clock (reads + k)%nat))).
Proof.
  induction bins as [|b0 bins IH]; intros reads draws k b Hk;
    [destruct k; discriminate|].
  destruct k as [|k]; cbn [nth_error sensed] in Hk |- *.
  - injection Hk as <-. rewrite !Nat.add_0_r. reflexivity.
  - rewrite (IH (S reads) (S draws) k b Hk).
    replace (S draws + k)%nat with (draws + S k)%nat by lia.
    replace (S reads + k)%nat with (reads + S k)%nat by lia.
    reflexivity.
Qed.

Lemma sensed_length system_clock distrib bins : forall reads draws,
  List.length (sensed system_clock distrib bins reads draws) = List.length bins.
Proof.
  induction bins as [|b bins IH]; intros reads draws; cbn; [|rewrite IH];
    reflexivity.
Qed.

Lemma sensed_flags system_clock distrib bins : forall reads draws,
  Forall (fun b => needsCollection b = (fillLevel b >=? 75))
    (sensed system_clock distrib bins reads draws).
Proof.
  induction bins as [|b bins IH]; intros reads draws; cbn [sensed];
    constructor; [reflexivity|apply IH].
Qed.

Lemma collect_sensor_data_flags system_clock distrib w :
  g_bins w <> [] ->
  let bins' := g_bins (snd (collect_sensor_data system_clock distrib w)) in
  List.length bins' = List.length (g_bins w)
  /\ Forall (fun b => needsCollection b = (fillLevel b >=? 75)) bins'.
Proof.
  intros Hne. rewrite collect_sensor_data_spec.
  destruct (g_bins w) as [|b0 rest] eqn:Hbins; [contradiction|].
  cbv zeta. cbn [snd g_bins]. split; [apply sensed_length|apply sensed_flags].
Qed.

(** X16.  On a store that is not empty, POST /bins/collect-sensor-data
    is answered 200 and rewrites every bin, front to back: the [k]-th
    bin keeps its id and its location, takes the [k]-th value drawn as
    its fill level, needs collection exactly when that level is at
    least 75, and is stamped with its own clock reading.  No bin is
    added or removed, the counter stays, the answer carries the new
    store, and one write of the new store is made to the file, which
    holds it if the write arrives. *)
Theorem collect_sensor_data_rewrites_every_bin (system_clock distrib : nat -> Z)
    (w : world) :
  g_bins w <> [] ->
  let r := collect_sensor_data system_clock distrib w in
  let bins' := g_bins (snd r) in
  (exists resp,
      fst r = Ok resp /\ status resp = 200
      /\ index (content resp) "data" = JArray (map toJson bins'))
  /\ List.length bins' = List.length (g_bins w)
  /\ (forall k b,
         nth_error (g_bins w) k = Some b ->
         nth_error bins' k
         = Some (mkBin (id b) (location b) (distrib (rng_draws w + k)%nat)
                   (distrib (rng_draws w + k)%nat >=? 75)
                   (getCurrentTimestamp
                      (system_clock (clock_reads w + k)%nat))))
  /\ Forall (fun b => needsCollection b = (fillLevel b >=? 75)) bins'
  /\ g_next_bin_id (snd r) = g_next_bin_id w
  /\ data_file (snd r)
     = file_after (disk w 0%nat) (data_file w) (JArray (map toJson bins'))
  /\ disk (snd r) = writes_after (disk w).
Proof.
  intros Hne r bins'. subst r bins'. rewrite collect_sensor_data_spec.
  destruct (g_bins w) as [|b0 rest] eqn:Hbins; [contradiction|].
  cbv zeta. cbn [fst snd g_bins g_next_bin_id data_file disk].
  split.
  { eexists. split; [reflexivity|]. split; [reflexivity|].
    unfold createApiResponse. cbn -[sensed]. rewrite to_json_array_spec.
    reflexivity. }
  split; [apply sensed_length|].
  split; [intros k b Hk; apply sensed_nth; exact Hk|].
  split; [apply sensed_flags|]. repeat split.
Qed.

Lemma collect_sensor_data_rewrites_every_bin_witness :
  List.length
    (g_bins (snd (collect_sensor_data sample_clock sample_distrib sample_world)))
  = 2%nat
  /\ map fillLevel
       (g_bins (snd (collect_sensor_data sample_clock sample_distrib
                       sample_world)))
     = [80; 10]
  /\ map needsCollection
       (g_bins (snd (collect_sensor_data sample_clock sample_distrib
                       sample_world)))
     = [true; false].
Proof.
  destruct (collect_sensor_data_rewrites_every_bin sample_clock sample_distrib
              sample_world ltac:(discriminate))
    as (_ & Hlen & Hnth & _).
  split; [exact Hlen|].
  pose proof (Hnth 0%nat _ eq_refl) as H0.
  pose proof (Hnth 1%nat _ eq_refl) as H1.
  destruct (g_bins (snd (collect_sensor_data sample_clock sample_distrib
                           sample_world))) as [|c0 [|c1 [|c2 rest]]];
    try discriminate Hlen.
  cbn [nth_error] in H0, H1. injection H0 as ->. injection H1 as ->.
  split; reflexivity.
Defined.

(** ** GET /optimize-route *)

Lemma route_to_json toCollect :
  fold_left (fun arr bin => push_back arr (route_entry bin)) toCollect (JArray [])
  = JArray (map route_entry toCollect).
Proof.
  change (JArray (map route_entry toCollect))
    with (JArray ([] ++ map route_entry toCollect)).
  generalize (@nil json).
  induction toCollect as [|b rest IH]; intros acc; cbn.
  - rewrite app_nil_r. reflexivity.
  - rewrite IH, <- app_assoc. reflexivity.
Qed.

(** X17.  GET /optimize-route changes nothing and is answered 200.
    When no bin needs collection the data of the answer is an empty
    array; otherwise it is an object whose [binsToCollect] is the number
    of bins of the store that need collection and whose [route] has one
    entry for each of them, with the id, the location, the fill level
    and the timestamp of the bin. *)
Theorem optimize_route_answer
    (std_sort : (WasteBin -> WasteBin -> bool) -> list WasteBin -> list WasteBin)
    (w : world) :
  sorts std_sort ->
  let route := computeRoute std_sort (g_bins w) in
  let needing := filter needsCollection (g_bins w) in
  exists resp,
    optimize_route std_sort w = (Ok resp, w)
    /\ status resp = 200
    /\ index (content resp) "success" = JBool true
    /\ List.length route = List.length needing
    /\ index (content resp) "data"
       = match needing with
         | [] => JArray []
         | _ => JObject [ ("binsToCollect",
                           JInt (Z.of_nat (List.length needing)));
                          ("route", JArray (map route_entry route)) ]
         end.
Proof.
  intros Hsort route needing.
  destruct (computeRoute_spec std_sort (g_bins w) Hsort) as [Hperm _].
  fold route needing in Hperm.
  pose proof (Permutation_length Hperm) as Hlen.
  unfold optimize_route, bind, get_bins. fold route.
  destruct route as [|b rest] eqn:Hroute.
  - destruct needing; [|discriminate Hlen].
    eexists. repeat split.
  - destruct needing as [|b' rest']; [discriminate Hlen|].
    cbv zeta. rewrite route_to_json.
    eexists. split; [reflexivity|]. split; [reflexivity|].
    split; [reflexivity|]. split; [symmetry; exact Hlen|].
    rewrite Hlen. reflexivity.
Qed.

Lemma optimize_route_answer_witness :
  exists resp,
    optimize_route insertion_sort (mkWorld three_bins 4 NoFile 0 0 good_disk)
    = (Ok resp, mkWorld three_bins 4 NoFile 0 0 good_disk)
    /\ status resp = 200
    /\ index (index (content resp) "data") "binsToCollect" = JInt 2.
Proof.
  destruct (optimize_route_answer insertion_sort
              (mkWorld three_bins 4 NoFile 0 0 good_disk) insertion_sort_sorts)
    as (resp & H1 & H2 & _ & _ & H5).
  exists resp. split; [exact H1|]. split; [exact H2|].
  rewrite H5. reflexivity.
Defined.

(** X18.  Right after a sensor collection the route holds exactly the
    bins whose fill level is at least 75. *)
Theorem route_after_sensor_data (system_clock distrib : nat -> Z)
    (std_sort : (WasteBin -> WasteBin -> bool) -> list WasteBin -> list WasteBin)
    (w : world) :
  sorts std_sort ->
  g_bins w <> [] ->
  let w' := snd (collect_sensor_data system_clock distrib w) in
  forall b, In b (computeRoute std_sort (g_bins w'))
            <-> In b (g_bins w') /\ 75 <= fillLevel b.
Proof.
  intros Hsort Hne w' b.
  destruct (collect_sensor_data_flags system_clock distrib w Hne)
    as (_ & Hflags).
  fold w' in Hflags.
  destruct (computeRoute_spec std_sort (g_bins w') Hsort) as [Hperm _].
  rewrite Forall_forall in Hflags.
  split.
  - intros Hin. apply (Permutation_in _ (Permutation_sym Hperm)) in Hin.
    apply filter_In in Hin as [Hin Hflag]. split; [exact Hin|].
    rewrite (Hflags b Hin) in Hflag. apply Z.geb_le in Hflag. exact Hflag.
  - intros [Hin Hfill]. apply (Permutation_in _ Hperm).
    apply filter_In. split; [exact Hin|].
    rewrite (Hflags b Hin). apply Z.geb_le. exact Hfill.
Qed.

Lemma route_after_sensor_data_witness :
  In (mkBin 1 "Main St" 80 true (getCurrentTimestamp (sample_clock 0)))
    (computeRoute insertion_sort
       (g_bins (snd (collect_sensor_data sample_clock sample_distrib
                       sample_world))))
  <-> In (mkBin 1 "Main St" 80 true (getCurrentTimestamp (sample_clock 0)))
        (g_bins (snd (collect_sensor_data sample_clock sample_distrib
                        sample_world)))
      /\ 75 <= fillLevel
                 (mkBin 1 "Main St" 80 true
                    (getCurrentTimestamp (sample_clock 0))).
Proof.
  apply (route_after_sensor_data sample_clock sample_distrib insertion_sort
           sample_world insertion_sort_sorts).
  discriminate.
Defined.

(** ** GET /dashboard/stats and GET /health *)

(** The C++ [double]: IEEE 754 binary64, as [SpecFloat] defines its
    operations (round to nearest, ties to even). *)
Module Double.

Definition double : Set := SpecFloat.spec_float.

Definition prec : Z := 53.
Definition emax : Z := 1024.

Definition zero : double := SpecFloat.S754_zero false.

(** [static_cast<double>] of an [int], which is exact. *)
Definition of_int (z : Z) : double :=
  SpecFloat.binary_normalize prec emax z 0 false.

Definition mul : double -> double -> double := SpecFloat.SFmul prec emax.
Definition div : double -> double -> double := SpecFloat.SFdiv prec emax.

(** [round] of [<cmath>]: the nearest integer, halfway cases away from
    zero. *)
Definition round (x : double) : double :=
  match x with
  | SpecFloat.S754_finite s m e =>
      if 0 <=? e then x
      else
        let scale := 2 ^ (- e) in
        let q := Z.pos m / scale in
        let n := if scale <=? 2 * (Z.pos m mod scale) then q + 1 else q in
        SpecFloat.binary_normalize prec emax (if s then - n else n) 0 s
  | _ => x
  end.

(** The JSON number that holds a double (a zero does not keep its sign
    there; [dump] writes [null] for what is not finite). *)
Definition to_json (x : double) : json :=
  match x with
  | SpecFloat.S754_zero _ => JFloat 0 0
  | SpecFloat.S754_finite s m e => JFloat (if s then Z.neg m else Z.pos m) e
  | _ => JNull
  end.

End Double.

(** The counters of lines 467-474. *)
Record tally : Type := mkTally {
  binsNeedingCollection : Z;
  totalFill : Z;
  lowCount : Z;
  mediumCount : Z;
  highCount : Z;
  criticalCount : Z
}.

(** The body of the loop of lines 476-484. *)
Definition tally_bin (t : tally) (bin : WasteBin) : tally :=
  let total := Int.wrap (totalFill t + fillLevel bin) in
  let needing := if needsCollection bin
                 then Int.succ (binsNeedingCollection t)
                 else binsNeedingCollection t in
  if fillLevel bin <? 25
  then mkTally needing total (Int.succ (lowCount t)) (mediumCount t)
         (highCount t) (criticalCount t)
  else if fillLevel bin <? 50
  then mkTally needing total (lowCount t) (Int.succ (mediumCount t))
         (highCount t) (criticalCount t)
  else if fillLevel bin <? 75
  then mkTally needing total (lowCount t) (mediumCount t)
         (Int.succ (highCount t)) (criticalCount t)
  else mkTally needing total (lowCount t) (mediumCount t)
         (highCount t) (Int.succ (criticalCount t)).

Definition stats_json (totalBins needing : Z) (averageFillLevel : json)
    (low medium high critical : Z) : json :=
  JObject [ ("totalBins", JInt totalBins);
            ("binsNeedingCollection", JInt needing);
            ("averageFillLevel", averageFillLevel);
            ("fillLevelDistribution",
             JObject [ ("low", JInt low); ("medium", JInt medium);
                       ("high", JInt high); ("critical", JInt critical) ]) ].

Definition dashboard_stats : M response :=
  bins <- get_bins ;;
  match bins with
  | [] =>
      ret (mkResponse 200
             (createApiResponse true "No bins available"
                (stats_json 0 0 (Double.to_json Double.zero) 0 0 0 0)))
  | _ =>
      let totalBins := Int.wrap (Z.of_nat (List.length bins)) in
      let t := fold_left tally_bin bins (mkTally 0 0 0 0 0 0) in
      let averageFill :=
        if totalBins >? 0
        then Double.div (Double.of_int (totalFill t)) (Double.of_int totalBins)
        else Double.zero in
      let rounded :=
        Double.div (Double.round (Double.mul averageFill (Double.of_int 10)))
          (Double.of_int 10) in
      ret (mkResponse 200
             (createApiResponse true "Dashboard statistics retrieved successfully"
                (stats_json totalBins (binsNeedingCollection t)
                   (Double.to_json rounded)
                   (lowCount t) (mediumCount t) (highCount t)
                   (criticalCount t))))
  end.

(** GET /health: the answer is the object itself, without the envelope
    of the other routes. *)
Definition health (system_clock : nat -> Z) : M response :=
  tmp <- WasteBin_default system_clock ;;
  ret (mkResponse 200
         (JObject [ ("status", JString "ok");
                    ("timestamp", JString (lastUpdated tmp));
                    ("version", JString "1.0.0") ])).

(** The number of bins that satisfy [p]. *)
Definition count (p : WasteBin -> bool) (bins : list WasteBin) : Z :=
  Z.of_nat (List.length (filter p bins)).

Definition is_low (b : WasteBin) : bool := fillLevel b <? 25.
Definition is_medium (b : WasteBin) : bool :=
  (25 <=? fillLevel b) && (fillLevel b <? 50).
Definition is_high (b : WasteBin) : bool :=
  (50 <=? fillLevel b) && (fillLevel b <? 75).
Definition is_critical (b : WasteBin) : bool := 75 <=? fillLevel b.

Lemma count_cons p b bins :
  count p (b :: bins) = (if p b then 1 else 0) + count p bins.
Proof.
  unfold count. cbn [filter]. destruct (p b); cbn [List.length]; lia.
Qed.

Lemma counts_partition bins :
  count is_low bins + count is_medium bins + count is_high bins
  + count is_critical bins
  = Z.of_nat (List.length bins).
Proof.
  induction bins as [|b bins IH]; [reflexivity|].
  rewrite !count_cons. cbn [List.length]. rewrite Nat2Z.inj_succ.
  unfold is_low, is_medium, is_high, is_critical in *.
  destruct (Z.ltb_spec (fillLevel b) 25), (Z.leb_spec 25 (fillLevel b)),
    (Z.ltb_spec (fillLevel b) 50), (Z.leb_spec 50 (fillLevel b)),
    (Z.ltb_spec (fillLevel b) 75), (Z.leb_spec 75 (fillLevel b));
    cbn [andb]; lia.
Qed.

(** One round of the loop, as long as the counters stay within [int]. *)
Lemma tally_bin_spec t b :
  0 <= binsNeedingCollection t < Int.max_int ->
  0 <= lowCount t < Int.max_int -> 0 <= mediumCount t < Int.max_int ->
  0 <= highCount t < Int.max_int -> 0 <= criticalCount t < Int.max_int ->
  binsNeedingCollection (tally_bin t b)
  = binsNeedingCollection t + (if needsCollection b then 1 else 0)
  /\ lowCount (tally_bin t b) = lowCount t + (if is_low b then 1 else 0)
  /\ mediumCount (tally_bin t b)
     = mediumCount t + (if is_medium b then 1 else 0)
  /\ highCount (tally_bin t b) = highCount t + (if is_high b then 1 else 0)
  /\ criticalCount (tally_bin t b)
     = criticalCount t + (if is_critical b then 1 else 0).
Proof.
  intros Hn Hl Hm Hh Hc.
  assert (Hsucc : forall x, 0 <= x < Int.max_int -> Int.succ x = x + 1).
  { intros x Hx. apply Int.succ_small; [|lia].
    unfold Int.in_range, Int.min_int, Int.max_int in *. lia. }
  unfold tally_bin, is_low, is_medium, is_high, is_critical.
  destruct (needsCollection b);
    destruct (Z.ltb_spec (fillLevel b) 25), (Z.leb_spec 25 (fillLevel b)),
      (Z.ltb_spec (fillLevel b) 50), (Z.leb_spec 50 (fillLevel b)),
      (Z.ltb_spec (fillLevel b) 75), (Z.leb_spec 75 (fillLevel b));
    try lia;
    cbn [andb binsNeedingCollection lowCount mediumCount highCount
           criticalCount];
    rewrite ?Hsucc by assumption; repeat split; lia.
Qed.

(** The counters after the loop. *)
Lemma tally_spec bins : forall t,
  0 <= binsNeedingCollection t -> 0 <= lowCount t -> 0 <= mediumCount t ->
  0 <= highCount t -> 0 <= criticalCount t ->
  binsNeedingCollection t + Z.of_nat (List.length bins) <= Int.max_int ->
  lowCount t + Z.of_nat (List.length bins) <= Int.max_int ->
  mediumCount t + Z.of_nat (List.length bins) <= Int.max_int ->
  highCount t + Z.of_nat (List.length bins) <= Int.max_int ->
  criticalCount t + Z.of_nat (List.length bins) <= Int.max_int ->
  let t' := fold_left tally_bin bins t in
  binsNeedingCollection t'
  = binsNeedingCollection t + count needsCollection bins
  /\ lowCount t' = lowCount t + count is_low bins
  /\ mediumCount t' = mediumCount t + count is_medium bins
  /\ highCount t' = highCount t + count is_high bins
  /\ criticalCount t' = criticalCount t + count is_critical bins.
Proof.
  induction bins as [|b bins IH]; intros t Hn Hl Hm Hh Hc Bn Bl Bm Bh Bc.
  - cbn. unfold count. cbn. lia.
  - cbn [fold_left]. cbn [List.length] in *. rewrite Nat2Z.inj_succ in *.
    destruct (tally_bin_spec t b) as (En & El & Em & Eh & Ec); try lia.
    rewrite !count_cons.
    specialize (IH (tally_bin t b)). cbv zeta in IH.
    rewrite En, El, Em, Eh, Ec in IH.
    destruct (needsCollection b), (is_low b), (is_medium b), (is_high b),
      (is_critical b);
      (destruct IH as (-> & -> & -> & -> & ->); [lia..|repeat split; lia]).
Qed.

(** The answer of the dashboard, but for its message and its average. *)
Lemma dashboard_stats_spec w :
  Z.of_nat (List.length (g_bins w)) <= Int.max_int ->
  exists message average,
    dashboard_stats w
    = (Ok (mkResponse 200
             (createApiResponse true message
                (stats_json (Z.of_nat (List.length (g_bins w)))
                   (count needsCollection (g_bins w)) average
                   (count is_low (g_bins w)) (count is_medium (g_bins w))
                   (count is_high (g_bins w))
                   (count is_critical (g_bins w))))), w).
Proof.
  intros Hmax. unfold dashboard_stats, bind, get_bins.
  destruct (g_bins w) as [|b rest] eqn:Hbins.
  - do 2 eexists. reflexivity.
  - rewrite <- Hbins in *. clear Hbins b rest.
    destruct (tally_spec (g_bins w) (mkTally 0 0 0 0 0 0))
      as (Hn & Hl & Hm & Hh & Hc);
      cbn [binsNeedingCollection lowCount mediumCount highCount criticalCount];
      try lia.
    cbn [binsNeedingCollection lowCount mediumCount highCount criticalCount]
      in Hn, Hl, Hm, Hh, Hc.
    rewrite Z.add_0_l in Hn, Hl, Hm, Hh, Hc.
    cbv zeta. rewrite Hn, Hl, Hm, Hh, Hc.
    rewrite (Int.wrap_id (Z.of_nat (List.length (g_bins w))))
      by (unfold Int.in_range, Int.min_int, Int.max_int in *; lia).
    do 2 eexists. unfold ret. reflexivity.
Qed.

(** X19.  GET /dashboard/stats changes nothing and is answered 200
    with the number of bins of the store, the number of those that need
    collection, and the numbers of bins whose fill level is below 25,
    from 25 to 49, from 50 to 74, and 75 or more; these four add up to
    the number of bins. *)
Theorem dashboard_stats_counts (w : world) :
  Z.of_nat (List.length (g_bins w)) <= Int.max_int ->
  exists resp,
    dashboard_stats w = (Ok resp, w)
    /\ status resp = 200
    /\ let data := index (content resp) "data" in
       let distribution := index data "fillLevelDistribution" in
       index data "totalBins" = JInt (Z.of_nat (List.length (g_bins w)))
       /\ index data "binsNeedingCollection"
          = JInt (count needsCollection (g_bins w))
       /\ index distribution "low" = JInt (count is_low (g_bins w))
       /\ index distribution "medium" = JInt (count is_medium (g_bins w))
       /\ index distribution "high" = JInt (count is_high (g_bins w))
       /\ index distribution "critical" = JInt (count is_critical (g_bins w))
       /\ count is_low (g_bins w) + count is_medium (g_bins w)
          + count is_high (g_bins w) + count is_critical (g_bins w)
          = Z.of_nat (List.length (g_bins w)).
Proof.
  intros Hmax. destruct (dashboard_stats_spec w Hmax) as (message & average & ->).
  eexists. split; [reflexivity|]. split; [reflexivity|].
  repeat split. apply counts_partition.
Qed.

Lemma dashboard_stats_counts_witness :
  exists resp,
    dashboard_stats (mkWorld three_bins 4 NoFile 0 0 good_disk)
    = (Ok resp, mkWorld three_bins 4 NoFile 0 0 good_disk)
    /\ status resp = 200
    /\ index (index (content resp) "data") "binsNeedingCollection" = JInt 2
    /\ index (index (index (content resp) "data") "fillLevelDistribution")
         "critical" = JInt 2.
Proof.
  destruct (dashboard_stats_counts (mkWorld three_bins 4 NoFile 0 0 good_disk))
    as (resp & H1 & H2 & _ & H4 & _ & _ & _ & H8 & _).
  - unfold Int.max_int. cbn. lia.
  - exists resp. split; [exact H1|]. split; [exact H2|].
    split; [exact H4|exact H8].
Defined.

(** X20.  The GET routes never change the store, the counter or the
    file: GET /bins, GET /bins/{id}, GET /optimize-route and GET
    /dashboard/stats leave the world as it is, and GET /health only
    takes a reading of the clock. *)
Theorem get_routes_change_nothing (system_clock : nat -> Z)
    (std_sort : (WasteBin -> WasteBin -> bool) -> list WasteBin -> list WasteBin)
    (digits : N) (w : world) :
  snd (get_all_bins w) = w
  /\ snd (get_bin digits w) = w
  /\ snd (optimize_route std_sort w) = w
  /\ snd (dashboard_stats w) = w
  /\ snd (health system_clock w)
     = mkWorld (g_bins w) (g_next_bin_id w) (data_file w)
         (S (clock_reads w)) (rng_draws w) (disk w).
Proof.
  split; [|split; [|split; [|split]]].
  - unfold get_all_bins, bind, get_bins. destruct (g_bins w); reflexivity.
  - rewrite get_bin_spec. destruct (stoi digits); [|reflexivity].
    destruct (find_if _ (g_bins w)) as [it|]; [|reflexivity].
    destruct (nth_error (g_bins w) it); reflexivity.
  - unfold optimize_route, bind, get_bins.
    destruct (computeRoute std_sort (g_bins w)); reflexivity.
  - unfold dashboard_stats, bind, get_bins. destruct (g_bins w); reflexivity.
  - reflexivity.
Qed.

(** X21.  Right after a sensor collection the dashboard reports as
    many bins that need collection as bins at 75 or more. *)
Theorem dashboard_after_sensor_data (system_clock distrib : nat -> Z)
    (w : world) :
  g_bins w <> [] ->
  Z.of_nat (List.length (g_bins w)) <= Int.max_int ->
  let w' := snd (collect_sensor_data system_clock distrib w) in
  exists resp,
    fst (dashboard_stats w') = Ok resp
    /\ index (index (content resp) "data") "binsNeedingCollection"
       = index (index (index (content resp) "data") "fillLevelDistribution")
           "critical".
Proof.
  intros Hne Hmax w'.
  destruct (collect_sensor_data_flags system_clock distrib w Hne)
    as (Hlen & Hflags).
  fold w' in Hlen, Hflags.
  destruct (dashboard_stats_spec w') as (message & average & ->);
    [rewrite Hlen; exact Hmax|].
  eexists. split; [reflexivity|].
  unfold createApiResponse, stats_json.
  cbn [is_null negb set_key assoc_set String.eqb Ascii.eqb Bool.eqb index
         assoc content].
  unfold count. do 3 f_equal.
  apply filter_ext_in. intros b Hb. rewrite Forall_forall in Hflags.
  rewrite (Hflags b Hb). unfold is_critical. apply Z.geb_leb.
Qed.

Lemma dashboard_after_sensor_data_witness :
  exists resp,
    fst (dashboard_stats
           (snd (collect_sensor_data sample_clock sample_distrib sample_world)))
    = Ok resp
    /\ index (index (content resp) "data") "binsNeedingCollection"
       = index (index (index (content resp) "data") "fillLevelDistribution")
           "critical".
Proof.
  apply (dashboard_after_sensor_data sample_clock sample_distrib sample_world).
  - discriminate.
  - unfold Int.max_int. cbn. lia.
Defined.

(** ** Every route *)

Lemma admin_load_data_spec system_clock w :
  admin_load_data system_clock w
  = let '(bins, next, reads) := load_result w in
    (Ok (mkResponse 200
           (createApiResponse true
              ("Successfully loaded "
                 ++ Int.to_string (Z.of_nat (List.length bins))
                 ++ " bins from file")%string JNull)),
     mkWorld bins next (data_file w) reads (rng_draws w) (disk w)).
Proof.
  unfold admin_load_data. unfold bind at 1. rewrite loadBinsFromFile_spec.
  destruct (load_result w) as [[bins next] reads]. reflexivity.
Qed.

Lemma admin_save_data_spec w :
  admin_save_data w
  = (Ok (mkResponse 200
           (createApiResponse true
              ("Successfully saved "
                 ++ Int.to_string (Z.of_nat (List.length (g_bins w)))
                 ++ " bins to file")%string JNull)),
     mkWorld (g_bins w) (g_next_bin_id w)
       (file_after (disk w 0%nat) (data_file w)
          (JArray (map toJson (g_bins w))))
       (clock_reads w) (rng_draws w) (writes_after (disk w))).
Proof.
  unfold admin_save_data. unfold bind at 1. rewrite saveBinsToFile_spec.
  reflexivity.
Qed.

(** The answers of the routes of [handle]: a status of success with an
    envelope of success, or a status of failure with an envelope of
    failure that has no data. *)
Inductive envelope : response -> Prop :=
| envelope_success st message data :
    st = 200 \/ st = 201 ->
    envelope (mkResponse st (createApiResponse true message data))
| envelope_failure st message :
    st = 400 \/ st = 404 ->
    envelope (mkResponse st (createApiResponse false message JNull)).

Ltac envelope_done :=
  intros H; injection H as <-;
  first [ apply envelope_success; auto | apply envelope_failure; auto ].

Lemma handle_envelope system_clock distrib std_sort r w resp :
  fst (handle system_clock distrib std_sort r w) = Ok resp -> envelope resp.
Proof.
  destruct r as [|digits|body|digits body|digits| | | |]; cbn [handle].
  - rewrite get_all_bins_spec. cbn [fst]. envelope_done.
  - rewrite get_bin_spec. destruct (stoi digits) as [binId|]; [|discriminate].
    destruct (find_if _ (g_bins w)) as [it|]; [|cbn [fst]; envelope_done].
    destruct (nth_error (g_bins w) it); cbn [fst]; envelope_done.
  - rewrite post_bins_spec. destruct body as [requestData|what];
      [|cbn [fst]; envelope_done].
    destruct (accepted (request_items requestData)) as [ls [|]];
      cbn [fst]; envelope_done.
  - destruct (stoi digits) as [binId|what] eqn:Hid.
    2:{ destruct (put_bin_error system_clock digits body w) as [e ->];
          [left; rewrite Hid; reflexivity|]. cbn [fst]. envelope_done. }
    destruct body as [updateData|what].
    2:{ destruct (put_bin_error system_clock digits (Throw what) w) as [e ->];
          [right; reflexivity|]. cbn [fst]. envelope_done. }
    destruct (find_if (fun bin => id bin =? binId) (g_bins w)) as [it|] eqn:Hf.
    + rewrite (put_bin_found system_clock digits binId updateData it w Hid Hf).
      cbn [fst]. envelope_done.
    + rewrite (put_bin_not_found system_clock digits binId updateData w Hid Hf).
      cbn [fst]. envelope_done.
  - rewrite delete_bin_by_id_spec.
    destruct (stoi digits) as [binId|]; [|discriminate].
    destruct (find_if _ (g_bins w)); cbn [fst]; envelope_done.
  - rewrite collect_sensor_data_spec.
    destruct (g_bins w); cbn [fst]; envelope_done.
  - unfold optimize_route, bind, get_bins.
    destruct (computeRoute std_sort (g_bins w)); cbn [fst]; envelope_done.
  - rewrite admin_load_data_spec.
    destruct (load_result w) as [[bins next] reads]. cbn [fst]. envelope_done.
  - rewrite admin_save_data_spec. cbn [fst]. envelope_done.
Qed.

(** X22.  Whatever one of the routes of the store answers, it answers
    with the envelope: the status is 200, 201, 400 or 404, [success]
    tells whether the status is one of success, [message] is a string,
    and an answer of failure carries no [data]. *)
Theorem answers_are_envelopes (system_clock distrib : nat -> Z)
    (std_sort : (WasteBin -> WasteBin -> bool) -> list WasteBin -> list WasteBin)
    (r : request) (w : world) (resp : response) :
  fst (handle system_clock distrib std_sort r w) = Ok resp ->
  In (status resp) [200; 201; 400; 404]
  /\ index (content resp) "success" = JBool (status resp <? 300)
  /\ is_string (index (content resp) "message") = true
  /\ (contains (content resp) "data" = true -> status resp < 300).
Proof.
  intros H. apply handle_envelope in H.
  destruct H as [st message data [-> | ->]|st message [-> | ->]];
    cbn [status content In].
  all: split; [tauto|].
  all: try (destruct data; repeat split; lia).
  all: repeat split; discriminate.
Qed.

Lemma answers_are_envelopes_witness :
  In (status (not_found 9)) [200; 201; 400; 404]
  /\ index (content (not_found 9)) "success"
     = JBool (status (not_found 9) <? 300)
  /\ is_string (index (content (not_found 9)) "message") = true
  /\ (contains (content (not_found 9)) "data" = true
      -> status (not_found 9) < 300).
Proof.
  apply (answers_are_envelopes sample_clock sample_distrib insertion_sort
           (DELETE_bin 9) sample_world).
  reflexivity.
Defined.




(** The routes that save the store when they succeed. *)
Definition saves_on_success (r : request) : bool :=
  match r with
  | POST_bins _ | PUT_bin _ _ | DELETE_bin _ | POST_collect_sensor_data
  | POST_admin_save_data => true
  | _ => false
  end.

(** X24.  The store is written on success only, and once: when POST
    /bins, PUT, DELETE, the sensor collection or POST /admin/save-data
    is answered with a status of success, one write of the bins of the
    store, in their order, has been made to the file, which holds them
    if the write has arrived, is what it was if the file could not be
    opened, and holds no document if the write was cut; with any other
    answer of a route no write has been made and the file is what it
    was before the request. *)
Theorem the_store_is_written_on_success_only (system_clock distrib : nat -> Z)
    (std_sort : (WasteBin -> WasteBin -> bool) -> list WasteBin -> list WasteBin)
    (r : request) (w : world) (resp : response) :
  fst (handle system_clock distrib std_sort r w) = Ok resp ->
  let w' := snd (handle system_clock distrib std_sort r w) in
  if saves_on_success r && (status resp <? 300)
  then data_file w'
       = file_after (disk w 0%nat) (data_file w)
           (JArray (map toJson (g_bins w')))
       /\ disk w' = writes_after (disk w)
  else data_file w' = data_file w /\ disk w' = disk w.
Proof.
  destruct r as [|digits|body|digits body|digits| | | |];
    cbn [handle saves_on_success andb].
  - rewrite get_all_bins_spec. split; reflexivity.
  - rewrite get_bin_spec. destruct (stoi digits); [|split; reflexivity].
    destruct (find_if _ (g_bins w)) as [it|]; [|split; reflexivity].
    destruct (nth_error (g_bins w) it); split; reflexivity.
  - rewrite post_bins_spec. destruct body as [requestData|what].
    + destruct (accepted (request_items requestData)) as [ls [|]];
        cbn [fst snd]; intros H; injection H as <-.
      * cbn [created_response status Z.ltb Z.compare Pos.compare
               Pos.compare_cont data_file g_bins disk].
        rewrite to_json_array_spec. split; reflexivity.
      * split; reflexivity.
    + cbn [fst snd]. intros H; injection H as <-. split; reflexivity.
  - destruct (stoi digits) as [binId|what] eqn:Hid.
    2:{ destruct (put_bin_error system_clock digits body w) as [e ->];
          [left; rewrite Hid; reflexivity|].
        cbn [fst snd]. intros H; injection H as <-. split; reflexivity. }
    destruct body as [updateData|what].
    2:{ destruct (put_bin_error system_clock digits (Throw what) w) as [e ->];
          [right; reflexivity|].
        cbn [fst snd]. intros H; injection H as <-. split; reflexivity. }
    destruct (find_if (fun bin => id bin =? binId) (g_bins w)) as [it|] eqn:Hf.
    + rewrite (put_bin_found system_clock digits binId updateData it w Hid Hf).
      cbn [fst snd]. intros H; injection H as <-. split; reflexivity.
    + rewrite (put_bin_not_found system_clock digits binId updateData w Hid Hf).
      cbn [fst snd]. intros H; injection H as <-. split; reflexivity.
  - rewrite delete_bin_by_id_spec.
    destruct (stoi digits) as [binId|]; [|discriminate].
    destruct (find_if _ (g_bins w)); cbn [fst snd]; intros H;
      injection H as <-; split; reflexivity.
  - rewrite collect_sensor_data_spec.
    destruct (g_bins w); cbn [fst snd]; intros H; injection H as <-;
      split; reflexivity.
  - unfold optimize_route, bind, get_bins.
    destruct (computeRoute std_sort (g_bins w)); split; reflexivity.
  - rewrite admin_load_data_spec.
    destruct (load_result w) as [[bins next] reads]. split; reflexivity.
  - rewrite admin_save_data_spec. cbn [fst snd]. intros H; injection H as <-.
    split; reflexivity.
Qed.

(** The sample store on a disk that refuses every write: the DELETE
    is answered 200 and there is still no file. *)
Lemma the_store_is_written_on_success_only_witness :
  fst (handle sample_clock sample_distrib insertion_sort (DELETE_bin 1)
         (mkWorld two_bins 5 NoFile 0 0 refusing_disk))
  = Ok (deleted_response 1)
  /\ data_file (snd (handle sample_clock sample_distrib insertion_sort
                       (DELETE_bin 1)
                       (mkWorld two_bins 5 NoFile 0 0 refusing_disk)))
     = NoFile
  /\ disk (snd (handle sample_clock sample_distrib insertion_sort
                  (DELETE_bin 1)
                  (mkWorld two_bins 5 NoFile 0 0 refusing_disk)))
     = writes_after refusing_disk.
Proof.
  split; [reflexivity|].
  exact (the_store_is_written_on_success_only sample_clock sample_distrib
           insertion_sort (DELETE_bin 1)
           (mkWorld two_bins 5 NoFile 0 0 refusing_disk) (deleted_response 1)
           eq_refl).
Defined.

(** ** Loading *)

(** X25.  A load reads nothing but the file: two worlds that hold the
    same file have, after [loadBinsFromFile], the same bins and the same
    counter, whatever their stores were before; the load leaves the file
    as it is and never throws.  So a second load in a row changes
    neither the bins nor the counter. *)
Theorem load_reads_only_the_file (system_clock : nat -> Z) (w1 w2 : world) :
  data_file w1 = data_file w2 ->
  let w1' := snd (loadBinsFromFile system_clock w1) in
  let w2' := snd (loadBinsFromFile system_clock w2) in
  fst (loadBinsFromFile system_clock w1) = Ok tt
  /\ g_bins w1' = g_bins w2'
  /\ g_next_bin_id w1' = g_next_bin_id w2'
  /\ data_file w1' = data_file w1
  /\ g_bins (snd (loadBinsFromFile system_clock w1')) = g_bins w1'
  /\ g_next_bin_id (snd (loadBinsFromFile system_clock w1')) = g_next_bin_id w1'.
Proof.
  intros Hfile.
  assert (Hload : forall wa wb,
             data_file wa = data_file wb ->
             fst (loadBinsFromFile system_clock wa) = Ok tt
             /\ g_bins (snd (loadBinsFromFile system_clock wa))
                = g_bins (snd (loadBinsFromFile system_clock wb))
             /\ g_next_bin_id (snd (loadBinsFromFile system_clock wa))
                = g_next_bin_id (snd (loadBinsFromFile system_clock wb))
             /\ data_file (snd (loadBinsFromFile system_clock wa))
                = data_file wa).
  { intros wa wb H. rewrite !loadBinsFromFile_spec. unfold load_result.
    rewrite <- H. destruct (data_file wa) as [|[data|what]];
      try (repeat split; reflexivity).
    destruct (loaded (elements data)) as [bins [what|]]; repeat split. }
  cbv zeta.
  destruct (Hload w1 w2 Hfile) as (H1 & H2 & H3 & H4).
  destruct (Hload (snd (loadBinsFromFile system_clock w1)) w1 H4)
    as (_ & H5 & H6 & _).
  repeat split; assumption.
Qed.

Lemma load_reads_only_the_file_witness :
  g_bins (snd (loadBinsFromFile sample_clock broken_world))
  = g_bins (snd (loadBinsFromFile sample_clock
                   (mkWorld [] 1 (FileText (Ok broken_document)) 5 0
                      good_disk)))
  /\ g_next_bin_id (snd (loadBinsFromFile sample_clock broken_world))
     = g_next_bin_id (snd (loadBinsFromFile sample_clock
                             (mkWorld [] 1 (FileText (Ok broken_document)) 5 0
                                good_disk))).
Proof.
  destruct (load_reads_only_the_file sample_clock broken_world
              (mkWorld [] 1 (FileText (Ok broken_document)) 5 0 good_disk)
              eq_refl)
    as (_ & H2 & H3 & _).
  split; assumption.
Defined.

(** ** A service that starts without a file *)

(** A store as a service that starts without a file keeps it: ids that
    increase along the store, from 1 on and below the counter, and fill
    levels from 0 to 100. *)
Definition store_ok (bins : list WasteBin) (next : Z) : Prop :=
  StronglySorted Z.lt (map id bins)
  /\ Forall (fun i => 1 <= i < next) (map id bins)
  /\ Forall fill_ok bins.

(** The file is missing, or holds such a store, or holds what a cut
    write has left, which is no document. *)
Definition file_ok (file : file_state) (next : Z) : Prop :=
  match file with
  | NoFile => True
  | FileText (Throw _) => True
  | FileText (Ok (JArray items)) =>
      exists bins, items = map toJson bins /\ store_ok bins next
  | FileText (Ok _) => False
  end.

Definition healthy (w : world) : Prop :=
  1 <= g_next_bin_id w <= Int.max_int
  /\ store_ok (g_bins w) (g_next_bin_id w)
  /\ file_ok (data_file w) (g_next_bin_id w).

(** The elements that a request asks POST /bins to create. *)
Definition posted_by (r : request) : Z :=
  match r with
  | POST_bins (Ok requestData) =>
      Z.of_nat (List.length (request_items requestData))
  | _ => 0
  end.

Definition posted (requests : list request) : Z :=
  fold_right (fun r n => posted_by r + n) 0 requests.

Lemma store_ok_weaken bins next next' :
  next <= next' -> store_ok bins next -> store_ok bins next'.
Proof.
  intros Hle (Hs & Hi & Hf). repeat split; try assumption.
  eapply Forall_impl; [|exact Hi]. cbn. intros; lia.
Qed.

Lemma file_ok_weaken file next next' :
  next <= next' -> file_ok file next -> file_ok file next'.
Proof.
  intros Hle. destruct file as [|[[]|]]; cbn; try tauto.
  intros (bins & -> & H). exists bins. split; [reflexivity|].
  eapply store_ok_weaken; eassumption.
Qed.

Lemma store_ok_ids bins bins' next :
  map id bins' = map id bins -> Forall fill_ok bins' ->
  store_ok bins next -> store_ok bins' next.
Proof.
  intros Hids Hfill (Hs & Hi & _). unfold store_ok. rewrite Hids. auto.
Qed.

Lemma file_ok_saved outcome file bins next :
  file_ok file next -> store_ok bins next ->
  file_ok (file_after outcome file (JArray (map toJson bins))) next.
Proof.
  intros Hfile H. destruct outcome; cbn [file_after file_ok];
    [|exact Hfile|exact I].
  exists bins. split; [reflexivity|exact H].
Qed.

Lemma StronglySorted_snoc (l : list Z) x :
  StronglySorted Z.lt l -> Forall (fun y => y < x) l ->
  StronglySorted Z.lt (l ++ [x]).
Proof.
  induction 1 as [|y l Hs IH Hy]; intros Hx; cbn.
  - constructor; constructor.
  - inversion Hx; subst. constructor; [apply IH; assumption|].
    apply Forall_app. split; [exact Hy|]. constructor; [assumption|constructor].
Qed.

Lemma StronglySorted_erase (l : list Z) : forall it,
  StronglySorted Z.lt l -> StronglySorted Z.lt (erase l it).
Proof.
  induction l as [|y l IH]; intros it H; [destruct it; exact H|].
  inversion H; subst. destruct it; cbn [erase]; [assumption|].
  constructor; [apply IH; assumption|apply Forall_erase; assumption].
Qed.

Lemma map_erase {A B} (f : A -> B) l : forall it,
  map f (erase l it) = erase (map f l) it.
Proof.
  induction l as [|y l IH]; intros [|it]; cbn; rewrite ?IH; reflexivity.
Qed.

Lemma accepted_length items :
  (List.length (fst (accepted items)) <= List.length items)%nat.
Proof.
  induction items as [|binData items IH]; cbn [accepted]; [apply Nat.le_refl|].
  destruct (location_of binData); cbn; [|lia].
  destruct (accepted items). cbn in *. lia.
Qed.

Lemma new_bins_store_ok system_clock ls : forall next reads bins,
  1 <= next -> next + Z.of_nat (List.length ls) <= Int.max_int ->
  store_ok bins next ->
  store_ok (bins ++ new_bins system_clock ls next reads)
    (next + Z.of_nat (List.length ls)).
Proof.
  induction ls as [|l ls IH]; intros next reads bins H1 Hmax Hok.
  - cbn. rewrite app_nil_r, Z.add_0_r. exact Hok.
  - cbn [List.length new_bins] in *. rewrite Nat2Z.inj_succ in *.
    assert (Hs : Int.succ next = next + 1).
    { apply Int.succ_small; [|lia].
      unfold Int.in_range, Int.min_int, Int.max_int in *. lia. }
    replace (bins ++ mkBin next l 0 false
                       (getCurrentTimestamp (system_clock reads))
                  :: new_bins system_clock ls (Int.succ next) (S reads))
      with ((bins ++ [mkBin next l 0 false
                        (getCurrentTimestamp (system_clock reads))])
              ++ new_bins system_clock ls (Int.succ next) (S reads))
      by (rewrite <- app_assoc; reflexivity).
    replace (next + Z.succ (Z.of_nat (List.length ls)))
      with (Int.succ next + Z.of_nat (List.length ls)) by lia.
    apply IH; [lia|lia|]. rewrite Hs.
    destruct Hok as (Hsorted & Hids & Hfill). unfold store_ok.
    rewrite map_app. cbn [map id]. split; [|split].
    + apply StronglySorted_snoc; [exact Hsorted|].
      eapply Forall_impl; [|exact Hids]. cbn. intros; lia.
    + apply Forall_app. split.
      * eapply Forall_impl; [|exact Hids]. cbn. intros; lia.
      * constructor; [lia|constructor].
    + apply Forall_app. split; [exact Hfill|].
      constructor; [unfold fill_ok; cbn; lia|constructor].
Qed.

Lemma store_ok_bin_ok bins next :
  next <= Int.max_int -> store_ok bins next ->
  Forall bin_ok bins /\ Forall (fun b => id b < Int.max_int) bins.
Proof.
  intros Hmax (_ & Hids & Hfill).
  rewrite Forall_map in Hids. rewrite Forall_forall in Hids, Hfill.
  split; apply Forall_forall; intros b Hb; specialize (Hids b Hb);
    specialize (Hfill b Hb);
    unfold bin_ok, fill_ok, Int.in_range, Int.min_int, Int.max_int in *; lia.
Qed.

(** A load of a file that holds such a store. *)
Lemma load_store_ok bins next :
  1 <= next <= Int.max_int -> store_ok bins next ->
  loaded (map toJson bins) = (bins, None)
  /\ 1 <= next_id_of bins <= next
  /\ store_ok bins (next_id_of bins).
Proof.
  intros Hmax Hok.
  destruct (store_ok_bin_ok bins next ltac:(lia) Hok) as [Hbin Hlt].
  destruct (next_id_of_ahead bins Hbin Hlt) as (Hnext & _ & Hahead).
  pose proof Hok as (Hsorted & Hids & Hfill).
  split; [apply loaded_toJson; exact Hbin|].
  assert (Hrange : 1 <= next_id_of bins <= next).
  { rewrite Hnext. unfold max_id_plus_one.
    destruct bins as [|b rest]; [lia|].
    destruct (greatest_id_spec (b :: rest)) as [Hin _]; [discriminate|].
    rewrite Forall_forall in Hids. specialize (Hids _ Hin). lia. }
  split; [exact Hrange|].
  split; [exact Hsorted|]. split; [|exact Hfill].
  rewrite Forall_map. rewrite Forall_map in Hids.
  rewrite Forall_forall in Hids, Hahead. apply Forall_forall. intros b Hb.
  specialize (Hids b Hb). specialize (Hahead b Hb). lia.
Qed.

Lemma load_result_healthy w :
  healthy w ->
  let '(bins, next, reads) := load_result w in
  healthy (mkWorld bins next (data_file w) reads (rng_draws w) (disk w))
  /\ next <= g_next_bin_id w.
Proof.
  intros (Hnext & Hstore & Hfile). unfold load_result.
  destruct (data_file w) as [|[data|what]] eqn:E; cbn [file_ok] in Hfile.
  - split; [|lia]. unfold healthy. cbn.
    repeat split; try lia; constructor.
  - destruct data; try contradiction.
    destruct Hfile as (bins & -> & Hbins). cbn [elements].
    destruct (load_store_ok bins (g_next_bin_id w) ltac:(lia) Hbins)
      as (Hloaded & Hrange & Hok).
    rewrite Hloaded. split; [|lia].
    unfold healthy. cbn [g_next_bin_id g_bins data_file].
    split; [lia|]. split; [exact Hok|].
    exists bins. split; [reflexivity|exact Hok].
  - split; [|lia]. unfold healthy. cbn.
    repeat split; try lia; constructor.
Qed.

Section Healthy.

Variable system_clock : nat -> Z.
Variable distrib : nat -> Z.
Variable std_sort :
  (WasteBin -> WasteBin -> bool) -> list WasteBin -> list WasteBin.

(** What [std::uniform_int_distribution<>(0, 100)] returns. *)
Hypothesis distrib_range : forall k, 0 <= distrib k <= 100.

Lemma handle_healthy r w :
  healthy w ->
  g_next_bin_id w + posted_by r <= Int.max_int ->
  healthy (snd (handle system_clock distrib std_sort r w))
  /\ g_next_bin_id (snd (handle system_clock distrib std_sort r w))
     <= g_next_bin_id w + posted_by r.
Proof.
  intros Hw Hmax. pose proof Hw as (Hnext & Hstore & Hfile).
  assert (Hsame : healthy w /\ g_next_bin_id w <= g_next_bin_id w + posted_by r).
  { split; [exact Hw|]. destruct r as [| |[]| | | | | |]; cbn; lia. }
  destruct r as [|digits|body|digits body|digits| | | |];
    cbn [handle posted_by] in *.
  - rewrite get_all_bins_spec. exact Hsame.
  - rewrite get_bin_spec. destruct (stoi digits); [|exact Hsame].
    destruct (find_if _ (g_bins w)) as [it|]; [|exact Hsame].
    destruct (nth_error (g_bins w) it); exact Hsame.
  - (* POST /bins *)
    rewrite post_bins_spec. destruct body as [requestData|what];
      [|exact Hsame].
    pose proof (accepted_length (request_items requestData)) as Hlen.
    destruct (accepted (request_items requestData)) as [ls complete].
    cbn [fst] in Hlen. cbv zeta.
    assert (Hiter : Nat.iter (List.length ls) Int.succ (g_next_bin_id w)
                    = g_next_bin_id w + Z.of_nat (List.length ls)).
    { apply iter_succ; [|lia].
      unfold Int.in_range, Int.min_int, Int.max_int in *. lia. }
    pose proof (new_bins_store_ok system_clock ls (g_next_bin_id w)
                  (clock_reads w) (g_bins w) ltac:(lia) ltac:(lia) Hstore)
      as Hnew.
    destruct complete; cbn [snd g_next_bin_id]; rewrite Hiter;
      (split; [|lia]); unfold healthy;
      cbn [g_next_bin_id g_bins data_file];
      (split; [lia|]); (split; [exact Hnew|]).
    + rewrite to_json_array_spec. apply file_ok_saved; [|exact Hnew].
      eapply file_ok_weaken; [|exact Hfile]. lia.
    + eapply file_ok_weaken; [|exact Hfile]. lia.
  - (* PUT /bins/{id} *)
    destruct (stoi digits) as [binId|what] eqn:Hid.
    2:{ destruct (put_bin_error system_clock digits body w) as [e ->];
          [left; rewrite Hid; reflexivity|exact Hsame]. }
    destruct body as [updateData|what].
    2:{ destruct (put_bin_error system_clock digits (Throw what) w) as [e ->];
          [right; reflexivity|exact Hsame]. }
    destruct (find_if (fun bin => id bin =? binId) (g_bins w)) as [it|] eqn:Hf.
    + rewrite (put_bin_found system_clock digits binId updateData it w Hid Hf).
      cbn [snd g_next_bin_id]. split; [|lia].
      assert (Hok : store_ok
                      (assign_at (g_bins w) it
                         (updated updateData
                            (getCurrentTimestamp
                               (system_clock (clock_reads w)))))
                      (g_next_bin_id w)).
      { apply (store_ok_ids (g_bins w)); [| |exact Hstore].
        - apply map_id_assign_at. intros b. apply updated_id.
        - apply Forall_assign_at; [|apply Hstore].
          intros b. apply updated_fill_ok. }
      unfold healthy. cbn [g_next_bin_id g_bins data_file].
      split; [lia|]. split; [exact Hok|apply file_ok_saved; [exact Hfile|exact Hok]].
    + rewrite (put_bin_not_found system_clock digits binId updateData w Hid Hf).
      exact Hsame.
  - (* DELETE /bins/{id} *)
    rewrite delete_bin_by_id_spec.
    destruct (stoi digits) as [binId|]; [|exact Hsame].
    destruct (find_if _ (g_bins w)) as [it|]; [|exact Hsame].
    cbv zeta. cbn [snd g_next_bin_id]. split; [|lia].
    assert (Hok : store_ok (erase (g_bins w) it) (g_next_bin_id w)).
    { destruct Hstore as (Hs & Hi & Hfill). unfold store_ok.
      rewrite map_erase. split; [apply StronglySorted_erase; exact Hs|].
      split; apply Forall_erase; assumption. }
    unfold healthy. cbn [g_next_bin_id g_bins data_file].
    split; [lia|]. split; [exact Hok|apply file_ok_saved; [exact Hfile|exact Hok]].
  - (* POST /bins/collect-sensor-data *)
    rewrite collect_sensor_data_spec.
    destruct (g_bins w) as [|b rest] eqn:Hbins; [exact Hsame|].
    rewrite <- Hbins in *. cbv zeta. cbn [snd g_next_bin_id]. split; [|lia].
    assert (Hok : store_ok
                    (sensed system_clock distrib (g_bins w) (clock_reads w)
                       (rng_draws w))
                    (g_next_bin_id w)).
    { apply (store_ok_ids (g_bins w)); [| |exact Hstore].
      - apply sensed_ids.
      - apply sensed_fill_ok. exact distrib_range. }
    unfold healthy. cbn [g_next_bin_id g_bins data_file].
    split; [lia|]. split; [exact Hok|apply file_ok_saved; [exact Hfile|exact Hok]].
  - unfold optimize_route, bind, get_bins.
    destruct (computeRoute std_sort (g_bins w)); exact Hsame.
  - (* POST /admin/load-data *)
    rewrite admin_load_data_spec.
    pose proof (load_result_healthy w Hw) as Hload.
    destruct (load_result w) as [[bins next] reads].
    cbn [snd g_next_bin_id]. destruct Hload as [Hload Hle].
    split; [exact Hload|lia].
  - (* POST /admin/save-data *)
    rewrite admin_save_data_spec. cbn [snd g_next_bin_id]. split; [|lia].
    unfold healthy. cbn [g_next_bin_id g_bins data_file].
    split; [lia|]. split; [exact Hstore|apply file_ok_saved; [exact Hfile|exact Hstore]].
Qed.

Lemma run_healthy requests : forall w,
  healthy w ->
  g_next_bin_id w + posted requests <= Int.max_int ->
  healthy (run system_clock distrib std_sort requests w).
Proof.
  induction requests as [|r rest IH]; intros w Hw Hmax; [exact Hw|].
  cbn [posted fold_right] in Hmax. fold (posted rest) in Hmax.
  assert (Hrest : 0 <= posted rest).
  { clear. induction rest as [|r rest IH]; cbn; [lia|].
    fold (posted rest). destruct r as [| |[]| | | | | |]; cbn; lia. }
  destruct (handle_healthy r w Hw ltac:(lia)) as [Hw' Hnext].
  cbn [run fold_left]. apply IH; [exact Hw'|lia].
Qed.

End Healthy.

(** X26.  A service that starts without a data file keeps its ids in
    order: whatever requests it serves and whatever becomes of its
    writes, as long as fewer than [INT_MAX] elements are posted in all,
    the ids of the store increase along the store (so no two bins share
    an id), every id is at least 1 and below the counter, and every
    fill level lies from 0 to 100. *)
Theorem fresh_service_keeps_ids_distinct (system_clock distrib : nat -> Z)
    (std_sort : (WasteBin -> WasteBin -> bool) -> list WasteBin -> list WasteBin)
    (outcomes : nat -> write_outcome) (requests : list request) :
  (forall k, 0 <= distrib k <= 100) ->
  1 + posted requests <= Int.max_int ->
  let w := main system_clock distrib std_sort NoFile outcomes requests in
  StronglySorted Z.lt (map id (g_bins w))
  /\ NoDup (map id (g_bins w))
  /\ Forall (fun b => 1 <= id b < g_next_bin_id w) (g_bins w)
  /\ Forall fill_ok (g_bins w)
  /\ g_next_bin_id w <= Int.max_int.
Proof.
  intros Hdistrib Hmax w. subst w. unfold main.
  change (snd (loadBinsFromFile system_clock (initial_world NoFile outcomes)))
    with (initial_world NoFile outcomes).
  destruct (run_healthy system_clock distrib std_sort Hdistrib requests
              (initial_world NoFile outcomes))
    as (Hnext & (Hsorted & Hids & Hfill) & _).
  - unfold healthy, store_ok. cbn. repeat split; try lia; constructor.
  - exact Hmax.
  - split; [exact Hsorted|].
    split; [apply StronglySorted_lt_NoDup; exact Hsorted|].
    split; [rewrite Forall_map in Hids; exact Hids|].
    split; [exact Hfill|lia].
Qed.

Definition a_day_of_requests : list request :=
  [ POST_bins (Ok two_places);
    POST_collect_sensor_data;
    DELETE_bin 1;
    POST_bins (Ok (JArray [ JObject [("location", JString "Quay")];
                            JObject [] ]));
    POST_admin_load_data;
    PUT_bin 2 (Ok new_place) ].

(** A disk that refuses the first write, cuts the second one and takes
    the others. *)
Definition flaky_disk (k : nat) : write_outcome :=
  match k with
  | O => Refused
  | S O => Truncated "[json.exception.parse_error.101] unexpected end of input"
  | _ => Written
  end.

Lemma fresh_service_keeps_ids_distinct_witness :
  NoDup (map id (g_bins (main sample_clock sample_distrib insertion_sort NoFile
                           flaky_disk a_day_of_requests)))
  /\ Forall fill_ok (g_bins (main sample_clock sample_distrib insertion_sort
                               NoFile flaky_disk a_day_of_requests)).
Proof.
  destruct (fresh_service_keeps_ids_distinct sample_clock sample_distrib
              insertion_sort flaky_disk a_day_of_requests sample_distrib_range)
    as (_ & H2 & _ & H4 & _).
  - unfold Int.max_int. cbn. lia.
  - split; assumption.
Defined.
